(** * RepoGPT: the crawler's chunk annotation pipeline

    A shallow embedding of [repogpt/crawler.py] and of
    [repogpt/parsers/treesitter_parser.py].

    Python values are modelled as follows: [int] as [Z]; [str] as [string]
    (one [ascii] per element of the [str]); [dict] as stdpp's [gmap]; [list]
    as [list]; an exception that leaves a function as the [Raise] case of
    [result].  The collaborators the crawler calls but does not define
    (langchain's loader and splitter, tree-sitter, the operating system, the
    parsers of other modules) are the fields of the classes [TreeSitter] and
    [World]; so is what the interpreter's recursion limit leaves to
    [traverse].  The loop of [process_file] is given on values, in
    [Crawler], and on the objects that it rewrites in place, in [InPlace]. *)

From Stdlib Require Import ZArith String Ascii List Sorted Permutation.
From stdpp Require Import base decidable option list strings gmap pretty.

Set Warnings "-register-all".

Local Open Scope string_scope.

(** ** Exceptions and results *)

(** The exceptions that occur; all of them are subclasses of [Exception].
    [RecursionError] is the one that the interpreter raises for a call that
    would nest deeper than its recursion limit. *)
Inductive exn : Type :=
  | KeyError (key : string)
  | IndexError
  | TypeError
  | RecursionError
  | ValueError (msg : string)
  | OtherError (kind msg : string).

Inductive result (A : Type) : Type :=
  | Ok (a : A)
  | Raise (e : exn).
Arguments Ok {A} a.
Arguments Raise {A} e.

Definition bind {A B : Type} (r : result A) (k : A -> result B) : result B :=
  match r with
  | Ok a => k a
  | Raise e => Raise e
  end.

Notation "'let!' x ':=' r 'in' k" := (bind r (fun x => k))
  (at level 10, x pattern, r at level 100, k at level 200).

(** ** Python strings *)

Module PyStr.

Definition newline : ascii := "010"%char.
Definition sep : ascii := "/"%char.
Definition extsep : ascii := "."%char.

(** [s.count(c)] for a one-character [c]. *)
Fixpoint count (c : ascii) (s : string) : Z :=
  match s with
  | EmptyString => 0
  | String a s' => ((if Ascii.eqb a c then 1 else 0) + count c s')%Z
  end.

Definition len (s : string) : Z := Z.of_nat (String.length s).

(** One bound of a slice, as CPython adjusts it: a negative index counts
    from the end, and the result is clipped to [0 .. len]. *)
Definition adjust (n : Z) (i : Z) : Z :=
  let i' := if (i <? 0)%Z then (i + n)%Z else i in
  if (i' <? 0)%Z then 0%Z else if (n <=? i')%Z then n else i'.

(** [s[start:stop]]; [None] is an omitted bound. *)
Definition slice (s : string) (start stop : option Z) : string :=
  let n := len s in
  let lo := match start with None => 0%Z | Some i => adjust n i end in
  let hi := match stop with None => n | Some i => adjust n i end in
  String.substring (Z.to_nat lo) (Z.to_nat (hi - lo)) s.

(** The first [k] characters of [s]. *)
Fixpoint take (k : nat) (s : string) : string :=
  match k, s with
  | S k', String a s' => String a (take k' s')
  | _, _ => EmptyString
  end.

Definition startswith (s : string) (c : ascii) : bool :=
  match s with
  | String a _ => Ascii.eqb a c
  | EmptyString => false
  end.

Fixpoint endswith (s : string) (c : ascii) : bool :=
  match s with
  | EmptyString => false
  | String a EmptyString => Ascii.eqb a c
  | String _ s' => endswith s' c
  end.

(** [s.split(c)]: every occurrence of [c] separates two fields, so the
    result is never empty and fields may be empty. *)
Fixpoint split (c : ascii) (s : string) : list string :=
  match s with
  | EmptyString => [EmptyString]
  | String a s' =>
      if Ascii.eqb a c then EmptyString :: split c s'
      else match split c s' with
           | f :: fs => String a f :: fs
           | [] => [String a EmptyString]
           end
  end.

(** [s.rfind(c)]: the last index of [c], [-1] when there is none. *)
Fixpoint rfind_from (c : ascii) (s : string) (i last : Z) : Z :=
  match s with
  | EmptyString => last
  | String a s' => rfind_from c s' (i + 1)%Z (if Ascii.eqb a c then i else last)
  end.

Definition rfind (c : ascii) (s : string) : Z := rfind_from c s 0%Z (-1)%Z.

(** [str(n)] for an [int]. *)
Definition of_int (n : Z) : string := pretty n.

Definition squote : ascii := "039"%char.
Definition dquote : ascii := "034"%char.
Definition backslash : ascii := "092"%char.

(** [c in s] for a one-character [c]. *)
Fixpoint contains (c : ascii) (s : string) : bool :=
  match s with
  | EmptyString => false
  | String a s' => orb (Ascii.eqb a c) (contains c s')
  end.

(** [c.isprintable()] for the characters below 256: the controls, the
    no-break space and the soft hyphen are not printable. *)
Definition isprintable (c : ascii) : bool :=
  let n := N_of_ascii c in
  orb (andb (32 <=? n)%N (n <? 127)%N) (andb (160 <? n)%N (negb (n =? 173)%N)).

Definition hexdigit (n : N) : ascii :=
  ascii_of_N (if (n <? 10)%N then 48 + n else 87 + n).

(** What [repr] writes for one character inside the quotes [quote]. *)
Definition repr_char (quote c : ascii) : string :=
  let n := N_of_ascii c in
  if orb (Ascii.eqb c quote) (Ascii.eqb c backslash)
  then String backslash (String c EmptyString)
  else if (n =? 9)%N then String backslash "t"
  else if (n =? 10)%N then String backslash "n"
  else if (n =? 13)%N then String backslash "r"
  else if isprintable c then String c EmptyString
  else String backslash
         (String "x" (String (hexdigit (n / 16)) (String (hexdigit (n mod 16))
                                                     EmptyString))).

Fixpoint repr_chars (quote : ascii) (s : string) : string :=
  match s with
  | EmptyString => EmptyString
  | String c s' => repr_char quote c +:+ repr_chars quote s'
  end.

(** [repr(s)]: between single quotes, or between double quotes when [s]
    holds a single quote and no double quote; the quote in use, the
    backslash and what is not printable are escaped. *)
Definition repr (s : string) : string :=
  let quote :=
    if andb (contains squote s) (negb (contains dquote s)) then dquote else squote in
  String quote (repr_chars quote s +:+ String quote EmptyString).

End PyStr.

(** [str(e)] as the log messages use it: [str(KeyError(k))] is [repr(k)]. *)
Definition exn_str (e : exn) : string :=
  match e with
  | KeyError k => PyStr.repr k
  | IndexError => "list index out of range"
  | TypeError => "slice indices must be integers or None or have an __index__ method"
  | RecursionError => "maximum recursion depth exceeded"
  | ValueError m => m
  | OtherError _ m => m
  end.

(** ** [os.path] and [fnmatch] on a POSIX system *)

Module OsPath.

(** [os.path.join(a, b)]. *)
Definition join (a b : string) : string :=
  if PyStr.startswith b PyStr.sep then b
  else if orb (String.eqb a "") (PyStr.endswith a PyStr.sep) then a +:+ b
  else a +:+ "/" +:+ b.

(** The loop of [genericpath._splitext] that skips the leading dots of
    the file name; it runs while [filenameIndex < dotIndex], that is at
    most [steps] times. *)
Fixpoint splitext_scan (p : string) (dotIndex filenameIndex : Z) (steps : nat)
  : string * string :=
  match steps with
  | O => (p, PyStr.slice p None (Some 0%Z))
  | S k =>
      if negb (String.eqb
                 (PyStr.slice p (Some filenameIndex) (Some (filenameIndex + 1)%Z))
                 ".")
      then (PyStr.slice p None (Some dotIndex), PyStr.slice p (Some dotIndex) None)
      else splitext_scan p dotIndex (filenameIndex + 1)%Z k
  end.

(** [os.path.splitext(p)]. *)
Definition splitext (p : string) : string * string :=
  let sepIndex := PyStr.rfind PyStr.sep p in
  let dotIndex := PyStr.rfind PyStr.extsep p in
  if (sepIndex <? dotIndex)%Z
  then splitext_scan p dotIndex (sepIndex + 1)%Z
         (Z.to_nat (dotIndex - (sepIndex + 1)))
  else (p, PyStr.slice p None (Some 0%Z)).

End OsPath.

Module Fnmatch.

(** Shell-style matching of a whole name against a pattern in which [*]
    stands for any run of characters and [?] for any one character.
    Bracket expressions are not part of this model: the crawler's only
    pattern is ['.*']. *)
Fixpoint glob (pat : string) (s : string) : bool :=
  match pat with
  | EmptyString => match s with EmptyString => true | _ => false end
  | String c pat' =>
      if Ascii.eqb c "*" then
        (fix star (s : string) : bool :=
           orb (glob pat' s)
               (match s with
                | EmptyString => false
                | String _ s' => star s'
                end)) s
      else if Ascii.eqb c "?" then
        match s with
        | EmptyString => false
        | String _ s' => glob pat' s'
        end
      else
        match s with
        | EmptyString => false
        | String a s' => andb (Ascii.eqb a c) (glob pat' s')
        end
  end.

Definition fnmatch (name pat : string) : bool := glob pat name.

End Fnmatch.

(** ** Python lists and dicts *)

Module PyList.

(** [l[i]]: a negative index counts from the end; [IndexError] outside. *)
Definition getitem {A : Type} (l : list A) (i : Z) : result A :=
  let n := Z.of_nat (length l) in
  let i' := if (i <? 0)%Z then (i + n)%Z else i in
  if (i' <? 0)%Z then Raise IndexError
  else match l !! Z.to_nat i' with
       | Some x => Ok x
       | None => Raise IndexError
       end.

(** Insertion of [x] in front of a list sorted by [key]; [x] goes before
    the elements with an equal key. *)
Fixpoint insert_by {A : Type} (key : A -> Z) (x : A) (l : list A) : list A :=
  match l with
  | [] => [x]
  | y :: l' =>
      if (key x <=? key y)%Z then x :: y :: l' else y :: insert_by key x l'
  end.

(** [sorted(l, key=key)]: ascending by [key], and stable, which fixes the
    result: elements with equal keys keep the order they have in [l]. *)
Definition sorted {A : Type} (l : list A) (key : A -> Z) : list A :=
  foldr (insert_by key) [] l.

End PyList.

Module PyDict.

(** [d[k]]: [KeyError] when [k] is not a key of [d]. *)
Definition getitem {V : Type} (d : gmap string V) (k : string) : result V :=
  match d !! k with
  | Some v => Ok v
  | None => Raise (KeyError k)
  end.

(** [k in d]. *)
Definition contains {V : Type} (d : gmap string V) (k : string) : bool :=
  match d !! k with
  | Some _ => true
  | None => false
  end.

End PyDict.

(** ** Data model *)

(** A value of a [Document]'s metadata. *)
Inductive pyval : Type :=
  | VInt (n : Z)
  | VStr (s : string).

(** langchain's [Document]. *)
Record Document : Type := mkDocument {
  page_content : string;
  metadata : gmap string pyval
}.

(** The members of langchain's [Language] enumeration that [LANG_MAPPING]
    names. *)
Inductive Language : Type :=
  | PYTHON | CPP | JAVA | GO | JS | PHP | PROTO | RST | RUBY | SCALA | SWIFT
  | MARKDOWN | LATEX | HTML.

(** [SummaryPosition(name, start_line, end_line)] of [repogpt.parsers.base],
    with the field names that the sort key of [get_file_summary] shows. *)
Record SummaryPosition : Type := mkSummaryPosition {
  name : string;
  start_line : Z;
  end_line : Z
}.

(** [FileSummary] of [repogpt.parsers.base]: a new one has no method and no
    class. *)
Record FileSummary : Type := mkFileSummary {
  methods : list SummaryPosition;
  classes : list SummaryPosition
}.

Definition FileSummary_new : FileSummary :=
  {| methods := []; classes := [] |}.

(** A node of a tree-sitter syntax tree. *)
Inductive Node : Type :=
  mkNode (type : string) (children : list Node)
         (start_point end_point : Z * Z) (start_byte end_byte : Z).

Definition node_type (n : Node) : string :=
  match n with mkNode t _ _ _ _ _ => t end.
Definition node_children (n : Node) : list Node :=
  match n with mkNode _ c _ _ _ _ => c end.
Definition node_start_point (n : Node) : Z * Z :=
  match n with mkNode _ _ p _ _ _ => p end.
Definition node_end_point (n : Node) : Z * Z :=
  match n with mkNode _ _ _ p _ _ => p end.
Definition node_start_byte (n : Node) : Z :=
  match n with mkNode _ _ _ _ b _ => b end.
Definition node_end_byte (n : Node) : Z :=
  match n with mkNode _ _ _ _ _ b => b end.

(** A loaded tree-sitter grammar, [Language(path, name)]. *)
Record Grammar : Type := mkGrammar {
  library_path : string;
  grammar_name : string
}.

(** What the log and the loader see of a run, in order. *)
Inductive event : Type :=
  | LogInfo (msg : string)
  | LogError (msg : string)
  | Load (path : string)
  | Process (path : string).

(** ** The collaborators *)

Class TreeSitter : Type := {
  (** [Language.build_library(output, [repo])] *)
  build_library : string -> list string -> result unit;
  (** [Language(path, name)] *)
  Language_new : string -> string -> result Grammar;
  (** [parser.set_language(language); parser.parse(bytes(code, "utf-8"))],
      the root node of the tree *)
  parse : Grammar -> string -> result Node;
  (** the number of calls that may nest when [get_file_summary] calls
      [traverse]: what the interpreter's recursion limit leaves there *)
  recursion_limit : nat;
  (** the number of nested calls that one [SummaryPosition(...)] makes *)
  SummaryPosition_frames : nat
}.

Class World : Type := {
  (** [os.path.isdir] *)
  os_path_isdir : string -> bool;
  (** [os.walk(root)]: [(dir_path, dir_names, filenames)] per directory *)
  os_walk : string -> list (string * list string * list string);
  (** [TextLoader(path, encoding='utf-8').load()] *)
  TextLoader_load : string -> result (list Document);
  (** [RecursiveCharacterTextSplitter.from_language(language, chunk_size,
      chunk_overlap, add_start_index=True).split_documents(docs)]; the
      chunks are new documents, each with a metadata dict of its own *)
  split_documents : Language -> Z -> Z -> list Document -> result (list Document);
  (** the [get_file_summary] of the parsers of other modules *)
  PythonParser_get_file_summary : string -> string -> result FileSummary;
  CppTreeSitterParser_get_file_summary : string -> string -> result FileSummary;
  JavaTreeSitterParser_get_file_summary : string -> string -> result FileSummary;
  JsTreeSitterParser_get_file_summary : string -> string -> result FileSummary;
  GoTreeSitterParser_get_file_summary : string -> string -> result FileSummary;
  (** [TreeSitterParser.get_closest_method_class_in_snippet(file_summary,
      starting_line, ending_line)] of [repogpt.parsers.treesitter] *)
  get_closest_method_class_in_snippet : FileSummary -> Z -> Z -> result string
}.

(** ** [repogpt/parsers/treesitter_parser.py] *)

Module TreeSitterParser.

(** The class attributes [languages] and [loaded]. *)
Record registry : Type := mkRegistry {
  languages : gmap string Grammar;
  loaded : bool
}.

Definition initial : registry := {| languages := ∅; loaded := false |}.

Definition LANGUAGE_NAMES : list string :=
  ["python"; "java"; "cpp"; "go"; "rust"; "ruby"; "php"].

Definition extension_to_language : gmap string string :=
  list_to_map
    [(".py", "python"); (".rs", "rust"); (".go", "go"); (".java", "java");
     (".cpp", "cpp"); (".cc", "cpp"); (".cxx", "cpp"); (".c", "cpp");
     (".h", "cpp"); (".hpp", "cpp"); (".rb", "ruby"); (".php", "php")].

Section WithTreeSitter.
Context `{TreeSitter}.

(** The second loop of [initialize_treesitter]. *)
Fixpoint build_all (names : list string) : result unit :=
  match names with
  | [] => Ok tt
  | language :: rest =>
      let! _ := build_library ("cache/build/" +:+ language +:+ ".so")
                  ["cache/tree-sitter-" +:+ language] in
      build_all rest
  end.

(** The dict comprehension of [initialize_treesitter]. *)
Fixpoint load_all (names : list string) : result (gmap string Grammar) :=
  match names with
  | [] => Ok ∅
  | language :: rest =>
      let! g := Language_new ("/tmp/" +:+ language +:+ ".so") language in
      let! m := load_all rest in
      Ok (<[language := g]> m)
  end.

(** [initialize_treesitter()]; the commands it runs in a shell do not
    raise when they fail. *)
Definition initialize_treesitter (st : registry) : result unit * registry :=
  match build_all LANGUAGE_NAMES with
  | Raise e => (Raise e, st)
  | Ok _ =>
      match load_all LANGUAGE_NAMES with
      | Raise e => (Raise e, st)
      | Ok m => (Ok tt, {| languages := m; loaded := true |})
      end
  end.

Definition append_method (fs : FileSummary) (p : SummaryPosition) : FileSummary :=
  {| methods := (methods fs ++ [p])%list; classes := classes fs |}.

Definition append_class (fs : FileSummary) (p : SummaryPosition) : FileSummary :=
  {| methods := methods fs; classes := (classes fs ++ [p])%list |}.

(** [SummaryPosition(name, first, last)] at a place where [frames] more
    calls may nest. *)
Definition SummaryPosition_new (frames : nat) (name : string) (first last : Z)
  : result SummaryPosition :=
  if (SummaryPosition_frames <=? frames)%nat
  then Ok (mkSummaryPosition name first last)
  else Raise RecursionError.

(** The local function [traverse]; [file_summary] is the object that it
    appends to. [frames] is the number of calls that may still nest, this
    call included: a call with none left raises [RecursionError]. *)
Fixpoint traverse (frames : nat) (code : string) (node : Node) (current_line : Z)
         (file_summary : FileSummary) {struct node} : result FileSummary :=
  match frames with
  | O => Raise RecursionError
  | S frames' =>
      let! fs1 :=
        if String.eqb (node_type node) "function_definition" then
          let! function_name_node := PyList.getitem (node_children node) 1 in
          let function_name :=
            PyStr.slice code (Some (node_start_byte function_name_node))
                        (Some (node_end_byte function_name_node)) in
          let! position :=
            SummaryPosition_new frames' function_name
              (fst (node_start_point node)) (fst (node_end_point node)) in
          Ok (append_method file_summary position)
        else Ok file_summary in
      let! fs2 :=
        if String.eqb (node_type node) "class_specifier" then
          let! class_name_node := PyList.getitem (node_children node) 1 in
          let class_name :=
            PyStr.slice code (Some (node_start_byte class_name_node))
                        (Some (node_end_byte class_name_node)) in
          let! position :=
            SummaryPosition_new frames' class_name
              (fst (node_start_point node)) (fst (node_end_point node)) in
          Ok (append_class fs1 position)
        else Ok fs1 in
      match node with
      | mkNode _ children _ _ _ _ =>
          (fix each_child (cs : list Node) (fs : FileSummary) : result FileSummary :=
             match cs with
             | [] => Ok fs
             | child :: cs' =>
                 match traverse frames' code child current_line fs with
                 | Ok fs' => each_child cs' fs'
                 | Raise e => Raise e
                 end
             end) children fs2
      end
  end.

(** The body of [get_file_summary] once the grammars are available. *)
Definition summarize (st : registry) (code file_name : string) : result FileSummary :=
  let file_summary := FileSummary_new in
  let extension := snd (OsPath.splitext file_name) in
  if PyDict.contains extension_to_language extension then
    let! language_name := PyDict.getitem extension_to_language extension in
    let! language := PyDict.getitem (languages st) language_name in
    let! root_node := parse language code in
    let! file_summary := traverse recursion_limit code root_node 0 file_summary in
    Ok {| methods := PyList.sorted (methods file_summary) start_line;
          classes := PyList.sorted (classes file_summary) start_line |}
  else Ok file_summary.

(** [TreeSitterParser.get_file_summary(code, file_name)], with the class
    attributes before and after the call. *)
Definition get_file_summary (st : registry) (code file_name : string)
  : result FileSummary * registry :=
  let '(r, st1) :=
    if loaded st then (Ok tt, st) else initialize_treesitter st in
  match r with
  | Raise e => (Raise e, st1)
  | Ok _ => (summarize st1 code file_name, st1)
  end.

End WithTreeSitter.

End TreeSitterParser.

(** ** [repogpt/crawler.py] *)

Module Crawler.

Definition LANG_MAPPING : gmap string Language :=
  list_to_map
    [(".py", PYTHON); (".cpp", CPP); (".cc", CPP); (".cxx", CPP); (".h", CPP);
     (".hpp", CPP); (".java", JAVA); (".go", GO); (".js", JS); (".ts", JS);
     (".php", PHP); (".proto", PROTO); (".rs", RST); (".rb", RUBY);
     (".scala", SCALA); (".swift", SWIFT); (".md", MARKDOWN); (".tex", LATEX);
     (".html", HTML)].

Record FileProperties : Type := mkFileProperties {
  dir_path : string;
  file_name : string;
  extension : string
}.

(** [contains_hidden_dir(dir_path)] *)
Definition contains_hidden_dir (dir_path : string) : bool :=
  let directories := PyStr.split PyStr.sep dir_path in
  existsb (fun directory => Fnmatch.fnmatch directory ".*") directories.

(** The text that the loop of [process_file] gives to a chunk. *)
Definition annotation (path : string) (starting_line ending_line : Z)
           (method_class_summary chunk_text : string) : string :=
  "The following code snippet is from a file at location "
  +:+ path +:+ " "
  +:+ "starting at line " +:+ PyStr.of_int starting_line
  +:+ " and ending at line " +:+ PyStr.of_int ending_line +:+ ". "
  +:+ method_class_summary +:+ " "
  +:+ "The code snippet starting at line " +:+ PyStr.of_int starting_line
  +:+ " and ending at line "
  +:+ PyStr.of_int ending_line +:+ " is " +:+ String PyStr.newline " ```"
  +:+ String PyStr.newline chunk_text
  +:+ String PyStr.newline "``` ".

Definition DEFAULT_CHUNK_SIZE : Z := 3000.
Definition DEFAULT_CHUNK_OVERLAP : Z := 0.

Section WithWorld.
Context `{World}.

(** [is_git_dir(dir_path)] *)
Definition is_git_dir (dir_path : string) : bool :=
  let git_dir := OsPath.join dir_path ".git" in
  os_path_isdir git_dir.

(** The first step of [process_file]: the summary of the raw file. *)
Definition summary_for (code file_name extension : string) : result FileSummary :=
  if String.eqb extension ".py" then
    PythonParser_get_file_summary code file_name
  else if String.eqb extension ".cpp" then
    CppTreeSitterParser_get_file_summary code file_name
  else if String.eqb extension ".java" then
    JavaTreeSitterParser_get_file_summary code file_name
  else if String.eqb extension ".js" then
    JsTreeSitterParser_get_file_summary code file_name
  else if String.eqb extension ".go" then
    GoTreeSitterParser_get_file_summary code file_name
  else Ok FileSummary_new.

(** The body of the loop of [process_file], for one chunk [doc]. *)
Definition annotate (file_doc : Document) (dir_path file_name : string)
           (file_summary : FileSummary) (doc : Document) : result Document :=
  let! start_index := PyDict.getitem (metadata doc) "start_index" in
  let! o := match start_index with
            | VInt o => Ok o
            | VStr _ => Raise TypeError
            end in
  let starting_line :=
    (PyStr.count PyStr.newline (PyStr.slice (page_content file_doc) None (Some o)) + 1)%Z in
  let ending_line :=
    (starting_line + PyStr.count PyStr.newline (page_content doc))%Z in
  let metadata1 := <["starting_line" := VInt starting_line]> (metadata doc) in
  let metadata2 := <["ending_line" := VInt ending_line]> metadata1 in
  let! method_class_summary :=
    get_closest_method_class_in_snippet file_summary starting_line ending_line in
  Ok {| page_content :=
          annotation (OsPath.join dir_path file_name) starting_line ending_line
                     method_class_summary (page_content doc);
        metadata := metadata2 |}.

(** The loop of [process_file] over [split_docs]. *)
Fixpoint annotate_each (file_doc : Document) (dir_path file_name : string)
         (file_summary : FileSummary) (split_docs : list Document)
  : result (list Document) :=
  match split_docs with
  | [] => Ok []
  | doc :: rest =>
      let! doc' := annotate file_doc dir_path file_name file_summary doc in
      let! rest' := annotate_each file_doc dir_path file_name file_summary rest in
      Ok (doc' :: rest')
  end.

(** [process_file(file_contents, dir_path, file_name, extension,
    chunk_size, chunk_overlap)] *)
Definition process_file (file_contents : list Document)
           (dir_path file_name extension : string)
           (chunk_size chunk_overlap : Z) : result (list Document) :=
  let! file_doc := PyList.getitem file_contents 0 in
  let! file_summary := summary_for (page_content file_doc) file_name extension in
  let! language := PyDict.getitem LANG_MAPPING extension in
  let! split_docs := split_documents language chunk_size chunk_overlap file_contents in
  annotate_each file_doc dir_path file_name file_summary split_docs.

(** The body of the inner loop of [filter_files], for one [file] of the
    directory [dir_path]; the state is [files_to_crawl] and the log. *)
Definition filter_file (dir_path : string)
           (st : list FileProperties * list event) (file : string)
  : list FileProperties * list event :=
  let '(files_to_crawl, log) := st in
  let extension := snd (OsPath.splitext file) in
  if andb (PyDict.contains LANG_MAPPING extension)
          (negb (contains_hidden_dir dir_path))
  then ((files_to_crawl ++ [mkFileProperties dir_path file extension])%list, log)
  else (files_to_crawl,
        (log ++ [LogInfo ("Skipping " +:+ OsPath.join dir_path file
                          +:+ " - File or directory type not supported.")])%list).

(** The body of the outer loop of [filter_files]. *)
Definition filter_dir (st : list FileProperties * list event)
           (entry : string * list string * list string)
  : list FileProperties * list event :=
  let '(dir_path, dir_names, filenames) := entry in
  fold_left (filter_file dir_path) filenames st.

(** [filter_files(root_dir)] *)
Definition filter_files (root_dir : string)
  : result (list FileProperties) * list event :=
  if negb (is_git_dir root_dir) then
    (Raise (ValueError (root_dir +:+ " is not a valid git root directory")), [])
  else
    let '(files_to_crawl, log) := fold_left filter_dir (os_walk root_dir) ([], []) in
    (Ok files_to_crawl, log).

(** [process_and_split(file, chunk_size, chunk_overlap)]: [None] when an
    [Exception] was caught. *)
Definition process_and_split (file : FileProperties) (chunk_size chunk_overlap : Z)
  : option (list Document) * list event :=
  let path := OsPath.join (dir_path file) (file_name file) in
  match TextLoader_load path with
  | Raise e =>
      (None,
       [Load path;
        LogError ("Error processing file " +:+ path +:+ ". Skipping file. "
                  +:+ exn_str e)])
  | Ok file_contents =>
      match process_file file_contents (dir_path file) (file_name file)
              (extension file) chunk_size chunk_overlap with
      | Raise e =>
          (None,
           [Load path; Process path;
            LogError ("Error processing file " +:+ path +:+ ". Skipping file. "
                      +:+ exn_str e)])
      | Ok chunks => (Some chunks, [Load path; Process path])
      end
  end.

(** The body of the loop of [crawl_and_split]; the state is [split_docs]
    and what has been logged and loaded. *)
Definition crawl_file (chunk_size chunk_overlap : Z)
           (st : list Document * list event) (ff : FileProperties)
  : list Document * list event :=
  let '(split_docs, trace) := st in
  let '(docs, events) := process_and_split ff chunk_size chunk_overlap in
  match docs with
  | Some (d :: ds) => ((split_docs ++ d :: ds)%list, (trace ++ events)%list)
  | Some [] | None => (split_docs, (trace ++ events)%list)
  end.

(** [crawl_and_split(root_dir, chunk_size, chunk_overlap)] *)
Definition crawl_and_split (root_dir : string) (chunk_size chunk_overlap : Z)
  : result (list Document) * list event :=
  match filter_files root_dir with
  | (Raise e, trace) => (Raise e, trace)
  | (Ok filtered_files, trace) =>
      let '(split_docs, trace') :=
        fold_left (crawl_file chunk_size chunk_overlap) filtered_files ([], trace) in
      (Ok split_docs, trace')
  end.

End WithWorld.

End Crawler.

(** ** The loop of [process_file] on the objects that it rewrites *)

(** The loop of [process_file] changes the chunks where they are: a chunk is
    an object with a text and a metadata dict, and the dict is an object of
    its own. Here the loop runs on these objects, and the resolver, which is
    not part of this file, is given a state of its own that it may read and
    change at every call. *)
Module InPlace.

Definition address : Type := nat.

(** A [Document] object: its text and the address of its metadata dict. *)
Record DocumentObject : Type := mkDocumentObject {
  text : string;
  metadata_at : address
}.

(** The objects that the loop can reach. *)
Record heap : Type := mkHeap {
  documents : address -> DocumentObject;
  dicts : address -> gmap string pyval
}.

(** The document at [doc], as a value. *)
Definition value (h : heap) (doc : address) : Document :=
  {| page_content := text (documents h doc);
     metadata := dicts h (metadata_at (documents h doc)) |}.

(** [doc.metadata[key] = v] *)
Definition set_item (h : heap) (doc : address) (key : string) (v : pyval) : heap :=
  let m := metadata_at (documents h doc) in
  {| documents := documents h;
     dicts := fun a => if decide (a = m) then <[key := v]> (dicts h m) else dicts h a |}.

(** [doc.page_content = s] *)
Definition set_page_content (h : heap) (doc : address) (s : string) : heap :=
  {| documents := fun d =>
       if decide (d = doc)
       then {| text := s; metadata_at := metadata_at (documents h doc) |}
       else documents h d;
     dicts := dicts h |}.

Section WithResolver.
Context {R : Type}.
(** [TreeSitterParser.get_closest_method_class_in_snippet] with the state
    that it finds and the state that it leaves. *)
Context (resolver : R -> FileSummary -> Z -> Z -> result string * R).

(** The body of the loop of [process_file] for the chunk at [doc]; what was
    written before an exception stays written. *)
Definition annotate (file_doc : address) (dir_path file_name : string)
           (file_summary : FileSummary) (doc : address) (st : heap * R)
  : result unit * (heap * R) :=
  let '(h, r) := st in
  match PyDict.getitem (dicts h (metadata_at (documents h doc))) "start_index" with
  | Raise e => (Raise e, (h, r))
  | Ok (VStr _) => (Raise TypeError, (h, r))
  | Ok (VInt o) =>
      let starting_line :=
        (PyStr.count PyStr.newline
           (PyStr.slice (text (documents h file_doc)) None (Some o)) + 1)%Z in
      let ending_line :=
        (starting_line + PyStr.count PyStr.newline (text (documents h doc)))%Z in
      let h1 := set_item h doc "starting_line" (VInt starting_line) in
      let h2 := set_item h1 doc "ending_line" (VInt ending_line) in
      match resolver r file_summary starting_line ending_line with
      | (Raise e, r') => (Raise e, (h2, r'))
      | (Ok method_class_summary, r') =>
          (Ok tt,
           (set_page_content h2 doc
              (Crawler.annotation (OsPath.join dir_path file_name)
                 starting_line ending_line method_class_summary
                 (text (documents h2 doc))),
            r'))
      end
  end.

(** The loop of [process_file] over the chunks at [split_docs]. *)
Fixpoint annotate_each (file_doc : address) (dir_path file_name : string)
         (file_summary : FileSummary) (split_docs : list address) (st : heap * R)
  : result unit * (heap * R) :=
  match split_docs with
  | [] => (Ok tt, st)
  | doc :: rest =>
      match annotate file_doc dir_path file_name file_summary doc st with
      | (Raise e, st') => (Raise e, st')
      | (Ok _, st') =>
          annotate_each file_doc dir_path file_name file_summary rest st'
      end
  end.

End WithResolver.

End InPlace.

(** ** The specification's formulas *)

Module Spec.

(** The Line Resolver's [start_line = count_of('\n', text[0:o]) + 1]. *)
Definition resolve_start_line (text : string) (o : Z) : Z :=
  (PyStr.count PyStr.newline (PyStr.slice text (Some 0%Z) (Some o)) + 1)%Z.

(** The Line Resolver's [end_line = start_line + count_of('\n', chunk_text)]. *)
Definition resolve_end_line (start : Z) (chunk_text : string) : Z :=
  (start + PyStr.count PyStr.newline chunk_text)%Z.

(** The Chunk Annotator's text, with [indent] in front of the opening
    fence. *)
Definition annotated_text_with (indent path : string) (start_line end_line : Z)
           (context original_chunk_text : string) : string :=
  "The following code snippet is from a file at location " +:+ path
  +:+ " starting at line " +:+ PyStr.of_int start_line
  +:+ " and ending at line " +:+ PyStr.of_int end_line +:+ ". "
  +:+ context
  +:+ " The code snippet starting at line " +:+ PyStr.of_int start_line
  +:+ " and ending at line " +:+ PyStr.of_int end_line +:+ " is "
  +:+ String PyStr.newline (indent +:+ "```")
  +:+ String PyStr.newline original_chunk_text
  +:+ String PyStr.newline "``` ".

(** The Chunk Annotator's text, as the specification writes it: the
    opening fence follows the line break at once. *)
Definition annotated_text : string -> Z -> Z -> string -> string -> string :=
  annotated_text_with "".

(** The same text with no context sentence at all. *)
Definition annotated_text_no_context (indent path : string)
           (start_line end_line : Z) (original_chunk_text : string) : string :=
  "The following code snippet is from a file at location " +:+ path
  +:+ " starting at line " +:+ PyStr.of_int start_line
  +:+ " and ending at line " +:+ PyStr.of_int end_line +:+ ". "
  +:+ " The code snippet starting at line " +:+ PyStr.of_int start_line
  +:+ " and ending at line " +:+ PyStr.of_int end_line +:+ " is "
  +:+ String PyStr.newline (indent +:+ "```")
  +:+ String PyStr.newline original_chunk_text
  +:+ String PyStr.newline "``` ".

(** Non-decreasing by [start_line]. *)
Definition ascending (l : list SummaryPosition) : Prop :=
  StronglySorted (fun a b => (start_line a <= start_line b)%Z) l.

(** The extensions for which [process_file] asks a parser for a summary. *)
Definition parsed_extensions : list string := [".py"; ".cpp"; ".java"; ".js"; ".go"].

(** A component of a directory path is hidden when it starts with a dot. *)
Definition hidden (directory : string) : Prop :=
  PyStr.startswith directory PyStr.extsep = true.

(** The test of [filter_files] on a file of the directory [dir_path]. *)
Definition eligible (dir_path file : string) : bool :=
  andb (PyDict.contains Crawler.LANG_MAPPING (snd (OsPath.splitext file)))
       (negb (Crawler.contains_hidden_dir dir_path)).

(** What one file adds to [files_to_crawl]. *)
Definition queued_file (dir_path file : string) : list Crawler.FileProperties :=
  if eligible dir_path file
  then [Crawler.mkFileProperties dir_path file (snd (OsPath.splitext file))]
  else [].

(** What one entry of the walk adds to [files_to_crawl]. *)
Definition queued_dir (entry : string * list string * list string)
  : list Crawler.FileProperties :=
  flat_map (queued_file (fst (fst entry))) (snd entry).

Section WithWorld.
Context `{World}.

(** The chunks that a file adds to the result of a run: none when
    [process_and_split] returned [None]. *)
Definition chunks_of (chunk_size chunk_overlap : Z) (ff : Crawler.FileProperties)
  : list Document :=
  match fst (Crawler.process_and_split ff chunk_size chunk_overlap) with
  | Some docs => docs
  | None => []
  end.

(** What a file adds to the log of a run. *)
Definition events_of (chunk_size chunk_overlap : Z) (ff : Crawler.FileProperties)
  : list event :=
  snd (Crawler.process_and_split ff chunk_size chunk_overlap).

(** [file] is listed by the walk in the directory [dir_path]. *)
Definition walked (root_dir dir_path file : string) : Prop :=
  exists dir_names filenames,
    In (dir_path, dir_names, filenames) (os_walk root_dir) /\ In file filenames.

End WithWorld.

End Spec.

(** ** A small repository, for the examples *)

Module Sample.

Definition hello_py : string :=
  "def hello_world():" +:+ String PyStr.newline
  ("    print('Hello, World!')" +:+ String PyStr.newline
  (String PyStr.newline
  ("# Call the function" +:+ String PyStr.newline
  ("hello_world()" +:+ String PyStr.newline "")))).

Definition loaded_doc (path text : string) : Document :=
  {| page_content := text; metadata := {[ "source" := VStr path ]} |}.

(** A chunk of [d] that starts at offset [o] and ends before [stop]. *)
Definition chunk (d : Document) (o : Z) (stop : option Z) : Document :=
  {| page_content := PyStr.slice (page_content d) (Some o) stop;
     metadata := <["start_index" := VInt o]> (metadata d) |}.

(** A splitter that cuts every document once, after [chunk_size]
    characters (or at the end of the text when that comes first). *)
Definition cut (chunk_size : Z) (d : Document) : list Document :=
  let k := PyStr.adjust (PyStr.len (page_content d)) chunk_size in
  [chunk d 0 (Some k); chunk d k None].

Definition splitter (language : Language) (chunk_size chunk_overlap : Z)
           (docs : list Document) : result (list Document) :=
  if (chunk_size <? chunk_overlap)%Z
  then Raise (ValueError "Got a larger chunk overlap than chunk size.")
  else Ok (flat_map (cut chunk_size) docs).

(** A resolver that names the first method of the summary, if any. *)
Definition resolver (file_summary : FileSummary) (starting_line ending_line : Z)
  : result string :=
  match methods file_summary with
  | [] => Ok ""
  | m :: _ =>
      Ok ("In this file there is a method named " +:+ name m
          +:+ " starting on line " +:+ PyStr.of_int (start_line m) +:+ ".")
  end.

Definition python_summary (code file_name : string) : result FileSummary :=
  Ok {| methods := [mkSummaryPosition "hello_world" 0 1]; classes := [] |}.

Definition no_summary (code file_name : string) : result FileSummary :=
  Ok FileSummary_new.

Definition tree_walk : list (string * list string * list string) :=
  [("/repo", ["pkg"; ".git"], ["README.md"; "setup.cfg"]);
   ("/repo/pkg", ["sub"], []);
   ("/repo/pkg/sub", [], ["mod.py"; "bad.py"]);
   ("/repo/.git", ["objects"], ["config"]);
   ("/repo/.git/objects", [], ["pack.py"])].

Definition loader (path : string) : result (list Document) :=
  if String.eqb path "/repo/pkg/sub/bad.py"
  then Raise (OtherError "UnicodeDecodeError" "invalid start byte")
  else Ok [loaded_doc path hello_py].

#[local] Instance world : World := {|
  os_path_isdir := fun path => String.eqb path "/repo/.git";
  os_walk := fun root => if String.eqb root "/repo" then tree_walk else [];
  TextLoader_load := loader;
  split_documents := splitter;
  PythonParser_get_file_summary := python_summary;
  CppTreeSitterParser_get_file_summary := no_summary;
  JavaTreeSitterParser_get_file_summary := no_summary;
  JsTreeSitterParser_get_file_summary := no_summary;
  GoTreeSitterParser_get_file_summary := no_summary;
  get_closest_method_class_in_snippet := resolver
|}.

Definition leaf (type : string) (row : Z) (start_byte end_byte : Z) : Node :=
  mkNode type [] (row, 0%Z) (row, 0%Z) start_byte end_byte.

Definition function_node (row_start row_end : Z) (name_start name_end : Z) : Node :=
  mkNode "function_definition"
    [leaf "def" row_start 0 3; leaf "identifier" row_start name_start name_end]
    (row_start, 0%Z) (row_end, 0%Z) 0 0.

(** A tree whose two functions come in descending order of rows. *)
Definition tree : Node :=
  mkNode "module" [function_node 4 4 0 3; function_node 0 1 4 15]
    (0%Z, 0%Z) (5%Z, 0%Z) 0 0.

#[local] Instance tree_sitter : TreeSitter := {|
  build_library := fun _ _ => Ok tt;
  Language_new := fun path name => Ok (mkGrammar path name);
  parse := fun _ _ => Ok tree;
  recursion_limit := 990;
  SummaryPosition_frames := 1
|}.

Definition doc0 : Document := loaded_doc "/repo/pkg/sub/mod.py" hello_py.

Definition mod_py : Crawler.FileProperties :=
  Crawler.mkFileProperties "/repo/pkg/sub" "mod.py" ".py".

Definition bad_py : Crawler.FileProperties :=
  Crawler.mkFileProperties "/repo/pkg/sub" "bad.py" ".py".

Definition readme : Crawler.FileProperties :=
  Crawler.mkFileProperties "/repo" "README.md" ".md".

End Sample.

(** ** Trees, walks and traces *)

Module Tree.

(** The nodes of a tree, depth first, every node before its children. *)
Fixpoint preorder (node : Node) : list Node :=
  node ::
  match node with
  | mkNode _ children _ _ _ _ =>
      (fix each (cs : list Node) : list Node :=
         match cs with
         | [] => []
         | child :: cs' => (preorder child ++ each cs')%list
         end) children
  end.

Definition is_type (type : string) (node : Node) : bool :=
  String.eqb (node_type node) type.

(** The span that [traverse] appends for a definition node: its name is the
    text of the second child. *)
Definition span_of (code : string) (node : Node) : option SummaryPosition :=
  match node_children node !! 1%nat with
  | Some name_node =>
      Some (mkSummaryPosition
              (PyStr.slice code (Some (node_start_byte name_node))
                           (Some (node_end_byte name_node)))
              (fst (node_start_point node)) (fst (node_end_point node)))
  | None => None
  end.

(** The spans of the nodes of one type, in the order of the nodes. *)
Definition spans (code type : string) (nodes : list Node) : list SummaryPosition :=
  omap (span_of code) (List.filter (is_type type) nodes).

(** Every [function_definition] and every [class_specifier] among the nodes
    has a second child. *)
Definition named (nodes : list Node) : Prop :=
  Forall (fun node =>
            orb (is_type "function_definition" node)
                (is_type "class_specifier" node) = true ->
            (1 < length (node_children node))%nat)
         nodes.

(** What a traversal of [nodes] that started with [fs] and returned [fs']
    has done: it appended the spans of the definitions, in order. *)
Definition collected (code : string) (nodes : list Node)
           (fs fs' : FileSummary) : Prop :=
  methods fs' = (methods fs ++ spans code "function_definition" nodes)%list
  /\ classes fs' = (classes fs ++ spans code "class_specifier" nodes)%list
  /\ named nodes.

Section WithTreeSitter.
Context `{TreeSitter}.

(** The deepest nesting of calls that [traverse] of a tree asks for: one
    call for every level, and below a definition node the calls of
    [SummaryPosition]. *)
Fixpoint height (node : Node) : nat :=
  S (Nat.max
       (if orb (is_type "function_definition" node) (is_type "class_specifier" node)
        then SummaryPosition_frames else 0%nat)
       match node with
       | mkNode _ children _ _ _ _ =>
           (fix each (cs : list Node) : nat :=
              match cs with
              | [] => 0%nat
              | child :: cs' => Nat.max (height child) (each cs')
              end) children
       end).

(** The height of the tallest of some trees. *)
Definition tallest : list Node -> nat :=
  fix each (cs : list Node) : nat :=
    match cs with
    | [] => 0%nat
    | child :: cs' => Nat.max (height child) (each cs')
    end.

(** The loop of [traverse] over the children of a node. *)
Definition traverse_each (frames : nat) (code : string) (current_line : Z)
  : list Node -> FileSummary -> result FileSummary :=
  fix each_child (cs : list Node) (fs : FileSummary) : result FileSummary :=
    match cs with
    | [] => Ok fs
    | child :: cs' =>
        match TreeSitterParser.traverse frames code child current_line fs with
        | Ok fs' => each_child cs' fs'
        | Raise e => Raise e
        end
    end.

(** What a traversal of [nodes] that started with [fs], with [frames] calls
    left where it asks for [needed], has come to: it has appended the spans
    and had calls enough, or it met a definition without a name, or it ran
    out of calls. *)
Definition outcome (frames : nat) (code : string) (nodes : list Node)
           (needed : nat) (fs : FileSummary) (r : result FileSummary) : Prop :=
  match r with
  | Ok fs' => collected code nodes fs fs' /\ (needed <= frames)%nat
  | Raise e =>
      (e = IndexError /\ ~ named nodes)
      \/ (e = RecursionError /\ (frames < needed)%nat)
  end.

End WithTreeSitter.

(** A chain of [S depth] nodes, none of them a definition. *)
Fixpoint chain (depth : nat) : Node :=
  match depth with
  | O => mkNode "block" [] (0%Z, 0%Z) (0%Z, 0%Z) 0 0
  | S depth' => mkNode "block" [chain depth'] (0%Z, 0%Z) (0%Z, 0%Z) 0 0
  end.

End Tree.

Module Trace.

(** The paths that were loaded, in order. *)
Definition loads (trace : list event) : list string :=
  flat_map (fun ev => match ev with Load path => [path] | _ => [] end) trace.

(** The paths that were handed to [process_file], in order. *)
Definition processed (trace : list event) : list string :=
  flat_map (fun ev => match ev with Process path => [path] | _ => [] end) trace.

(** The error messages that were logged, in order. *)
Definition errors (trace : list event) : list string :=
  flat_map (fun ev => match ev with LogError msg => [msg] | _ => [] end) trace.

(** The messages that were logged at level [INFO], in order. *)
Definition infos (trace : list event) : list string :=
  flat_map (fun ev => match ev with LogInfo msg => [msg] | _ => [] end) trace.

(** The files that a walk lists, each with its directory. *)
Definition files_of (walk : list (string * list string * list string))
  : list (string * string) :=
  flat_map (fun entry => map (pair (fst (fst entry))) (snd entry)) walk.

(** The message that [filter_files] logs for a file that it skips. *)
Definition skip_message (dir_path file : string) : string :=
  "Skipping " +:+ OsPath.join dir_path file
  +:+ " - File or directory type not supported.".

(** What one file adds to the log of [filter_files]. *)
Definition skipped (dir_path file : string) : list event :=
  if Spec.eligible dir_path file then []
  else [LogInfo (skip_message dir_path file)].

(** The message that [process_and_split] logs for a file that it gives up. *)
Definition error_message (path : string) (e : exn) : string :=
  "Error processing file " +:+ path +:+ ". Skipping file. " +:+ exn_str e.

(** The path of a queued file, as [process_and_split] builds it. *)
Definition path_of (ff : Crawler.FileProperties) : string :=
  OsPath.join (Crawler.dir_path ff) (Crawler.file_name ff).

End Trace.

(** A checkout that is crawled from inside, with the root given as [.]. *)
Module SampleHere.

Definition tree_walk : list (string * list string * list string) :=
  [(".", ["pkg"; ".git"], ["README.md"]);
   ("./pkg", [], ["mod.py"]);
   ("./.git", [], ["config"])].

#[local] Instance world : World := {|
  os_path_isdir := fun path => String.eqb path "./.git";
  os_walk := fun root => if String.eqb root "." then tree_walk else [];
  TextLoader_load := Sample.loader;
  split_documents := Sample.splitter;
  PythonParser_get_file_summary := Sample.python_summary;
  CppTreeSitterParser_get_file_summary := Sample.no_summary;
  JavaTreeSitterParser_get_file_summary := Sample.no_summary;
  JsTreeSitterParser_get_file_summary := Sample.no_summary;
  GoTreeSitterParser_get_file_summary := Sample.no_summary;
  get_closest_method_class_in_snippet := Sample.resolver
|}.

(** A build of the grammars that fails for [rust]. *)
#[local] Instance broken_tree_sitter : TreeSitter := {|
  build_library := fun output _ =>
    if String.eqb output "cache/build/rust.so"
    then Raise (OtherError "CompileError" "command 'cc' failed")
    else Ok tt;
  Language_new := fun path name => Ok (mkGrammar path name);
  parse := fun _ _ => Ok Sample.tree;
  recursion_limit := 990;
  SummaryPosition_frames := 1
|}.

(** A class with a method, and a function with a nested function. *)
Definition nested_tree : Node :=
  mkNode "translation_unit"
    [mkNode "class_specifier"
       [Sample.leaf "class" 0 0 5; Sample.leaf "type_identifier" 0 6 7;
        Sample.function_node 1 2 8 9]
       (0%Z, 0%Z) (3%Z, 0%Z) 0 0;
     mkNode "function_definition"
       [Sample.leaf "def" 5 0 3; Sample.leaf "identifier" 5 10 11;
        Sample.function_node 6 7 12 13]
       (5%Z, 0%Z) (8%Z, 0%Z) 0 0]
    (0%Z, 0%Z) (9%Z, 0%Z) 0 0.

(** A definition node that has lost its name. *)
Definition broken_tree : Node :=
  mkNode "module"
    [Sample.function_node 0 1 4 7;
     mkNode "function_definition" [Sample.leaf "def" 3 0 3]
       (3%Z, 0%Z) (4%Z, 0%Z) 0 0]
    (0%Z, 0%Z) (5%Z, 0%Z) 0 0.

End SampleHere.

(** Some objects, for the examples of the loop that rewrites them. *)
Module SampleHeap.

(** The file document is at 0 and its two chunks are at 1 and 2; the dicts
    are at 10, 11 and 12. Every other address holds what [rest] says. *)
Definition heap_with (rest : InPlace.DocumentObject) : InPlace.heap :=
  {| InPlace.documents := fun d =>
       match d with
       | 0%nat => InPlace.mkDocumentObject Sample.hello_py 10
       | 1%nat =>
           InPlace.mkDocumentObject
             (page_content (Sample.chunk Sample.doc0 0 (Some 42%Z))) 11
       | 2%nat =>
           InPlace.mkDocumentObject
             (page_content (Sample.chunk Sample.doc0 42 None)) 12
       | _ => rest
       end;
     InPlace.dicts := fun a =>
       match a with
       | 10%nat => metadata Sample.doc0
       | 11%nat => metadata (Sample.chunk Sample.doc0 0 (Some 42%Z))
       | 12%nat => metadata (Sample.chunk Sample.doc0 42 None)
       | _ => ∅
       end |}.

Definition heap : InPlace.heap :=
  heap_with (InPlace.mkDocumentObject "" 13).

(** The file document and its second chunk at other addresses, among other
    objects. *)
Definition other_heap : InPlace.heap :=
  {| InPlace.documents := fun d =>
       match d with
       | 5%nat => InPlace.mkDocumentObject Sample.hello_py 7
       | 6%nat =>
           InPlace.mkDocumentObject
             (page_content (Sample.chunk Sample.doc0 42 None)) 8
       | _ => InPlace.mkDocumentObject "something else" 9
       end;
     InPlace.dicts := fun a =>
       match a with
       | 8%nat => metadata (Sample.chunk Sample.doc0 42 None)
       | _ => {[ "source" := VStr "elsewhere" ]}
       end |}.

(** A resolver that counts its calls and answers as [Sample.resolver]. *)
Definition counting_resolver (calls : nat) (file_summary : FileSummary)
           (starting_line ending_line : Z) : result string * nat :=
  (Sample.resolver file_summary starting_line ending_line, S calls).

(** A resolver that writes the number of its calls into its answer. *)
Definition numbering_resolver (calls : nat) (file_summary : FileSummary)
           (starting_line ending_line : Z) : result string * nat :=
  (Ok ("Call " +:+ PyStr.of_int (Z.of_nat calls) +:+ "."), S calls).

End SampleHeap.

(** * Properties *)

(** ** The error monad *)

Lemma bind_Ok_inv {A B : Type} (r : result A) (k : A -> result B) (b : B) :
  bind r k = Ok b -> exists a, r = Ok a /\ k a = Ok b.
Proof.
  destruct r as [a|e]; simpl; intros Hk; [eauto | discriminate].
Qed.

Ltac bind_inv H :=
  let a := fresh "a" in
  let Ha := fresh "Ha" in
  apply bind_Ok_inv in H; destruct H as (a & Ha & H).

(** ** Strings *)

Lemma count_nonneg (c : ascii) (s : string) : (0 <= PyStr.count c s)%Z.
Proof.
  induction s as [|a s IH]; simpl; [lia|].
  destruct (Ascii.eqb a c); lia.
Qed.

Lemma substring_0_take (m : nat) (s : string) :
  String.substring 0 m s = PyStr.take m s.
Proof.
  revert s; induction m as [|m IH]; intros [|a s]; simpl; try reflexivity.
  now rewrite IH.
Qed.

Lemma take_all (k : nat) (s : string) :
  (String.length s <= k)%nat -> PyStr.take k s = s.
Proof.
  revert k; induction s as [|a s IH]; intros [|k] Hk; simpl in *;
    try reflexivity; try lia.
  rewrite IH; [reflexivity | lia].
Qed.

Lemma adjust_0 (n : Z) : (0 <= n)%Z -> PyStr.adjust n 0 = 0%Z.
Proof.
  intros Hn. unfold PyStr.adjust. simpl.
  destruct (Z.leb_spec n 0); lia.
Qed.

Lemma slice_from_0 (s : string) (stop : option Z) :
  PyStr.slice s (Some 0%Z) stop = PyStr.slice s None stop.
Proof.
  unfold PyStr.slice. rewrite adjust_0; [reflexivity | unfold PyStr.len; lia].
Qed.

Lemma slice_to_0 (s : string) : PyStr.slice s None (Some 0%Z) = "".
Proof.
  unfold PyStr.slice. rewrite adjust_0 by (unfold PyStr.len; lia).
  simpl. now rewrite substring_0_take.
Qed.

Lemma slice_prefix (s : string) (o : Z) :
  (0 <= o)%Z -> PyStr.slice s None (Some o) = PyStr.take (Z.to_nat o) s.
Proof.
  intros Ho. unfold PyStr.slice, PyStr.adjust, PyStr.len.
  rewrite Z.sub_0_r, substring_0_take.
  destruct (Z.ltb_spec o 0) as [?|_]; [lia|].
  destruct (Z.ltb_spec o 0) as [?|_]; [lia|].
  destruct (Z.leb_spec (Z.of_nat (String.length s)) o) as [Hle|Hlt];
    [|reflexivity].
  rewrite Nat2Z.id, !take_all; [reflexivity | lia | lia].
Qed.

(** ** The loop of [process_file] *)

Section Annotation.
Context `{World}.

Lemma annotate_inv file_doc dir_path file_name file_summary doc doc' :
  Crawler.annotate file_doc dir_path file_name file_summary doc = Ok doc' ->
  exists o context,
    metadata doc !! "start_index" = Some (VInt o)
    /\ get_closest_method_class_in_snippet file_summary
         (Spec.resolve_start_line (page_content file_doc) o)
         (Spec.resolve_end_line
            (Spec.resolve_start_line (page_content file_doc) o)
            (page_content doc)) = Ok context
    /\ doc' =
       {| page_content :=
            Crawler.annotation (OsPath.join dir_path file_name)
              (Spec.resolve_start_line (page_content file_doc) o)
              (Spec.resolve_end_line
                 (Spec.resolve_start_line (page_content file_doc) o)
                 (page_content doc))
              context (page_content doc);
          metadata :=
            <["ending_line" :=
                VInt (Spec.resolve_end_line
                        (Spec.resolve_start_line (page_content file_doc) o)
                        (page_content doc))]>
              (<["starting_line" :=
                   VInt (Spec.resolve_start_line (page_content file_doc) o)]>
                 (metadata doc)) |}.
Proof.
  unfold Crawler.annotate, PyDict.getitem, Spec.resolve_start_line,
    Spec.resolve_end_line.
  intros Hrun.
  destruct (metadata doc !! "start_index") as [[o|s]|] eqn:Hidx;
    simpl in Hrun; try discriminate.
  bind_inv Hrun. injection Hrun as <-.
  exists o, a. rewrite slice_from_0. auto.
Qed.

Lemma annotate_each_Forall2 file_doc dir_path file_name file_summary split_docs out :
  Crawler.annotate_each file_doc dir_path file_name file_summary split_docs = Ok out ->
  Forall2 (fun doc doc' =>
             Crawler.annotate file_doc dir_path file_name file_summary doc = Ok doc')
          split_docs out.
Proof.
  revert out; induction split_docs as [|doc rest IH]; intros out Hrun; simpl in Hrun.
  - injection Hrun as <-. constructor.
  - bind_inv Hrun. bind_inv Hrun. injection Hrun as <-.
    constructor; auto.
Qed.

Lemma annotate_each_lookup file_doc dir_path file_name file_summary split_docs out i doc :
  Crawler.annotate_each file_doc dir_path file_name file_summary split_docs = Ok out ->
  split_docs !! i = Some doc ->
  exists doc',
    out !! i = Some doc'
    /\ Crawler.annotate file_doc dir_path file_name file_summary doc = Ok doc'.
Proof.
  intros Hrun Hdoc. apply annotate_each_Forall2 in Hrun.
  destruct (Forall2_lookup_l _ _ _ _ _ Hrun Hdoc) as (doc' & Hout & Hann).
  eauto.
Qed.

Lemma process_file_inv file_contents dir_path file_name extension cs co out :
  Crawler.process_file file_contents dir_path file_name extension cs co = Ok out ->
  exists file_doc file_summary language split_docs,
    file_contents !! 0%nat = Some file_doc
    /\ Crawler.summary_for (page_content file_doc) file_name extension = Ok file_summary
    /\ Crawler.LANG_MAPPING !! extension = Some language
    /\ split_documents language cs co file_contents = Ok split_docs
    /\ Crawler.annotate_each file_doc dir_path file_name file_summary split_docs = Ok out.
Proof.
  unfold Crawler.process_file. intros Hrun.
  bind_inv Hrun. rename a into file_doc.
  bind_inv Hrun. rename a into file_summary.
  bind_inv Hrun. rename a into language.
  bind_inv Hrun. rename a into split_docs.
  exists file_doc, file_summary, language, split_docs.
  repeat split; auto.
  - unfold PyList.getitem in Ha. simpl in Ha.
    change (Z.to_nat 0) with 0%nat in Ha.
    destruct (file_contents !! 0%nat); congruence.
  - unfold PyDict.getitem in Ha1.
    destruct (Crawler.LANG_MAPPING !! extension); congruence.
Qed.

End Annotation.

Lemma annotation_shape path starting_line ending_line context chunk_text :
  Crawler.annotation path starting_line ending_line context chunk_text
  = Spec.annotated_text_with " " path starting_line ending_line context chunk_text.
Proof. reflexivity. Qed.

Lemma annotated_text_empty_context indent path starting_line ending_line chunk_text :
  Spec.annotated_text_with indent path starting_line ending_line "" chunk_text
  = Spec.annotated_text_no_context indent path starting_line ending_line chunk_text.
Proof. reflexivity. Qed.

Section AnnotationClaims.
Context `{World}.

Lemma annotate_same_text file_doc1 file_doc2 dir_path file_name file_summary doc :
  page_content file_doc1 = page_content file_doc2 ->
  Crawler.annotate file_doc1 dir_path file_name file_summary doc
  = Crawler.annotate file_doc2 dir_path file_name file_summary doc.
Proof. unfold Crawler.annotate. now intros ->. Qed.

(** C1. Line Resolver: for every chunk that the splitter returns, with
    start offset [o], the loop of [process_file] records
    [starting_line = count('\n', text[0:o]) + 1] and
    [ending_line = starting_line + count('\n', chunk text)]; hence
    [ending_line >= starting_line], and offset [0] gives line [1]. *)
Theorem line_resolver_correct file_contents dir_path file_name extension cs co out :
  Crawler.process_file file_contents dir_path file_name extension cs co = Ok out ->
  exists file_doc language split_docs,
    file_contents !! 0%nat = Some file_doc
    /\ Crawler.LANG_MAPPING !! extension = Some language
    /\ split_documents language cs co file_contents = Ok split_docs
    /\ length out = length split_docs
    /\ forall i doc,
        split_docs !! i = Some doc ->
        exists o doc',
          metadata doc !! "start_index" = Some (VInt o)
          /\ out !! i = Some doc'
          /\ metadata doc' !! "starting_line"
             = Some (VInt (Spec.resolve_start_line (page_content file_doc) o))
          /\ metadata doc' !! "ending_line"
             = Some (VInt (Spec.resolve_end_line
                             (Spec.resolve_start_line (page_content file_doc) o)
                             (page_content doc)))
          /\ (Spec.resolve_start_line (page_content file_doc) o
              <= Spec.resolve_end_line
                   (Spec.resolve_start_line (page_content file_doc) o)
                   (page_content doc))%Z
          /\ (o = 0%Z -> Spec.resolve_start_line (page_content file_doc) o = 1%Z)
          /\ ((0 <= o)%Z ->
              Spec.resolve_start_line (page_content file_doc) o
              = (PyStr.count PyStr.newline
                   (PyStr.take (Z.to_nat o) (page_content file_doc)) + 1)%Z).
Proof.
  intros Hrun.
  destruct (process_file_inv _ _ _ _ _ _ _ Hrun)
    as (file_doc & file_summary & language & split_docs
        & Hdoc & Hsum & Hlang & Hsplit & Hloop).
  exists file_doc, language, split_docs. repeat split; auto.
  - symmetry. eapply Forall2_length, annotate_each_Forall2, Hloop.
  - intros i doc Hi.
    destruct (annotate_each_lookup _ _ _ _ _ _ _ _ Hloop Hi) as (doc' & Hout & Hann).
    destruct (annotate_inv _ _ _ _ _ _ Hann) as (o & context & Hidx & _ & ->).
    exists o. eexists.
    split; [exact Hidx|]. split; [exact Hout|]. simpl. repeat split.
    + rewrite lookup_insert_ne by discriminate. apply lookup_insert_eq.
    + apply lookup_insert_eq.
    + unfold Spec.resolve_end_line.
      pose proof (count_nonneg PyStr.newline (page_content doc)). lia.
    + intros ->. unfold Spec.resolve_start_line.
      rewrite slice_from_0, slice_to_0. reflexivity.
    + intros Ho. unfold Spec.resolve_start_line.
      now rewrite slice_from_0, slice_prefix.
Qed.

(** C3, amended. Chunk Annotator: the text of every chunk is the
    specification's text with one space in front of the opening fence; the
    context is what the resolver returned, and an empty context leaves
    nothing in its place. *)
Theorem annotator_text file_contents dir_path file_name extension cs co out :
  Crawler.process_file file_contents dir_path file_name extension cs co = Ok out ->
  exists file_doc file_summary language split_docs,
    file_contents !! 0%nat = Some file_doc
    /\ Crawler.summary_for (page_content file_doc) file_name extension = Ok file_summary
    /\ Crawler.LANG_MAPPING !! extension = Some language
    /\ split_documents language cs co file_contents = Ok split_docs
    /\ forall i doc,
        split_docs !! i = Some doc ->
        exists o context doc',
          metadata doc !! "start_index" = Some (VInt o)
          /\ get_closest_method_class_in_snippet file_summary
               (Spec.resolve_start_line (page_content file_doc) o)
               (Spec.resolve_end_line
                  (Spec.resolve_start_line (page_content file_doc) o)
                  (page_content doc)) = Ok context
          /\ out !! i = Some doc'
          /\ page_content doc'
             = Spec.annotated_text_with " " (OsPath.join dir_path file_name)
                 (Spec.resolve_start_line (page_content file_doc) o)
                 (Spec.resolve_end_line
                    (Spec.resolve_start_line (page_content file_doc) o)
                    (page_content doc))
                 context (page_content doc)
          /\ (context = "" ->
              page_content doc'
              = Spec.annotated_text_no_context " " (OsPath.join dir_path file_name)
                  (Spec.resolve_start_line (page_content file_doc) o)
                  (Spec.resolve_end_line
                     (Spec.resolve_start_line (page_content file_doc) o)
                     (page_content doc))
                  (page_content doc)).
Proof.
  intros Hrun.
  destruct (process_file_inv _ _ _ _ _ _ _ Hrun)
    as (file_doc & file_summary & language & split_docs
        & Hdoc & Hsum & Hlang & Hsplit & Hloop).
  exists file_doc, file_summary, language, split_docs. repeat split; auto.
  intros i doc Hi.
  destruct (annotate_each_lookup _ _ _ _ _ _ _ _ Hloop Hi) as (doc' & Hout & Hann).
  destruct (annotate_inv _ _ _ _ _ _ Hann) as (o & context & Hidx & Hctx & ->).
  exists o, context. eexists.
  split; [exact Hidx|]. split; [exact Hctx|]. split; [exact Hout|].
  simpl. split; [apply annotation_shape|].
  intros ->. rewrite annotation_shape. apply annotated_text_empty_context.
Qed.

(** C8. Frame of the annotation: a chunk's metadata keeps every key it had,
    among them the splitter's [start_index] and the loader's [source] (the
    file path), next to the rewritten text; only [starting_line] and
    [ending_line] are set. *)
Theorem annotation_frame file_contents dir_path file_name extension cs co out :
  Crawler.process_file file_contents dir_path file_name extension cs co = Ok out ->
  exists file_doc language split_docs,
    file_contents !! 0%nat = Some file_doc
    /\ Crawler.LANG_MAPPING !! extension = Some language
    /\ split_documents language cs co file_contents = Ok split_docs
    /\ forall i doc,
        split_docs !! i = Some doc ->
        exists o doc',
          metadata doc !! "start_index" = Some (VInt o)
          /\ out !! i = Some doc'
          /\ metadata doc'
             = <["ending_line" :=
                   VInt (Spec.resolve_end_line
                           (Spec.resolve_start_line (page_content file_doc) o)
                           (page_content doc))]>
                 (<["starting_line" :=
                      VInt (Spec.resolve_start_line (page_content file_doc) o)]>
                    (metadata doc))
          /\ (forall key,
                 key <> "starting_line" -> key <> "ending_line" ->
                 metadata doc' !! key = metadata doc !! key)
          /\ metadata doc' !! "source" = metadata doc !! "source"
          /\ metadata doc' !! "start_index" = Some (VInt o)
          /\ dom (metadata doc')
             = dom (metadata doc) ∪ {["starting_line"; "ending_line"]}.
Proof.
  intros Hrun.
  destruct (process_file_inv _ _ _ _ _ _ _ Hrun)
    as (file_doc & file_summary & language & split_docs
        & Hdoc & Hsum & Hlang & Hsplit & Hloop).
  exists file_doc, language, split_docs. repeat split; auto.
  intros i doc Hi.
  destruct (annotate_each_lookup _ _ _ _ _ _ _ _ Hloop Hi) as (doc' & Hout & Hann).
  destruct (annotate_inv _ _ _ _ _ _ Hann) as (o & context & Hidx & _ & ->).
  exists o. eexists.
  split; [exact Hidx|]. split; [exact Hout|]. simpl.
  split; [reflexivity|]. repeat split.
  - intros key Hs He. now rewrite !lookup_insert_ne by congruence.
  - now rewrite !lookup_insert_ne by discriminate.
  - now rewrite !lookup_insert_ne by discriminate.
  - rewrite !dom_insert_L. apply set_eq. intros key.
    rewrite !elem_of_union, !elem_of_singleton. tauto.
Qed.

End AnnotationClaims.

(** ** Sorting *)

Section Sorting.
Context {A : Type} (key : A -> Z).

Lemma insert_by_perm (x : A) (l : list A) :
  Permutation (PyList.insert_by key x l) (x :: l).
Proof.
  induction l as [|y l IH]; simpl; [reflexivity|].
  destruct (key x <=? key y)%Z; [reflexivity|].
  rewrite IH. apply perm_swap.
Qed.

Lemma insert_by_sorted (x : A) (l : list A) :
  StronglySorted (fun a b => (key a <= key b)%Z) l ->
  StronglySorted (fun a b => (key a <= key b)%Z) (PyList.insert_by key x l).
Proof.
  induction l as [|y l IH]; intros Hl; simpl.
  - repeat constructor.
  - inversion Hl as [|? ? Hl' Hy]; subst.
    destruct (Z.leb_spec (key x) (key y)) as [Hxy|Hyx].
    + constructor; [exact Hl|].
      constructor; [exact Hxy|].
      eapply Forall_impl; [exact Hy|].
      intros z Hz. simpl in *. lia.
    + constructor; [auto|].
      rewrite (insert_by_perm x l).
      constructor; [lia | exact Hy].
Qed.

Lemma sorted_perm (l : list A) : Permutation (PyList.sorted l key) l.
Proof.
  unfold PyList.sorted. induction l as [|x l IH]; simpl; [reflexivity|].
  rewrite insert_by_perm. now constructor.
Qed.

Lemma sorted_sorted (l : list A) :
  StronglySorted (fun a b => (key a <= key b)%Z) (PyList.sorted l key).
Proof.
  unfold PyList.sorted. induction l as [|x l IH]; simpl.
  - constructor.
  - now apply insert_by_sorted.
Qed.

End Sorting.

(** ** The outline *)

Section Outline.
Context `{TreeSitter}.

Lemma summarize_unsupported st code file_name :
  TreeSitterParser.extension_to_language !! snd (OsPath.splitext file_name) = None ->
  TreeSitterParser.summarize st code file_name = Ok FileSummary_new.
Proof.
  intros Hext. unfold TreeSitterParser.summarize, PyDict.contains.
  now rewrite Hext.
Qed.

Lemma summarize_inv st code file_name fs :
  TreeSitterParser.summarize st code file_name = Ok fs ->
  (TreeSitterParser.extension_to_language !! snd (OsPath.splitext file_name) = None
   /\ fs = FileSummary_new)
  \/ (exists language root_node raw,
         parse language code = Ok root_node
         /\ TreeSitterParser.traverse recursion_limit code root_node 0
              FileSummary_new = Ok raw
         /\ fs = {| methods := PyList.sorted (methods raw) start_line;
                    classes := PyList.sorted (classes raw) start_line |}).
Proof.
  unfold TreeSitterParser.summarize, PyDict.contains. intros Hrun.
  destruct (TreeSitterParser.extension_to_language !! _) as [lname|] eqn:Hext.
  - right. unfold PyDict.getitem in Hrun at 1. rewrite Hext in Hrun. simpl in Hrun.
    bind_inv Hrun. rename a into language.
    bind_inv Hrun. rename a into root_node.
    bind_inv Hrun. rename a into raw.
    injection Hrun as <-. eauto 6.
  - left. injection Hrun as <-. auto.
Qed.

(** C2. Symbol Outline Builder: whatever the source text, the file name and
    the order in which the traversal appended the spans, the summary that
    [get_file_summary] returns has its methods and its classes in
    non-decreasing order of [start_line]; both are a rearrangement of what
    the traversal collected. *)
Theorem outline_sorted st code file_name fs st' :
  TreeSitterParser.get_file_summary st code file_name = (Ok fs, st') ->
  Spec.ascending (methods fs) /\ Spec.ascending (classes fs)
  /\ ((fs = FileSummary_new)
      \/ exists language root_node raw,
          parse language code = Ok root_node
          /\ TreeSitterParser.traverse recursion_limit code root_node 0
               FileSummary_new = Ok raw
          /\ Permutation (methods fs) (methods raw)
          /\ Permutation (classes fs) (classes raw)).
Proof.
  unfold TreeSitterParser.get_file_summary. intros Hrun.
  assert (exists st1, TreeSitterParser.summarize st1 code file_name = Ok fs)
    as [st1 Hsum].
  { destruct (TreeSitterParser.loaded st).
    - injection Hrun as Hsum _. eauto.
    - destruct (TreeSitterParser.initialize_treesitter st) as [[[]|e] st1];
        [|discriminate].
      injection Hrun as Hsum _. eauto. }
  destruct (summarize_inv _ _ _ _ Hsum)
    as [[_ ->]|(language & root_node & raw & Hparse & Htrav & ->)]; simpl.
  - split; [constructor|]. split; [constructor|]. now left.
  - split; [apply sorted_sorted|]. split; [apply sorted_sorted|].
    right. exists language, root_node, raw.
    repeat split; auto using sorted_perm.
Qed.

(** A second call returns what the first one returned: the class
    attributes that the first call sets do not change the summary. *)
Lemma get_file_summary_again st code file_name fs st' :
  TreeSitterParser.get_file_summary st code file_name = (Ok fs, st') ->
  TreeSitterParser.get_file_summary st' code file_name = (Ok fs, st').
Proof.
  unfold TreeSitterParser.get_file_summary. intros Hrun.
  destruct (TreeSitterParser.loaded st) eqn:Hloaded.
  - injection Hrun as Hsum <-. now rewrite Hloaded, Hsum.
  - unfold TreeSitterParser.initialize_treesitter in *.
    destruct (TreeSitterParser.build_all _) as [[]|e]; [|discriminate].
    destruct (TreeSitterParser.load_all _) as [m|e]; [|discriminate].
    injection Hrun as Hsum <-. simpl. now rewrite Hsum.
Qed.

End Outline.

(** ** Hidden directories *)

Lemma glob_star (s : string) : Fnmatch.glob "*" s = true.
Proof.
  induction s as [|a s IH]; [reflexivity|].
  simpl in *. exact IH.
Qed.

Lemma fnmatch_dot_star (directory : string) :
  Fnmatch.fnmatch directory ".*" = PyStr.startswith directory PyStr.extsep.
Proof.
  unfold Fnmatch.fnmatch. destruct directory as [|a s]; [reflexivity|].
  change (Fnmatch.glob ".*" (String a s))
    with (andb (Ascii.eqb a ".") (Fnmatch.glob "*" s)).
  rewrite glob_star. simpl. apply andb_true_r.
Qed.

Lemma contains_hidden_dir_true (dir_path : string) :
  Crawler.contains_hidden_dir dir_path = true
  <-> exists directory,
      In directory (PyStr.split PyStr.sep dir_path) /\ Spec.hidden directory.
Proof.
  unfold Crawler.contains_hidden_dir, Spec.hidden. rewrite existsb_exists.
  split; intros (directory & Hin & Hdot); exists directory; split; auto.
  - now rewrite <- fnmatch_dot_star.
  - now rewrite fnmatch_dot_star.
Qed.

Lemma contains_hidden_dir_false (dir_path : string) :
  Crawler.contains_hidden_dir dir_path = false
  <-> forall directory,
      In directory (PyStr.split PyStr.sep dir_path) -> ~ Spec.hidden directory.
Proof.
  rewrite <- not_true_iff_false, contains_hidden_dir_true.
  split.
  - intros Hno directory Hin Hdot. apply Hno. eauto.
  - intros Hall (directory & Hin & Hdot). exact (Hall directory Hin Hdot).
Qed.

(** ** The filter *)

Section Filter.
Context `{World}.

Lemma filter_file_spec dir_path files log file :
  fst (Crawler.filter_file dir_path (files, log) file)
  = (files ++ Spec.queued_file dir_path file)%list.
Proof.
  unfold Crawler.filter_file, Spec.queued_file, Spec.eligible.
  destruct (andb _ _); cbn [fst]; [reflexivity | now rewrite app_nil_r].
Qed.

Lemma filter_filenames_spec dir_path filenames st :
  fst (fold_left (Crawler.filter_file dir_path) filenames st)
  = (fst st ++ flat_map (Spec.queued_file dir_path) filenames)%list.
Proof.
  revert st; induction filenames as [|file rest IH]; intros [files log];
    cbn [fold_left flat_map fst].
  - now rewrite app_nil_r.
  - rewrite IH.
    destruct (Crawler.filter_file dir_path (files, log) file) as [files' log'] eqn:Hstep.
    pose proof (filter_file_spec dir_path files log file) as Hspec.
    rewrite Hstep in Hspec. cbn [fst] in *. subst files'.
    now rewrite <- app_assoc.
Qed.

Lemma filter_walk_spec entries st :
  fst (fold_left Crawler.filter_dir entries st)
  = (fst st ++ flat_map Spec.queued_dir entries)%list.
Proof.
  revert st; induction entries as [|[[dir_path dir_names] filenames] rest IH];
    intros st; cbn [fold_left flat_map].
  - now rewrite app_nil_r.
  - rewrite IH.
    change (Crawler.filter_dir st (dir_path, dir_names, filenames))
      with (fold_left (Crawler.filter_file dir_path) filenames st).
    change (Spec.queued_dir (dir_path, dir_names, filenames))
      with (flat_map (Spec.queued_file dir_path) filenames).
    rewrite filter_filenames_spec. now rewrite <- app_assoc.
Qed.

Lemma filter_files_inv root_dir files log :
  Crawler.filter_files root_dir = (Ok files, log) ->
  Crawler.is_git_dir root_dir = true
  /\ files = flat_map Spec.queued_dir (os_walk root_dir).
Proof.
  unfold Crawler.filter_files. intros Hrun.
  destruct (Crawler.is_git_dir root_dir); simpl in Hrun; [|discriminate].
  split; [reflexivity|].
  pose proof (filter_walk_spec (os_walk root_dir) ([], [])) as Hspec.
  destruct (fold_left Crawler.filter_dir (os_walk root_dir) ([], []))
    as [files' log'].
  injection Hrun as <- <-. exact Hspec.
Qed.

Lemma filter_files_git root_dir :
  Crawler.is_git_dir root_dir = true ->
  exists log,
    Crawler.filter_files root_dir
    = (Ok (flat_map Spec.queued_dir (os_walk root_dir)), log).
Proof.
  intros Hgit. unfold Crawler.filter_files. rewrite Hgit. simpl.
  pose proof (filter_walk_spec (os_walk root_dir) ([], [])) as Hspec.
  destruct (fold_left Crawler.filter_dir (os_walk root_dir) ([], []))
    as [files' log'].
  simpl in Hspec. subst files'. eauto.
Qed.

Lemma queued_iff root_dir files log d f e :
  Crawler.filter_files root_dir = (Ok files, log) ->
  In (Crawler.mkFileProperties d f e) files
  <-> Spec.walked root_dir d f
      /\ e = snd (OsPath.splitext f)
      /\ Spec.eligible d f = true.
Proof.
  intros Hrun. destruct (filter_files_inv _ _ _ Hrun) as [_ ->].
  rewrite in_flat_map. unfold Spec.walked, Spec.queued_dir. split.
  - intros ([[d' dir_names] filenames] & Hentry & Hin). simpl in Hin.
    apply in_flat_map in Hin. destruct Hin as (f' & Hf' & Hin).
    unfold Spec.queued_file in Hin.
    destruct (Spec.eligible d' f') eqn:Hok; [|contradiction].
    destruct Hin as [Heq|[]]. injection Heq as -> -> <-.
    eauto 6.
  - intros ((dir_names & filenames & Hentry & Hf) & -> & Hok).
    exists (d, dir_names, filenames). split; [exact Hentry|]. simpl.
    apply in_flat_map. exists f. split; [exact Hf|].
    unfold Spec.queued_file. rewrite Hok. now left.
Qed.

Lemma eligible_true d f :
  Spec.eligible d f = true
  <-> is_Some (Crawler.LANG_MAPPING !! snd (OsPath.splitext f))
      /\ forall directory,
          In directory (PyStr.split PyStr.sep d) -> ~ Spec.hidden directory.
Proof.
  unfold Spec.eligible, PyDict.contains.
  rewrite andb_true_iff, negb_true_iff, contains_hidden_dir_false.
  destruct (Crawler.LANG_MAPPING !! _) as [language|]; split;
    intros [Hext Hdir]; split; eauto; try discriminate.
  destruct Hext as [? ?]. discriminate.
Qed.

(** C7. The filter queues a walked file if and only if its extension is a
    key of [LANG_MAPPING] and no component of its directory path starts
    with a dot: nothing below [.git] is queued, no [.cfg] file is queued,
    and a [.py] file below directories that are not hidden is queued. *)
Theorem filter_queues_iff root_dir files log :
  Crawler.filter_files root_dir = (Ok files, log) ->
  (forall d f e,
      In (Crawler.mkFileProperties d f e) files
      <-> Spec.walked root_dir d f
          /\ e = snd (OsPath.splitext f)
          /\ is_Some (Crawler.LANG_MAPPING !! e)
          /\ forall directory,
              In directory (PyStr.split PyStr.sep d) -> ~ Spec.hidden directory)
  /\ (forall d f e,
         In ".git" (PyStr.split PyStr.sep d) ->
         ~ In (Crawler.mkFileProperties d f e) files)
  /\ (forall d f e,
         snd (OsPath.splitext f) = ".cfg" ->
         ~ In (Crawler.mkFileProperties d f e) files)
  /\ (forall d f,
         Spec.walked root_dir d f ->
         snd (OsPath.splitext f) = ".py" ->
         (forall directory,
             In directory (PyStr.split PyStr.sep d) -> ~ Spec.hidden directory) ->
         In (Crawler.mkFileProperties d f ".py") files).
Proof.
  intros Hrun.
  assert (forall d f e,
             In (Crawler.mkFileProperties d f e) files
             <-> Spec.walked root_dir d f
                 /\ e = snd (OsPath.splitext f)
                 /\ is_Some (Crawler.LANG_MAPPING !! e)
                 /\ forall directory,
                     In directory (PyStr.split PyStr.sep d) -> ~ Spec.hidden directory)
    as Hiff.
  { intros d f e. rewrite (queued_iff _ _ _ d f e Hrun), eligible_true.
    split.
    - intros (Hw & -> & Hext & Hdir). auto.
    - intros (Hw & -> & Hext & Hdir). auto. }
  split; [exact Hiff|]. split; [|split].
  - intros d f e Hgit Hin. apply Hiff in Hin.
    destruct Hin as (_ & _ & _ & Hdir). apply (Hdir ".git" Hgit). reflexivity.
  - intros d f e Hcfg Hin. apply Hiff in Hin.
    destruct Hin as (_ & -> & [language Hext] & _).
    rewrite Hcfg in Hext. vm_compute in Hext. discriminate.
  - intros d f Hw Hpy Hdir. apply Hiff. rewrite Hpy.
    split; [exact Hw|]. split; [reflexivity|].
    split; [exists PYTHON; reflexivity | exact Hdir].
Qed.

(** C10. Every file that the filter queues has an extension that is a key
    of [LANG_MAPPING], so the lookup [LANG_MAPPING[extension]] in
    [process_file] returns a language for it and [process_file] goes on to
    the splitter with that language. *)
Theorem queued_extension_known root_dir files log ff :
  Crawler.filter_files root_dir = (Ok files, log) ->
  In ff files ->
  exists language,
    PyDict.getitem Crawler.LANG_MAPPING (Crawler.extension ff) = Ok language
    /\ forall file_contents cs co,
        Crawler.process_file file_contents (Crawler.dir_path ff)
          (Crawler.file_name ff) (Crawler.extension ff) cs co
        = (let! file_doc := PyList.getitem file_contents 0 in
           let! file_summary :=
             Crawler.summary_for (page_content file_doc)
               (Crawler.file_name ff) (Crawler.extension ff) in
           let! split_docs := split_documents language cs co file_contents in
           Crawler.annotate_each file_doc (Crawler.dir_path ff)
             (Crawler.file_name ff) file_summary split_docs).
Proof.
  intros Hrun Hin. destruct ff as [d f e].
  apply (queued_iff _ _ _ d f e Hrun) in Hin.
  destruct Hin as (_ & -> & Hok). apply eligible_true in Hok.
  destruct Hok as [[language Hext] _].
  exists language. unfold Crawler.process_file, PyDict.getitem.
  cbn [Crawler.extension Crawler.dir_path Crawler.file_name].
  rewrite Hext. split; [reflexivity|].
  intros file_contents cs co.
  destruct (PyList.getitem file_contents 0) as [file_doc|err]; [|reflexivity].
  cbn [bind]. destruct (Crawler.summary_for _ _ _); reflexivity.
Qed.

(** C6. When the root is not a git directory, [filter_files] raises
    [ValueError] and so does [crawl_and_split], with nothing logged, no
    file loaded and none processed. *)
Theorem not_git_fails_fast root_dir cs co :
  Crawler.is_git_dir root_dir = false ->
  Crawler.filter_files root_dir
  = (Raise (ValueError (root_dir +:+ " is not a valid git root directory")), [])
  /\ Crawler.crawl_and_split root_dir cs co
     = (Raise (ValueError (root_dir +:+ " is not a valid git root directory")), []).
Proof.
  intros Hgit. unfold Crawler.crawl_and_split, Crawler.filter_files.
  rewrite Hgit. cbn [negb]. split; reflexivity.
Qed.

End Filter.

(** ** Files without a parser *)

Section Degraded.
Context `{World} `{TreeSitter}.

Lemma summary_for_unparsed code file_name extension :
  ~ In extension Spec.parsed_extensions ->
  Crawler.summary_for code file_name extension = Ok FileSummary_new.
Proof.
  intros Hext. unfold Crawler.summary_for.
  repeat match goal with
         | |- context [String.eqb extension ?s] =>
             destruct (String.eqb_spec extension s) as [->|_];
             [exfalso; apply Hext; unfold Spec.parsed_extensions;
              cbn [In]; tauto|]
         end.
  reflexivity.
Qed.

(** C4, amended. For an extension that is a key of [LANG_MAPPING] and for
    which [process_file] has no parser, the summary is the empty one, no
    error is raised for it, and [process_file] hands the file to the
    splitter and annotates the chunks with that empty summary;
    [TreeSitterParser.get_file_summary], once the grammars are loaded,
    returns the empty summary for a file name whose extension is not in
    its table. *)
Theorem unparsed_extension_chunked extension language :
  ~ In extension Spec.parsed_extensions ->
  Crawler.LANG_MAPPING !! extension = Some language ->
  (forall code file_name,
      Crawler.summary_for code file_name extension = Ok FileSummary_new)
  /\ (forall file_contents file_doc dir_path file_name cs co,
         file_contents !! 0%nat = Some file_doc ->
         Crawler.process_file file_contents dir_path file_name extension cs co
         = (let! split_docs := split_documents language cs co file_contents in
            Crawler.annotate_each file_doc dir_path file_name
              FileSummary_new split_docs))
  /\ (forall st code file_name,
         TreeSitterParser.extension_to_language
           !! snd (OsPath.splitext file_name) = None ->
         TreeSitterParser.summarize st code file_name = Ok FileSummary_new
         /\ (TreeSitterParser.loaded st = true ->
             TreeSitterParser.get_file_summary st code file_name
             = (Ok FileSummary_new, st))
         /\ (forall st1,
                TreeSitterParser.loaded st = false ->
                TreeSitterParser.initialize_treesitter st = (Ok tt, st1) ->
                TreeSitterParser.get_file_summary st code file_name
                = (Ok FileSummary_new, st1))).
Proof.
  intros Hext Hlang. split; [|split].
  - intros code file_name. now apply summary_for_unparsed.
  - intros file_contents file_doc dir_path file_name cs co Hdoc.
    unfold Crawler.process_file, PyList.getitem, PyDict.getitem.
    change (Z.to_nat (if (0 <? 0)%Z then _ else 0%Z)) with 0%nat.
    change ((if (0 <? 0)%Z then _ else 0%Z) <? 0)%Z with false.
    cbv iota. rewrite Hdoc. cbn [bind].
    rewrite summary_for_unparsed by exact Hext. cbn [bind].
    rewrite Hlang. reflexivity.
  - intros st code file_name Htable.
    pose proof (summarize_unsupported st code file_name Htable) as Hsum.
    split; [exact Hsum|]. unfold TreeSitterParser.get_file_summary. split.
    + intros ->. now rewrite Hsum.
    + intros st1 -> ->. now rewrite summarize_unsupported.
Qed.

End Degraded.

(** ** The run over the queued files *)

Section Run.
Context `{World}.

Lemma process_and_split_load_error ff cs co e :
  TextLoader_load (OsPath.join (Crawler.dir_path ff) (Crawler.file_name ff)) = Raise e ->
  Crawler.process_and_split ff cs co
  = (None,
     [Load (OsPath.join (Crawler.dir_path ff) (Crawler.file_name ff));
      LogError ("Error processing file "
                +:+ OsPath.join (Crawler.dir_path ff) (Crawler.file_name ff)
                +:+ ". Skipping file. " +:+ exn_str e)]).
Proof. intros Hload. unfold Crawler.process_and_split. now rewrite Hload. Qed.

Lemma process_and_split_process_error ff cs co file_contents e :
  TextLoader_load (OsPath.join (Crawler.dir_path ff) (Crawler.file_name ff))
  = Ok file_contents ->
  Crawler.process_file file_contents (Crawler.dir_path ff) (Crawler.file_name ff)
    (Crawler.extension ff) cs co = Raise e ->
  Crawler.process_and_split ff cs co
  = (None,
     [Load (OsPath.join (Crawler.dir_path ff) (Crawler.file_name ff));
      Process (OsPath.join (Crawler.dir_path ff) (Crawler.file_name ff));
      LogError ("Error processing file "
                +:+ OsPath.join (Crawler.dir_path ff) (Crawler.file_name ff)
                +:+ ". Skipping file. " +:+ exn_str e)]).
Proof.
  intros Hload Hrun. unfold Crawler.process_and_split. now rewrite Hload, Hrun.
Qed.

Lemma process_and_split_ok ff cs co file_contents chunks :
  TextLoader_load (OsPath.join (Crawler.dir_path ff) (Crawler.file_name ff))
  = Ok file_contents ->
  Crawler.process_file file_contents (Crawler.dir_path ff) (Crawler.file_name ff)
    (Crawler.extension ff) cs co = Ok chunks ->
  Crawler.process_and_split ff cs co
  = (Some chunks,
     [Load (OsPath.join (Crawler.dir_path ff) (Crawler.file_name ff));
      Process (OsPath.join (Crawler.dir_path ff) (Crawler.file_name ff))]).
Proof.
  intros Hload Hrun. unfold Crawler.process_and_split. now rewrite Hload, Hrun.
Qed.

Lemma crawl_file_spec cs co split_docs trace ff :
  Crawler.crawl_file cs co (split_docs, trace) ff
  = ((split_docs ++ Spec.chunks_of cs co ff)%list,
     (trace ++ Spec.events_of cs co ff)%list).
Proof.
  unfold Crawler.crawl_file, Spec.chunks_of, Spec.events_of.
  destruct (Crawler.process_and_split ff cs co) as [[[|d ds]|] events];
    cbn [fst snd]; now rewrite ?app_nil_r.
Qed.

Lemma crawl_loop_spec cs co files split_docs trace :
  fold_left (Crawler.crawl_file cs co) files (split_docs, trace)
  = ((split_docs ++ flat_map (Spec.chunks_of cs co) files)%list,
     (trace ++ flat_map (Spec.events_of cs co) files)%list).
Proof.
  revert split_docs trace; induction files as [|ff rest IH];
    intros split_docs trace; cbn [fold_left flat_map].
  - now rewrite !app_nil_r.
  - now rewrite crawl_file_spec, IH, <- !app_assoc.
Qed.

(** C5. A failure while one file is loaded or processed is caught and
    logged, and the file adds no chunk; the loop goes on, so that the
    result of a run is the chunks of the files that were processed, in
    order, and a run over a git directory always returns a result. *)
Theorem failure_isolation cs co :
  (forall ff e,
      (TextLoader_load (OsPath.join (Crawler.dir_path ff) (Crawler.file_name ff))
       = Raise e
       \/ exists file_contents,
          TextLoader_load (OsPath.join (Crawler.dir_path ff) (Crawler.file_name ff))
          = Ok file_contents
          /\ Crawler.process_file file_contents (Crawler.dir_path ff)
               (Crawler.file_name ff) (Crawler.extension ff) cs co = Raise e) ->
      fst (Crawler.process_and_split ff cs co) = None
      /\ Spec.chunks_of cs co ff = []
      /\ In (LogError ("Error processing file "
                       +:+ OsPath.join (Crawler.dir_path ff) (Crawler.file_name ff)
                       +:+ ". Skipping file. " +:+ exn_str e))
            (Spec.events_of cs co ff))
  /\ (forall ff file_contents chunks,
         TextLoader_load (OsPath.join (Crawler.dir_path ff) (Crawler.file_name ff))
         = Ok file_contents ->
         Crawler.process_file file_contents (Crawler.dir_path ff)
           (Crawler.file_name ff) (Crawler.extension ff) cs co = Ok chunks ->
         Spec.chunks_of cs co ff = chunks)
  /\ (forall files split_docs trace,
         fold_left (Crawler.crawl_file cs co) files (split_docs, trace)
         = ((split_docs ++ flat_map (Spec.chunks_of cs co) files)%list,
            (trace ++ flat_map (Spec.events_of cs co) files)%list))
  /\ (forall before failing after,
         fst (Crawler.process_and_split failing cs co) = None ->
         fst (fold_left (Crawler.crawl_file cs co)
                (before ++ failing :: after) ([], []))
         = (flat_map (Spec.chunks_of cs co) before
            ++ flat_map (Spec.chunks_of cs co) after)%list)
  /\ (forall root_dir,
         Crawler.is_git_dir root_dir = true ->
         exists files log,
           Crawler.filter_files root_dir = (Ok files, log)
           /\ Crawler.crawl_and_split root_dir cs co
              = (Ok (flat_map (Spec.chunks_of cs co) files),
                 (log ++ flat_map (Spec.events_of cs co) files)%list)).
Proof.
  split; [|split; [|split; [|split]]].
  - intros ff e [Hload|(file_contents & Hload & Hrun)];
      unfold Spec.chunks_of, Spec.events_of.
    + rewrite (process_and_split_load_error _ cs co _ Hload). cbn [fst snd].
      repeat split. right. now left.
    + rewrite (process_and_split_process_error _ _ _ _ _ Hload Hrun).
      cbn [fst snd]. repeat split. right. right. now left.
  - intros ff file_contents chunks Hload Hrun. unfold Spec.chunks_of.
    now rewrite (process_and_split_ok _ _ _ _ _ Hload Hrun).
  - intros files split_docs trace. apply crawl_loop_spec.
  - intros before failing after Hnone. rewrite crawl_loop_spec. cbn [fst app].
    rewrite flat_map_app. cbn [flat_map].
    unfold Spec.chunks_of at 2. now rewrite Hnone.
  - intros root_dir Hgit.
    destruct (filter_files_git root_dir Hgit) as [log Hfilter].
    exists (flat_map Spec.queued_dir (os_walk root_dir)), log.
    split; [exact Hfilter|].
    unfold Crawler.crawl_and_split. rewrite Hfilter, crawl_loop_spec.
    reflexivity.
Qed.

End Run.

(** ** The traversal of the syntax tree *)

Lemma Node_nested_ind (P : Node -> Prop) :
  (forall type children start_point end_point start_byte end_byte,
      Forall P children ->
      P (mkNode type children start_point end_point start_byte end_byte)) ->
  forall node, P node.
Proof.
  intros Hnode. fix IH 1. intros [type children sp ep sb eb].
  apply Hnode. induction children as [|child rest IHrest]; constructor.
  - apply IH.
  - exact IHrest.
Qed.

Lemma preorder_node type children sp ep sb eb :
  Tree.preorder (mkNode type children sp ep sb eb)
  = mkNode type children sp ep sb eb :: flat_map Tree.preorder children.
Proof.
  reflexivity.
Qed.

Lemma getitem_1 {A : Type} (l : list A) :
  PyList.getitem l 1
  = match l !! 1%nat with Some x => Ok x | None => Raise IndexError end.
Proof. reflexivity. Qed.

Lemma spans_cons_other code type node nodes :
  Tree.is_type type node = false ->
  Tree.spans code type (node :: nodes) = Tree.spans code type nodes.
Proof. unfold Tree.spans. cbn [List.filter]. now intros ->. Qed.

Lemma spans_app code type nodes1 nodes2 :
  Tree.spans code type (nodes1 ++ nodes2)
  = (Tree.spans code type nodes1 ++ Tree.spans code type nodes2)%list.
Proof. unfold Tree.spans. now rewrite List.filter_app, omap_app. Qed.

Lemma named_app nodes1 nodes2 :
  Tree.named (nodes1 ++ nodes2) <-> Tree.named nodes1 /\ Tree.named nodes2.
Proof. unfold Tree.named. apply Forall_app. Qed.

Lemma named_cons node nodes :
  Tree.named (node :: nodes)
  <-> (orb (Tree.is_type "function_definition" node)
           (Tree.is_type "class_specifier" node) = true ->
       (1 < length (node_children node))%nat)
      /\ Tree.named nodes.
Proof. unfold Tree.named. apply Forall_cons. Qed.

Lemma lookup_1_Some {A : Type} (l : list A) (x : A) :
  l !! 1%nat = Some x -> (1 < length l)%nat.
Proof. intros Hx. apply lookup_lt_Some in Hx. exact Hx. Qed.

Lemma lookup_1_None {A : Type} (l : list A) :
  l !! 1%nat = None -> ~ (1 < length l)%nat.
Proof. intros Hx Hl. apply lookup_lt_is_Some_2 in Hl. rewrite Hx in Hl. now destruct Hl. Qed.

Lemma lookup_1_lt {A : Type} (l : list A) :
  (1 < length l)%nat -> exists x, l !! 1%nat = Some x.
Proof. intros Hl. apply lookup_lt_is_Some_2 in Hl. exact Hl. Qed.

Lemma spans_cons_same code type node nodes span :
  Tree.is_type type node = true ->
  Tree.span_of code node = Some span ->
  Tree.spans code type (node :: nodes) = span :: Tree.spans code type nodes.
Proof.
  unfold Tree.spans. cbn [List.filter]. intros -> Hspan.
  change (omap (Tree.span_of code) (node :: List.filter (Tree.is_type type) nodes))
    with (match Tree.span_of code node with
          | Some y => y :: omap (Tree.span_of code) (List.filter (Tree.is_type type) nodes)
          | None => omap (Tree.span_of code) (List.filter (Tree.is_type type) nodes)
          end).
  now rewrite Hspan.
Qed.

Lemma spans_length code type nodes :
  Tree.named nodes ->
  type = "function_definition" \/ type = "class_specifier" ->
  length (Tree.spans code type nodes)
  = length (List.filter (Tree.is_type type) nodes).
Proof.
  intros Hnamed Htype. unfold Tree.spans.
  induction Hnamed as [|node nodes Hnode _ IH]; [reflexivity|].
  cbn [List.filter]. destruct (Tree.is_type type node) eqn:Hty; [|exact IH].
  assert ((1 < length (node_children node))%nat) as Hlen.
  { apply Hnode. destruct Htype as [-> | ->]; rewrite Hty;
      [reflexivity | apply orb_true_r]. }
  destruct (lookup_1_lt _ Hlen) as [name_node Hname].
  change (omap (Tree.span_of code) (node :: List.filter (Tree.is_type type) nodes))
    with (match Tree.span_of code node with
          | Some y => y :: omap (Tree.span_of code) (List.filter (Tree.is_type type) nodes)
          | None => omap (Tree.span_of code) (List.filter (Tree.is_type type) nodes)
          end).
  unfold Tree.span_of at 1. rewrite Hname. cbn [length]. now rewrite IH.
Qed.

Section Traversal.
Context `{TreeSitter}.

Lemma height_node type children sp ep sb eb :
  Tree.height (mkNode type children sp ep sb eb)
  = S (Nat.max
         (if orb (String.eqb type "function_definition")
                 (String.eqb type "class_specifier")
          then SummaryPosition_frames else 0%nat)
         (Tree.tallest children)).
Proof. reflexivity. Qed.

Lemma traverse_node frames code type children sp ep sb eb current_line file_summary :
  TreeSitterParser.traverse (S frames) code (mkNode type children sp ep sb eb)
    current_line file_summary
  = (let! fs1 :=
       if String.eqb type "function_definition" then
         let! function_name_node := PyList.getitem children 1 in
         let! position :=
           TreeSitterParser.SummaryPosition_new frames
             (PyStr.slice code (Some (node_start_byte function_name_node))
                          (Some (node_end_byte function_name_node)))
             (fst sp) (fst ep) in
         Ok (TreeSitterParser.append_method file_summary position)
       else Ok file_summary in
     let! fs2 :=
       if String.eqb type "class_specifier" then
         let! class_name_node := PyList.getitem children 1 in
         let! position :=
           TreeSitterParser.SummaryPosition_new frames
             (PyStr.slice code (Some (node_start_byte class_name_node))
                          (Some (node_end_byte class_name_node)))
             (fst sp) (fst ep) in
         Ok (TreeSitterParser.append_class fs1 position)
       else Ok fs1 in
     Tree.traverse_each frames code current_line children fs2).
Proof. reflexivity. Qed.

Lemma traverse_no_frame code node current_line file_summary :
  TreeSitterParser.traverse 0 code node current_line file_summary
  = Raise RecursionError.
Proof. destruct node. reflexivity. Qed.

Lemma SummaryPosition_new_cases frames name first last :
  (TreeSitterParser.SummaryPosition_new frames name first last
   = Ok (mkSummaryPosition name first last)
   /\ (SummaryPosition_frames <= frames)%nat)
  \/ (TreeSitterParser.SummaryPosition_new frames name first last
      = Raise RecursionError
      /\ (frames < SummaryPosition_frames)%nat).
Proof.
  unfold TreeSitterParser.SummaryPosition_new.
  destruct (Nat.leb_spec SummaryPosition_frames frames); auto.
Qed.

Lemma traverse_each_outcome frames code current_line children :
  Forall (fun child => forall fs,
              Tree.outcome frames code (Tree.preorder child) (Tree.height child) fs
                (TreeSitterParser.traverse frames code child current_line fs))
         children ->
  forall fs,
    Tree.outcome frames code (flat_map Tree.preorder children)
      (Tree.tallest children) fs
      (Tree.traverse_each frames code current_line children fs).
Proof.
  induction 1 as [|child rest Hchild _ IH]; intros fs.
  - cbn [Tree.traverse_each Tree.tallest flat_map Tree.outcome].
    unfold Tree.collected, Tree.spans, Tree.named. cbn.
    rewrite !app_nil_r. repeat split; auto. lia.
  - cbn [Tree.traverse_each Tree.tallest flat_map].
    specialize (Hchild fs).
    destruct (TreeSitterParser.traverse frames code child current_line fs)
      as [fs1|e] eqn:Hc; cbn [Tree.outcome] in Hchild |- *.
    + destruct Hchild as [(Hm1 & Hc1 & Hn1) Hh1].
      specialize (IH fs1). fold (Tree.traverse_each frames code current_line) in *.
      destruct (Tree.traverse_each frames code current_line rest fs1) as [fs'|e];
        cbn [Tree.outcome] in IH |- *.
      * destruct IH as [(Hm2 & Hc2 & Hn2) Hh2]. split; [|lia].
        unfold Tree.collected. rewrite !spans_app, named_app.
        rewrite Hm2, Hm1, Hc2, Hc1, <- !app_assoc. auto.
      * destruct IH as [[-> Hn]|[-> Hh]].
        -- left. split; [reflexivity|]. rewrite named_app. tauto.
        -- right. split; [reflexivity|]. lia.
    + destruct Hchild as [[-> Hn]|[-> Hh]].
      * left. split; [reflexivity|]. rewrite named_app. tauto.
      * right. split; [reflexivity|]. lia.
Qed.

Lemma traverse_outcome frames code node current_line fs :
  Tree.outcome frames code (Tree.preorder node) (Tree.height node) fs
    (TreeSitterParser.traverse frames code node current_line fs).
Proof.
  revert frames fs.
  induction node as [type children sp ep sb eb IH] using Node_nested_ind.
  intros [|frames] fs.
  - rewrite traverse_no_frame, height_node. right. split; [reflexivity | lia].
  - rewrite traverse_node, preorder_node, height_node, !getitem_1.
    assert (forall fs1,
               Tree.outcome frames code (flat_map Tree.preorder children)
                 (Tree.tallest children) fs1
                 (Tree.traverse_each frames code current_line children fs1))
      as Heach.
    { apply traverse_each_outcome. eapply Forall_impl; [exact IH|].
      intros child Hchild fs1. apply Hchild. }
    destruct (String.eqb_spec type "function_definition") as [->|Hfn].
    + (* a function definition *)
      change (String.eqb "function_definition" "class_specifier") with false.
      cbn [orb].
      destruct (children !! 1%nat) as [name_node|] eqn:Hname; cbn [bind].
      * destruct (SummaryPosition_new_cases frames
                    (PyStr.slice code (Some (node_start_byte name_node))
                                 (Some (node_end_byte name_node)))
                    (fst sp) (fst ep)) as [[-> Hk]|[-> Hk]]; cbn [bind].
        -- specialize (Heach (TreeSitterParser.append_method fs
                                (mkSummaryPosition
                                   (PyStr.slice code (Some (node_start_byte name_node))
                                                (Some (node_end_byte name_node)))
                                   (fst sp) (fst ep)))).
           destruct (Tree.traverse_each _ _ _ _ _) as [fs'|e];
             cbn [Tree.outcome] in Heach |- *.
           ++ destruct Heach as [(Hm & Hc & Hn) Hh]. split; [|lia].
              unfold Tree.collected.
              rewrite (spans_cons_same code "function_definition" _ _
                         (mkSummaryPosition
                            (PyStr.slice code (Some (node_start_byte name_node))
                                         (Some (node_end_byte name_node)))
                            (fst sp) (fst ep)));
                [|reflexivity|unfold Tree.span_of; cbn [node_children]; now rewrite Hname].
              rewrite spans_cons_other by reflexivity.
              rewrite named_cons. cbn [node_children].
              rewrite Hm, Hc. cbn [TreeSitterParser.append_method methods classes].
              rewrite <- app_assoc. repeat split; auto.
              intros _. eapply lookup_1_Some, Hname.
           ++ destruct Heach as [[-> Hn]|[-> Hh]].
              ** left. split; [reflexivity|]. rewrite named_cons. tauto.
              ** right. split; [reflexivity|]. lia.
        -- right. split; [reflexivity|]. lia.
      * left. split; [reflexivity|]. rewrite named_cons. cbn [node_children].
        intros [Hlen _]. apply (lookup_1_None _ Hname), Hlen. reflexivity.
    + cbn [bind]. destruct (String.eqb_spec type "class_specifier") as [->|Hcl].
      * (* a class *)
        change (String.eqb "class_specifier" "function_definition") with false.
        cbn [orb].
        destruct (children !! 1%nat) as [name_node|] eqn:Hname; cbn [bind].
        -- destruct (SummaryPosition_new_cases frames
                       (PyStr.slice code (Some (node_start_byte name_node))
                                    (Some (node_end_byte name_node)))
                       (fst sp) (fst ep)) as [[-> Hk]|[-> Hk]]; cbn [bind].
           ++ specialize (Heach (TreeSitterParser.append_class fs
                                   (mkSummaryPosition
                                      (PyStr.slice code (Some (node_start_byte name_node))
                                                   (Some (node_end_byte name_node)))
                                      (fst sp) (fst ep)))).
              destruct (Tree.traverse_each _ _ _ _ _) as [fs'|e];
                cbn [Tree.outcome] in Heach |- *.
              ** destruct Heach as [(Hm & Hc & Hn) Hh]. split; [|lia].
                 unfold Tree.collected.
                 rewrite (spans_cons_same code "class_specifier" _ _
                            (mkSummaryPosition
                               (PyStr.slice code (Some (node_start_byte name_node))
                                            (Some (node_end_byte name_node)))
                               (fst sp) (fst ep)));
                   [|reflexivity|unfold Tree.span_of; cbn [node_children]; now rewrite Hname].
                 rewrite spans_cons_other by reflexivity.
                 rewrite named_cons. cbn [node_children].
                 rewrite Hm, Hc. cbn [TreeSitterParser.append_class methods classes].
                 rewrite <- app_assoc. repeat split; auto.
                 intros _. eapply lookup_1_Some, Hname.
              ** destruct Heach as [[-> Hn]|[-> Hh]].
                 --- left. split; [reflexivity|]. rewrite named_cons. tauto.
                 --- right. split; [reflexivity|]. lia.
           ++ right. split; [reflexivity|]. lia.
        -- left. split; [reflexivity|]. rewrite named_cons. cbn [node_children].
           intros [Hlen _]. apply (lookup_1_None _ Hname), Hlen. reflexivity.
      * (* any other node *)
        assert (String.eqb type "function_definition" = false) as Hf
            by (now apply String.eqb_neq).
        assert (String.eqb type "class_specifier" = false) as Hk
            by (now apply String.eqb_neq).
        cbn [orb bind]. specialize (Heach fs).
        destruct (Tree.traverse_each _ _ _ _ _) as [fs'|e];
          cbn [Tree.outcome] in Heach |- *.
        -- destruct Heach as [(Hm & Hc & Hn) Hh]. split; [|lia].
           unfold Tree.collected.
           rewrite !spans_cons_other
             by (unfold Tree.is_type; cbn [node_type]; assumption).
           rewrite named_cons. unfold Tree.is_type at 1 2. cbn [node_type].
           rewrite Hf, Hk. repeat split; auto. discriminate.
        -- destruct Heach as [[-> Hn]|[-> Hh]].
           ++ left. split; [reflexivity|]. rewrite named_cons. tauto.
           ++ right. split; [reflexivity|]. lia.
Qed.

Lemma traverse_collects frames code node current_line fs fs' :
  TreeSitterParser.traverse frames code node current_line fs = Ok fs' ->
  Tree.collected code (Tree.preorder node) fs fs'.
Proof.
  intros Hrun. pose proof (traverse_outcome frames code node current_line fs) as Hout.
  rewrite Hrun in Hout. exact (proj1 Hout).
Qed.

(** X13. [traverse] appends, to the methods and to the classes it was given,
    the spans of the [function_definition] and of the [class_specifier] nodes
    of the whole tree, nested ones included, in depth-first order, every node
    before its children; it removes and reorders nothing. *)
Theorem traverse_collects_preorder frames code node current_line fs fs' :
  TreeSitterParser.traverse frames code node current_line fs = Ok fs' ->
  methods fs'
  = (methods fs ++ Tree.spans code "function_definition" (Tree.preorder node))%list
  /\ classes fs'
     = (classes fs ++ Tree.spans code "class_specifier" (Tree.preorder node))%list
  /\ length (methods fs')
     = (length (methods fs)
        + length (List.filter (Tree.is_type "function_definition")
                    (Tree.preorder node)))%nat
  /\ length (classes fs')
     = (length (classes fs)
        + length (List.filter (Tree.is_type "class_specifier")
                    (Tree.preorder node)))%nat.
Proof.
  intros Hrun. destruct (traverse_collects _ _ _ _ _ _ Hrun) as (Hm & Hc & Hn).
  split; [exact Hm|]. split; [exact Hc|].
  rewrite Hm, Hc, !length_app, !spans_length by auto. split; reflexivity.
Qed.

(** X14. With [frames] calls left to nest, [traverse] returns a summary
    exactly when every [function_definition] and every [class_specifier]
    node of the tree has a second child and the tree is no taller than
    [frames]. Otherwise it raises [IndexError], and then some definition has
    no second child, or [RecursionError], and then the tree is taller than
    [frames]; it raises nothing else. *)
Theorem traverse_returns_iff frames code node current_line fs :
  ((exists fs', TreeSitterParser.traverse frames code node current_line fs = Ok fs')
   <-> Tree.named (Tree.preorder node) /\ (Tree.height node <= frames)%nat)
  /\ (forall e,
         TreeSitterParser.traverse frames code node current_line fs = Raise e ->
         (e = IndexError /\ ~ Tree.named (Tree.preorder node))
         \/ (e = RecursionError /\ (frames < Tree.height node)%nat)).
Proof.
  pose proof (traverse_outcome frames code node current_line fs) as Hout.
  destruct (TreeSitterParser.traverse frames code node current_line fs) as [fs'|e];
    cbn [Tree.outcome] in Hout.
  - destruct Hout as [(_ & _ & Hnamed) Hheight]. split.
    + split; [auto | eauto].
    + discriminate.
  - split.
    + split.
      * intros [fs' Hrun]. discriminate.
      * intros [Hnamed Hheight]. destruct Hout as [[_ Hn]|[_ Hh]]; [tauto | lia].
    + intros e' He. injection He as <-. exact Hout.
Qed.

End Traversal.

Section Stable.
Context {A : Type} (key : A -> Z).

Lemma insert_by_filter (k : Z) (x : A) (l : list A) :
  List.filter (fun y => (key y =? k)%Z) (PyList.insert_by key x l)
  = List.filter (fun y => (key y =? k)%Z) (x :: l).
Proof.
  induction l as [|y l IH]; [reflexivity|].
  cbn [PyList.insert_by]. destruct (Z.leb_spec (key x) (key y)) as [Hxy|Hyx];
    [reflexivity|].
  cbn [List.filter] in *. rewrite IH.
  destruct (Z.eqb_spec (key x) k), (Z.eqb_spec (key y) k); try reflexivity. lia.
Qed.

Lemma sorted_filter (k : Z) (l : list A) :
  List.filter (fun y => (key y =? k)%Z) (PyList.sorted l key)
  = List.filter (fun y => (key y =? k)%Z) l.
Proof.
  unfold PyList.sorted. induction l as [|x l IH]; [reflexivity|].
  cbn [foldr]. rewrite insert_by_filter. cbn [List.filter]. now rewrite IH.
Qed.

End Stable.

(** ** The summary of a supported file *)

Section Summary.
Context `{TreeSitter}.

Lemma get_file_summary_inv st code file_name fs st' :
  TreeSitterParser.get_file_summary st code file_name = (Ok fs, st') ->
  TreeSitterParser.summarize st' code file_name = Ok fs
  /\ TreeSitterParser.loaded st' = true
  /\ (TreeSitterParser.loaded st = true -> st' = st)
  /\ (TreeSitterParser.loaded st = false ->
      TreeSitterParser.initialize_treesitter st = (Ok tt, st')).
Proof.
  unfold TreeSitterParser.get_file_summary. intros Hrun.
  destruct (TreeSitterParser.loaded st) eqn:Hloaded.
  - injection Hrun as Hsum <-. repeat split; auto. discriminate.
  - destruct (TreeSitterParser.initialize_treesitter st) as [[[]|e] st1] eqn:Hinit;
      [|discriminate].
    injection Hrun as Hsum <-. repeat split; auto; try discriminate.
    unfold TreeSitterParser.initialize_treesitter in Hinit.
    destruct (TreeSitterParser.build_all _) as [[]|e]; [|discriminate].
    destruct (TreeSitterParser.load_all _) as [m|e]; [|discriminate].
    now injection Hinit as <-.
Qed.

Lemma summarize_supported st code file_name fs language_name :
  TreeSitterParser.extension_to_language !! snd (OsPath.splitext file_name)
  = Some language_name ->
  TreeSitterParser.summarize st code file_name = Ok fs ->
  exists language root_node raw,
    TreeSitterParser.languages st !! language_name = Some language
    /\ parse language code = Ok root_node
    /\ TreeSitterParser.traverse recursion_limit code root_node 0
         FileSummary_new = Ok raw
    /\ fs = {| methods := PyList.sorted (methods raw) start_line;
               classes := PyList.sorted (classes raw) start_line |}.
Proof.
  unfold TreeSitterParser.summarize, PyDict.contains, PyDict.getitem.
  intros Hext. rewrite Hext. cbn [bind]. intros Hrun.
  destruct (TreeSitterParser.languages st !! language_name) as [language|] eqn:Hlang;
    [|discriminate].
  cbn [bind] in Hrun.
  bind_inv Hrun. rename a into root_node.
  bind_inv Hrun. rename a into raw.
  injection Hrun as <-. eauto 8.
Qed.

(** X15. For a file name whose extension is in the table, the summary that
    [get_file_summary] returns is made of the spans of the definition nodes
    of the parsed tree, taken in depth-first order and then sorted by
    [start_line]. *)
Theorem summary_is_sorted_spans st code file_name fs st' language_name :
  TreeSitterParser.extension_to_language !! snd (OsPath.splitext file_name)
  = Some language_name ->
  TreeSitterParser.get_file_summary st code file_name = (Ok fs, st') ->
  exists language root_node,
    TreeSitterParser.languages st' !! language_name = Some language
    /\ parse language code = Ok root_node
    /\ methods fs
       = PyList.sorted
           (Tree.spans code "function_definition" (Tree.preorder root_node))
           start_line
    /\ classes fs
       = PyList.sorted
           (Tree.spans code "class_specifier" (Tree.preorder root_node))
           start_line.
Proof.
  intros Hext Hrun. destruct (get_file_summary_inv _ _ _ _ _ Hrun) as (Hsum & _).
  destruct (summarize_supported _ _ _ _ _ Hext Hsum)
    as (language & root_node & raw & Hlang & Hparse & Htrav & ->).
  destruct (traverse_collects _ _ _ _ _ _ Htrav) as (Hm & Hc & _).
  exists language, root_node. cbn [methods classes] in *.
  rewrite Hm, Hc. cbn [methods classes FileSummary_new app]. auto.
Qed.

(** X16. Definitions that start on the same line keep, in the summary, the
    order in which the traversal met them: the sort is stable. *)
Theorem summary_ties_keep_order st code file_name fs st' language_name line :
  TreeSitterParser.extension_to_language !! snd (OsPath.splitext file_name)
  = Some language_name ->
  TreeSitterParser.get_file_summary st code file_name = (Ok fs, st') ->
  exists language root_node,
    parse language code = Ok root_node
    /\ List.filter (fun span => (start_line span =? line)%Z) (methods fs)
       = List.filter (fun span => (start_line span =? line)%Z)
           (Tree.spans code "function_definition" (Tree.preorder root_node))
    /\ List.filter (fun span => (start_line span =? line)%Z) (classes fs)
       = List.filter (fun span => (start_line span =? line)%Z)
           (Tree.spans code "class_specifier" (Tree.preorder root_node)).
Proof.
  intros Hext Hrun. destruct (get_file_summary_inv _ _ _ _ _ Hrun) as (Hsum & _).
  destruct (summarize_supported _ _ _ _ _ Hext Hsum)
    as (language & root_node & raw & _ & Hparse & Htrav & ->).
  destruct (traverse_collects _ _ _ _ _ _ Htrav) as (Hm & Hc & _).
  exists language, root_node. cbn [methods classes] in *.
  rewrite Hm, Hc, !sorted_filter. cbn [methods classes FileSummary_new app]. auto.
Qed.

(** X17. A call of [get_file_summary] that returns a summary leaves the
    grammars loaded, and from then on no call changes the class attributes
    or builds the grammars again: a later call only summarizes. *)
Theorem registry_loaded_once st code file_name fs st' :
  TreeSitterParser.get_file_summary st code file_name = (Ok fs, st') ->
  TreeSitterParser.loaded st' = true
  /\ (TreeSitterParser.loaded st = true -> st' = st)
  /\ forall code2 file_name2,
      TreeSitterParser.get_file_summary st' code2 file_name2
      = (TreeSitterParser.summarize st' code2 file_name2, st').
Proof.
  intros Hrun.
  destruct (get_file_summary_inv _ _ _ _ _ Hrun) as (_ & Hloaded & Hsame & _).
  split; [exact Hloaded|]. split; [exact Hsame|].
  intros code2 file_name2. unfold TreeSitterParser.get_file_summary.
  rewrite Hloaded. destruct (TreeSitterParser.summarize _ _ _); reflexivity.
Qed.

Lemma build_all_fails before language after e :
  Forall (fun name =>
            exists u, build_library ("cache/build/" +:+ name +:+ ".so")
                        ["cache/tree-sitter-" +:+ name] = Ok u) before ->
  build_library ("cache/build/" +:+ language +:+ ".so")
    ["cache/tree-sitter-" +:+ language] = Raise e ->
  TreeSitterParser.build_all (before ++ language :: after) = Raise e.
Proof.
  intros Hbefore Hfail. induction Hbefore as [|name rest [u Hname] _ IH];
    cbn [app TreeSitterParser.build_all].
  - now rewrite Hfail.
  - rewrite Hname. cbn [bind]. exact IH.
Qed.

(** X18. When the build of one grammar fails, with the grammars not yet
    loaded, [get_file_summary] raises that error for every file, also for a
    file whose extension is not in the table, and leaves the class
    attributes as they were, so that the next call tries again. *)
Theorem failed_build_raises st before language after e :
  TreeSitterParser.loaded st = false ->
  TreeSitterParser.LANGUAGE_NAMES = (before ++ language :: after)%list ->
  Forall (fun name =>
            exists u, build_library ("cache/build/" +:+ name +:+ ".so")
                        ["cache/tree-sitter-" +:+ name] = Ok u) before ->
  build_library ("cache/build/" +:+ language +:+ ".so")
    ["cache/tree-sitter-" +:+ language] = Raise e ->
  forall code file_name,
    TreeSitterParser.get_file_summary st code file_name = (Raise e, st).
Proof.
  intros Hloaded Hnames Hbefore Hfail code file_name.
  unfold TreeSitterParser.get_file_summary, TreeSitterParser.initialize_treesitter.
  rewrite Hloaded, Hnames, (build_all_fails _ _ _ _ Hbefore Hfail). reflexivity.
Qed.

Lemma load_all_lookup names m name :
  TreeSitterParser.load_all names = Ok m ->
  In name names ->
  exists grammar,
    m !! name = Some grammar
    /\ Language_new ("/tmp/" +:+ name +:+ ".so") name = Ok grammar.
Proof.
  revert m; induction names as [|first rest IH]; intros m Hrun Hin; [destruct Hin|].
  cbn [TreeSitterParser.load_all] in Hrun.
  bind_inv Hrun. rename a into grammar. bind_inv Hrun. rename a into m'.
  injection Hrun as <-.
  destruct (decide (first = name)) as [->|Hne].
  - exists grammar. now rewrite lookup_insert_eq.
  - destruct Hin as [Heq|Hin]; [congruence|].
    destruct (IH _ Ha0 Hin) as (g & Hg & Hnew).
    exists g. now rewrite lookup_insert_ne.
Qed.

Lemma table_values_are_names extension language_name :
  TreeSitterParser.extension_to_language !! extension = Some language_name ->
  In language_name TreeSitterParser.LANGUAGE_NAMES.
Proof.
  unfold TreeSitterParser.extension_to_language. intros Hext.
  apply elem_of_list_to_map_2 in Hext.
  unfold TreeSitterParser.LANGUAGE_NAMES.
  repeat (apply elem_of_cons in Hext; destruct Hext as [Hext|Hext];
          [injection Hext as -> ->; cbn [In]; tauto|]).
  now apply elem_of_nil in Hext.
Qed.

(** X19. Once [initialize_treesitter] has returned, the grammar of every
    language that the extension table names is in [languages]: the lookup
    [languages[extension_to_language[extension]]] of [get_file_summary]
    raises no [KeyError]. *)
Theorem grammars_cover_table st st1 :
  TreeSitterParser.initialize_treesitter st = (Ok tt, st1) ->
  TreeSitterParser.loaded st1 = true
  /\ forall extension language_name,
      TreeSitterParser.extension_to_language !! extension = Some language_name ->
      exists grammar,
        PyDict.getitem (TreeSitterParser.languages st1) language_name = Ok grammar
        /\ Language_new ("/tmp/" +:+ language_name +:+ ".so") language_name
           = Ok grammar.
Proof.
  unfold TreeSitterParser.initialize_treesitter. intros Hinit.
  destruct (TreeSitterParser.build_all _) as [[]|e]; [|discriminate].
  destruct (TreeSitterParser.load_all _) as [m|e] eqn:Hload; [|discriminate].
  injection Hinit as <-. split; [reflexivity|].
  intros extension language_name Hext.
  destruct (load_all_lookup _ _ language_name Hload
              (table_values_are_names _ _ Hext)) as (grammar & Hg & Hnew).
  exists grammar. unfold PyDict.getitem. cbn [TreeSitterParser.languages].
  now rewrite Hg.
Qed.

End Summary.

(** ** Slices and line numbers *)

Lemma app_String (x : ascii) (a b : string) :
  String x a +:+ b = String x (a +:+ b).
Proof. reflexivity. Qed.

Lemma app_empty (b : string) : "" +:+ b = b.
Proof. reflexivity. Qed.

Lemma count_app (c : ascii) (a b : string) :
  PyStr.count c (a +:+ b) = (PyStr.count c a + PyStr.count c b)%Z.
Proof.
  induction a as [|x a IH]; [reflexivity|].
  rewrite app_String. cbn [PyStr.count]. rewrite IH. lia.
Qed.

Lemma take_split (a b : nat) (s : string) :
  (a <= b)%nat ->
  PyStr.take b s = PyStr.take a s +:+ String.substring a (b - a) s.
Proof.
  revert a b; induction s as [|c s IH]; intros a b Hab.
  - destruct a, b; reflexivity.
  - destruct a as [|a].
    + rewrite Nat.sub_0_r, substring_0_take. reflexivity.
    + destruct b as [|b]; [lia|].
      cbn [PyStr.take String.substring Nat.sub].
      rewrite (IH a b) by lia. reflexivity.
Qed.

Lemma adjust_nonneg (n i : Z) :
  (0 <= n)%Z -> (0 <= i)%Z -> PyStr.adjust n i = Z.min i n.
Proof.
  intros Hn Hi. unfold PyStr.adjust.
  destruct (Z.ltb_spec i 0) as [?|_]; [lia|].
  destruct (Z.ltb_spec i 0) as [?|_]; [lia|].
  destruct (Z.leb_spec n i); lia.
Qed.

Lemma adjust_range (n i : Z) :
  (0 <= n)%Z -> (0 <= PyStr.adjust n i <= n)%Z.
Proof.
  intros Hn. unfold PyStr.adjust.
  destruct (Z.ltb_spec i 0);
    repeat match goal with
           | |- context [(?a <? ?b)%Z] => destruct (Z.ltb_spec a b)
           | |- context [(?a <=? ?b)%Z] => destruct (Z.leb_spec a b)
           end; lia.
Qed.

Lemma slice_to (s : string) (o : Z) :
  PyStr.slice s None (Some o)
  = PyStr.take (Z.to_nat (PyStr.adjust (PyStr.len s) o)) s.
Proof.
  unfold PyStr.slice. now rewrite Z.sub_0_r, substring_0_take.
Qed.

Lemma slice_split (s : string) (a b : Z) :
  (0 <= a <= b)%Z ->
  PyStr.slice s None (Some b)
  = PyStr.slice s None (Some a) +:+ PyStr.slice s (Some a) (Some b).
Proof.
  intros Hab. rewrite !slice_to. unfold PyStr.slice.
  pose proof (Nat2Z.is_nonneg (String.length s)) as Hlen.
  fold (PyStr.len s) in Hlen.
  rewrite !adjust_nonneg by lia.
  rewrite (take_split (Z.to_nat (Z.min a (PyStr.len s)))
                      (Z.to_nat (Z.min b (PyStr.len s)))) by lia.
  do 2 f_equal. lia.
Qed.

Lemma slice_rest (s : string) (a : Z) :
  (0 <= a)%Z ->
  PyStr.slice s None (Some a) +:+ PyStr.slice s (Some a) None = s.
Proof.
  intros Ha. rewrite slice_to. unfold PyStr.slice.
  pose proof (Nat2Z.is_nonneg (String.length s)) as Hlen.
  fold (PyStr.len s) in Hlen.
  rewrite !adjust_nonneg by lia.
  transitivity (PyStr.take (String.length s) s); [|apply take_all; lia].
  rewrite (take_split (Z.to_nat (Z.min a (PyStr.len s))) (String.length s))
    by (unfold PyStr.len; lia).
  do 2 f_equal. unfold PyStr.len. lia.
Qed.

Lemma count_take_le (c : ascii) (k : nat) (s : string) :
  (PyStr.count c (PyStr.take k s) <= PyStr.count c s)%Z.
Proof.
  revert k; induction s as [|x s IH]; intros [|k]; cbn [PyStr.take PyStr.count];
    try lia.
  - pose proof (count_nonneg c s). destruct (Ascii.eqb x c); lia.
  - specialize (IH k). lia.
Qed.

Lemma resolve_start_line_range (text : string) (o : Z) :
  (1 <= Spec.resolve_start_line text o
   <= PyStr.count PyStr.newline text + 1)%Z.
Proof.
  unfold Spec.resolve_start_line. rewrite slice_from_0, slice_to.
  pose proof (count_nonneg PyStr.newline
                (PyStr.take (Z.to_nat (PyStr.adjust (PyStr.len text) o)) text)).
  pose proof (count_take_le PyStr.newline
                (Z.to_nat (PyStr.adjust (PyStr.len text) o)) text).
  lia.
Qed.

Lemma resolve_start_line_mono (text : string) (o1 o2 : Z) :
  (0 <= o1 <= o2)%Z ->
  (Spec.resolve_start_line text o1 <= Spec.resolve_start_line text o2)%Z.
Proof.
  intros Ho. unfold Spec.resolve_start_line.
  rewrite !slice_from_0, (slice_split text o1 o2 Ho), count_app.
  pose proof (count_nonneg PyStr.newline (PyStr.slice text (Some o1) (Some o2))).
  lia.
Qed.

Lemma resolve_end_line_of_slice (text : string) (o n : Z) :
  (0 <= o)%Z -> (0 <= n)%Z ->
  Spec.resolve_end_line (Spec.resolve_start_line text o)
    (PyStr.slice text (Some o) (Some (o + n)%Z))
  = Spec.resolve_start_line text (o + n).
Proof.
  intros Ho Hn. unfold Spec.resolve_end_line, Spec.resolve_start_line.
  rewrite !slice_from_0, (slice_split text o (o + n)) by lia.
  rewrite count_app. lia.
Qed.

Section Lines.
Context `{World}.

(** X8. Whatever the [start_index] of a chunk is, also a negative one or one
    beyond the end of the text, the [starting_line] that the loop records
    lies between 1 and the number of line breaks of the file plus 1. *)
Theorem starting_line_within_file file_doc dir_path file_name file_summary doc doc' :
  Crawler.annotate file_doc dir_path file_name file_summary doc = Ok doc' ->
  exists starting_line,
    metadata doc' !! "starting_line" = Some (VInt starting_line)
    /\ (1 <= starting_line
        <= PyStr.count PyStr.newline (page_content file_doc) + 1)%Z.
Proof.
  intros Hann.
  destruct (annotate_inv _ _ _ _ _ _ Hann) as (o & context & Hidx & _ & ->).
  eexists. cbn [metadata]. split.
  - rewrite lookup_insert_ne by discriminate. apply lookup_insert_eq.
  - apply resolve_start_line_range.
Qed.

(** X9. Of two chunks of one file, the one that starts later in the text
    does not get the smaller [starting_line]. *)
Theorem starting_line_monotone file_doc dir_path file_name file_summary
        doc1 doc1' doc2 doc2' o1 o2 :
  Crawler.annotate file_doc dir_path file_name file_summary doc1 = Ok doc1' ->
  Crawler.annotate file_doc dir_path file_name file_summary doc2 = Ok doc2' ->
  metadata doc1 !! "start_index" = Some (VInt o1) ->
  metadata doc2 !! "start_index" = Some (VInt o2) ->
  (0 <= o1 <= o2)%Z ->
  exists line1 line2,
    metadata doc1' !! "starting_line" = Some (VInt line1)
    /\ metadata doc2' !! "starting_line" = Some (VInt line2)
    /\ (line1 <= line2)%Z.
Proof.
  intros Hann1 Hann2 Hidx1 Hidx2 Ho.
  destruct (annotate_inv _ _ _ _ _ _ Hann1) as (o1' & c1 & Hidx1' & _ & ->).
  destruct (annotate_inv _ _ _ _ _ _ Hann2) as (o2' & c2 & Hidx2' & _ & ->).
  assert (o1' = o1) as -> by congruence.
  assert (o2' = o2) as -> by congruence.
  do 2 eexists. cbn [metadata].
  split; [rewrite lookup_insert_ne by discriminate; apply lookup_insert_eq|].
  split; [rewrite lookup_insert_ne by discriminate; apply lookup_insert_eq|].
  now apply resolve_start_line_mono.
Qed.

(** X10. When the text of a chunk is the [n] characters of the file that
    follow its [start_index] [o], its [ending_line] is the line on which
    offset [o + n] lies: [count('\n', text[0:o+n]) + 1]. *)
Theorem ending_line_of_slice file_doc dir_path file_name file_summary doc doc' o n :
  Crawler.annotate file_doc dir_path file_name file_summary doc = Ok doc' ->
  metadata doc !! "start_index" = Some (VInt o) ->
  (0 <= o)%Z -> (0 <= n)%Z ->
  page_content doc = PyStr.slice (page_content file_doc) (Some o) (Some (o + n)%Z) ->
  metadata doc' !! "ending_line"
  = Some (VInt (PyStr.count PyStr.newline
                  (PyStr.slice (page_content file_doc) (Some 0%Z) (Some (o + n)%Z))
                + 1)).
Proof.
  intros Hann Hidx Ho Hn Htext.
  destruct (annotate_inv _ _ _ _ _ _ Hann) as (o' & context & Hidx' & _ & ->).
  assert (o' = o) as -> by congruence.
  cbn [metadata]. rewrite lookup_insert_eq, Htext.
  now rewrite resolve_end_line_of_slice.
Qed.

Lemma annotate_each_app file_doc dir_path file_name file_summary docs1 docs2 :
  Crawler.annotate_each file_doc dir_path file_name file_summary (docs1 ++ docs2)
  = (let! out1 :=
       Crawler.annotate_each file_doc dir_path file_name file_summary docs1 in
     let! out2 :=
       Crawler.annotate_each file_doc dir_path file_name file_summary docs2 in
     Ok (out1 ++ out2)%list).
Proof.
  induction docs1 as [|doc rest IH]; cbn [app Crawler.annotate_each bind].
  - destruct (Crawler.annotate_each _ _ _ _ docs2); reflexivity.
  - destruct (Crawler.annotate _ _ _ _ doc); cbn [bind]; [|reflexivity].
    rewrite IH.
    destruct (Crawler.annotate_each _ _ _ _ rest); cbn [bind]; [|reflexivity].
    destruct (Crawler.annotate_each _ _ _ _ docs2); reflexivity.
Qed.

(** X7. The loop of [process_file] raises exactly when the annotation of
    some chunk raises, and the error is that of the first such chunk: the
    chunks before it were annotated, those after it are not looked at, and
    no partial list is returned. *)
Theorem first_failing_chunk_decides file_doc dir_path file_name file_summary split_docs e :
  Crawler.annotate_each file_doc dir_path file_name file_summary split_docs = Raise e
  <-> exists before doc after,
      split_docs = (before ++ doc :: after)%list
      /\ Crawler.annotate file_doc dir_path file_name file_summary doc = Raise e
      /\ exists out,
          Crawler.annotate_each file_doc dir_path file_name file_summary before
          = Ok out.
Proof.
  split.
  - induction split_docs as [|doc rest IH]; cbn [Crawler.annotate_each];
      [discriminate|].
    destruct (Crawler.annotate _ _ _ _ doc) as [doc'|e1] eqn:Hdoc; cbn [bind].
    + destruct (Crawler.annotate_each _ _ _ _ rest) as [out|e2] eqn:Hrest;
        cbn [bind]; [discriminate|].
      intros Hrun. injection Hrun as ->.
      destruct (IH eq_refl) as (before & bad & after & -> & Hbad & out & Hout).
      exists (doc :: before), bad, after. split; [reflexivity|].
      split; [exact Hbad|]. exists (doc' :: out).
      cbn [Crawler.annotate_each]. now rewrite Hdoc, Hout.
    + intros Hrun. injection Hrun as ->.
      exists [], doc, rest. split; [reflexivity|]. split; [exact Hdoc|].
      exists []. reflexivity.
  - intros (before & doc & after & -> & Hdoc & out & Hout).
    rewrite annotate_each_app, Hout. cbn [bind Crawler.annotate_each].
    now rewrite Hdoc.
Qed.

End Lines.

(** ** Paths *)

Lemma split_nonempty (c : ascii) (s : string) : PyStr.split c s <> [].
Proof.
  destruct s as [|a s]; cbn [PyStr.split]; [discriminate|].
  destruct (Ascii.eqb a c); [discriminate|].
  destruct (PyStr.split c s); discriminate.
Qed.

Lemma split_app (c : ascii) (a b : string) :
  PyStr.split c (a +:+ String c b) = (PyStr.split c a ++ PyStr.split c b)%list.
Proof.
  induction a as [|x a IH].
  - rewrite app_empty. cbn [PyStr.split]. now rewrite Ascii.eqb_refl.
  - rewrite app_String. cbn [PyStr.split]. rewrite IH.
    destruct (Ascii.eqb x c); [reflexivity|].
    pose proof (split_nonempty c a) as Hne.
    destruct (PyStr.split c a) as [|f fs]; [contradiction|reflexivity].
Qed.

Lemma contains_hidden_dir_app (a b : string) :
  Crawler.contains_hidden_dir (a +:+ "/" +:+ b)
  = orb (Crawler.contains_hidden_dir a) (Crawler.contains_hidden_dir b).
Proof.
  unfold Crawler.contains_hidden_dir.
  change ("/" +:+ b) with (String PyStr.sep b).
  now rewrite split_app, existsb_app.
Qed.

(** X3. What lies below a hidden directory is hidden: a path made of two
    paths with a slash between them contains a hidden directory exactly when
    one of the two does. *)
Theorem hidden_below_hidden (a b : string) :
  Crawler.contains_hidden_dir (a +:+ "/" +:+ b)
  = orb (Crawler.contains_hidden_dir a) (Crawler.contains_hidden_dir b)
  /\ (Crawler.contains_hidden_dir a = true ->
      Crawler.contains_hidden_dir (a +:+ "/" +:+ b) = true)
  /\ (Spec.hidden b -> Crawler.contains_hidden_dir (a +:+ "/" +:+ b) = true).
Proof.
  rewrite contains_hidden_dir_app. split; [reflexivity|]. split.
  - now intros ->.
  - intros Hb. apply orb_true_iff. right.
    apply contains_hidden_dir_true. exists (hd "" (PyStr.split PyStr.sep b)).
    unfold Spec.hidden in *. destruct b as [|x b]; [discriminate|].
    cbn [PyStr.startswith] in Hb. cbn [PyStr.split].
    assert (Ascii.eqb x PyStr.sep = false) as ->.
    { apply Ascii.eqb_eq in Hb. subst x. reflexivity. }
    pose proof (split_nonempty PyStr.sep b) as Hne.
    destruct (PyStr.split PyStr.sep b) as [|f fs]; [contradiction|].
    cbn [hd In PyStr.startswith]. auto.
Qed.

Lemma starts_with_dot_hidden (dir_path : string) :
  PyStr.startswith dir_path PyStr.extsep = true ->
  Crawler.contains_hidden_dir dir_path = true.
Proof.
  intros Hdot. apply contains_hidden_dir_true.
  exists (hd "" (PyStr.split PyStr.sep dir_path)).
  unfold Spec.hidden. destruct dir_path as [|x d]; [discriminate|].
  cbn [PyStr.startswith] in Hdot. cbn [PyStr.split].
  assert (Ascii.eqb x PyStr.sep = false) as ->.
  { apply Ascii.eqb_eq in Hdot. subst x. reflexivity. }
  pose proof (split_nonempty PyStr.sep d) as Hne.
  destruct (PyStr.split PyStr.sep d) as [|f fs]; [contradiction|].
  cbn [hd In PyStr.startswith]. auto.
Qed.

Lemma app_empty_r (s : string) : s +:+ "" = s.
Proof. induction s as [|x s IH]; [reflexivity|]. now rewrite app_String, IH. Qed.

Lemma rfind_from_ge (c : ascii) (s : string) (i last : Z) :
  (-1 <= last)%Z -> (0 <= i)%Z -> (-1 <= PyStr.rfind_from c s i last)%Z.
Proof.
  revert i last; induction s as [|x s IH]; intros i last Hlast Hi;
    cbn [PyStr.rfind_from]; [exact Hlast|].
  apply IH; [destruct (Ascii.eqb x c); lia | lia].
Qed.

Lemma splitext_scan_join (p : string) (dotIndex filenameIndex : Z) (steps : nat) :
  (0 <= dotIndex)%Z ->
  fst (OsPath.splitext_scan p dotIndex filenameIndex steps)
  +:+ snd (OsPath.splitext_scan p dotIndex filenameIndex steps) = p.
Proof.
  intros Hdot. revert filenameIndex.
  induction steps as [|k IH]; intros filenameIndex; cbn [OsPath.splitext_scan].
  - cbn [fst snd]. rewrite slice_to_0. apply app_empty_r.
  - destruct (negb _); [|apply IH].
    cbn [fst snd]. now apply slice_rest.
Qed.

Lemma splitext_join (p : string) :
  fst (OsPath.splitext p) +:+ snd (OsPath.splitext p) = p.
Proof.
  unfold OsPath.splitext.
  destruct (Z.ltb_spec (PyStr.rfind PyStr.sep p) (PyStr.rfind PyStr.extsep p))
    as [Hlt|_].
  - apply splitext_scan_join.
    pose proof (rfind_from_ge PyStr.sep p 0 (-1)) as Hsep.
    unfold PyStr.rfind in *. lia.
  - cbn [fst snd]. rewrite slice_to_0. apply app_empty_r.
Qed.

Lemma LANG_MAPPING_key_dot extension language :
  Crawler.LANG_MAPPING !! extension = Some language ->
  PyStr.startswith extension PyStr.extsep = true.
Proof.
  unfold Crawler.LANG_MAPPING. intros Hext.
  apply elem_of_list_to_map_2 in Hext.
  repeat (apply elem_of_cons in Hext; destruct Hext as [Hext|Hext];
          [injection Hext as -> ->; reflexivity|]).
  now apply elem_of_nil in Hext.
Qed.

Lemma parsed_in_LANG_MAPPING extension :
  In extension Spec.parsed_extensions ->
  is_Some (Crawler.LANG_MAPPING !! extension).
Proof.
  unfold Spec.parsed_extensions. cbn [In].
  intros [<-|[<-|[<-|[<-|[<-|[]]]]]]; eexists; reflexivity.
Qed.

Lemma flat_map_nil {A B : Type} (f : A -> list B) (l : list A) :
  (forall x, In x l -> f x = []) -> flat_map f l = [].
Proof.
  induction l as [|x l IH]; intros Hall; [reflexivity|].
  cbn [flat_map]. rewrite (Hall x) by now left.
  apply IH. intros y Hy. apply Hall. now right.
Qed.

(** ** The filter, file by file *)

Section FilterLog.
Context `{World}.

Lemma filter_file_step dir_path files log file :
  Crawler.filter_file dir_path (files, log) file
  = ((files ++ Spec.queued_file dir_path file)%list,
     (log ++ Trace.skipped dir_path file)%list).
Proof.
  unfold Crawler.filter_file, Spec.queued_file, Trace.skipped, Spec.eligible,
    Trace.skip_message.
  destruct (andb _ _); now rewrite app_nil_r.
Qed.

Lemma filter_filenames_step dir_path filenames files log :
  fold_left (Crawler.filter_file dir_path) filenames (files, log)
  = ((files ++ flat_map (Spec.queued_file dir_path) filenames)%list,
     (log ++ flat_map (Trace.skipped dir_path) filenames)%list).
Proof.
  revert files log; induction filenames as [|file rest IH]; intros files log;
    cbn [fold_left flat_map].
  - now rewrite !app_nil_r.
  - now rewrite filter_file_step, IH, <- !app_assoc.
Qed.

Lemma filter_walk_step entries files log :
  fold_left Crawler.filter_dir entries (files, log)
  = ((files ++ flat_map Spec.queued_dir entries)%list,
     (log ++ flat_map (fun entry =>
                         flat_map (Trace.skipped (fst (fst entry))) (snd entry))
                      entries)%list).
Proof.
  revert files log;
    induction entries as [|[[dir_path dir_names] filenames] rest IH];
    intros files log; cbn [fold_left flat_map].
  - now rewrite !app_nil_r.
  - change (Crawler.filter_dir (files, log) (dir_path, dir_names, filenames))
      with (fold_left (Crawler.filter_file dir_path) filenames (files, log)).
    rewrite filter_filenames_step, IH, <- !app_assoc. reflexivity.
Qed.

Lemma queued_as_filter entries :
  map (fun ff => (Crawler.dir_path ff, Crawler.file_name ff))
      (flat_map Spec.queued_dir entries)
  = List.filter (fun p => Spec.eligible (fst p) (snd p)) (Trace.files_of entries).
Proof.
  unfold Trace.files_of.
  induction entries as [|[[dir_path dir_names] filenames] rest IH];
    [reflexivity|].
  cbn [flat_map]. rewrite map_app, List.filter_app, IH. f_equal.
  unfold Spec.queued_dir. cbn [fst snd].
  induction filenames as [|file files IHf]; [reflexivity|].
  cbn [flat_map map List.filter fst snd]. rewrite map_app, IHf.
  unfold Spec.queued_file. destruct (Spec.eligible dir_path file); reflexivity.
Qed.

Lemma skipped_as_filter entries :
  flat_map (fun entry => flat_map (Trace.skipped (fst (fst entry))) (snd entry))
           entries
  = map (fun p => LogInfo (Trace.skip_message (fst p) (snd p)))
        (List.filter (fun p => negb (Spec.eligible (fst p) (snd p)))
                     (Trace.files_of entries)).
Proof.
  unfold Trace.files_of.
  induction entries as [|[[dir_path dir_names] filenames] rest IH];
    [reflexivity|].
  cbn [flat_map]. rewrite List.filter_app, map_app, IH. f_equal.
  cbn [fst snd].
  induction filenames as [|file files IHf]; [reflexivity|].
  cbn [flat_map map List.filter fst snd]. rewrite IHf.
  unfold Trace.skipped. destruct (Spec.eligible dir_path file); reflexivity.
Qed.

Lemma filter_files_full root_dir files log :
  Crawler.filter_files root_dir = (Ok files, log) ->
  files = flat_map Spec.queued_dir (os_walk root_dir)
  /\ log = map (fun p => LogInfo (Trace.skip_message (fst p) (snd p)))
             (List.filter (fun p => negb (Spec.eligible (fst p) (snd p)))
                          (Trace.files_of (os_walk root_dir))).
Proof.
  unfold Crawler.filter_files. intros Hrun.
  destruct (Crawler.is_git_dir root_dir); cbn [negb] in Hrun; [|discriminate].
  rewrite filter_walk_step in Hrun. injection Hrun as <- <-.
  cbn [app]. split; [reflexivity|]. apply skipped_as_filter.
Qed.

Lemma filter_partition_length {A : Type} (f : A -> bool) (l : list A) :
  (length (List.filter f l) + length (List.filter (fun x => negb (f x)) l)
   = length l)%nat.
Proof.
  induction l as [|x l IH]; [reflexivity|].
  cbn [List.filter]. destruct (f x); cbn [negb length]; lia.
Qed.

Lemma filter_files_length root_dir files log :
  Crawler.filter_files root_dir = (Ok files, log) ->
  (length files + length log
   = length (Trace.files_of (os_walk root_dir)))%nat.
Proof.
  intros Hrun. destruct (filter_files_full _ _ _ Hrun) as [-> ->].
  rewrite <- (length_map (fun ff => (Crawler.dir_path ff, Crawler.file_name ff))).
  rewrite queued_as_filter, length_map. apply filter_partition_length.
Qed.

(** X1. [filter_files] accounts for every file of the walk: a file is either
    queued or logged as skipped, never both and never neither, and both the
    queue and the log keep the order of the walk. *)
Theorem filter_accounts_for_every_file root_dir files log :
  Crawler.filter_files root_dir = (Ok files, log) ->
  map (fun ff => (Crawler.dir_path ff, Crawler.file_name ff)) files
  = List.filter (fun p => Spec.eligible (fst p) (snd p))
                (Trace.files_of (os_walk root_dir))
  /\ log = map (fun p => LogInfo (Trace.skip_message (fst p) (snd p)))
             (List.filter (fun p => negb (Spec.eligible (fst p) (snd p)))
                          (Trace.files_of (os_walk root_dir)))
  /\ (length files + length log
      = length (Trace.files_of (os_walk root_dir)))%nat.
Proof.
  intros Hrun. split; [|split; [|exact (filter_files_length _ _ _ Hrun)]];
    destruct (filter_files_full _ _ _ Hrun) as [-> ->];
    [apply queued_as_filter | reflexivity].
Qed.

(** X2. When the walk lists no file twice, no file is queued twice. *)
Theorem filter_queues_no_file_twice root_dir files log :
  Crawler.filter_files root_dir = (Ok files, log) ->
  List.NoDup (Trace.files_of (os_walk root_dir)) ->
  List.NoDup files
  /\ List.NoDup (map (fun ff => (Crawler.dir_path ff, Crawler.file_name ff)) files).
Proof.
  intros Hrun Hwalk. destruct (filter_files_full _ _ _ Hrun) as [-> _].
  assert (List.NoDup (map (fun ff => (Crawler.dir_path ff, Crawler.file_name ff))
                     (flat_map Spec.queued_dir (os_walk root_dir)))) as Hmap.
  { rewrite queued_as_filter. now apply List.NoDup_filter. }
  split; [eapply List.NoDup_map_inv, Hmap | exact Hmap].
Qed.

(** X4. When every directory path of the walk starts with a dot, as it does
    when the root is given as [.], [./src] or [../repo], the filter queues
    nothing and logs every file as skipped, and the run returns no chunk. *)
Theorem relative_root_queues_nothing root_dir files log :
  Crawler.filter_files root_dir = (Ok files, log) ->
  (forall dir_path dir_names filenames,
      In (dir_path, dir_names, filenames) (os_walk root_dir) ->
      PyStr.startswith dir_path PyStr.extsep = true) ->
  files = []
  /\ length log = length (Trace.files_of (os_walk root_dir))
  /\ forall cs co, Crawler.crawl_and_split root_dir cs co = (Ok [], log).
Proof.
  intros Hrun Hdots.
  assert (files = []) as ->.
  { destruct (filter_files_full _ _ _ Hrun) as [-> _].
    apply flat_map_nil.
    intros [[dir_path dir_names] filenames] Hentry.
    unfold Spec.queued_dir. cbn [fst snd].
    apply flat_map_nil. intros file _.
    unfold Spec.queued_file, Spec.eligible.
    rewrite (starts_with_dot_hidden dir_path (Hdots _ _ _ Hentry)).
    now rewrite andb_false_r. }
  split; [reflexivity|]. split.
  - exact (filter_files_length _ _ _ Hrun).
  - intros cs co. unfold Crawler.crawl_and_split. now rewrite Hrun.
Qed.

(** X5. The name of a queued file is its stem followed by its extension, and
    the extension starts with a dot. *)
Theorem queued_name_ends_with_extension root_dir files log ff :
  Crawler.filter_files root_dir = (Ok files, log) ->
  In ff files ->
  Crawler.file_name ff
  = fst (OsPath.splitext (Crawler.file_name ff)) +:+ Crawler.extension ff
  /\ PyStr.startswith (Crawler.extension ff) PyStr.extsep = true.
Proof.
  intros Hrun Hin. destruct ff as [d f e].
  apply (queued_iff _ _ _ d f e Hrun) in Hin.
  destruct Hin as (_ & -> & Hok). apply eligible_true in Hok.
  destruct Hok as [[language Hext] _]. cbn [Crawler.file_name Crawler.extension].
  split; [symmetry; apply splitext_join | eapply LANG_MAPPING_key_dot, Hext].
Qed.

End FilterLog.

(** ** One file and the whole run *)

Section RunTrace.
Context `{World}.

(** X6. For an extension that is not a key of [LANG_MAPPING], [process_file]
    raises [KeyError] with that extension as soon as the file has been
    loaded: no such extension has a parser, so nothing can fail earlier, and
    the splitter is never called. *)
Theorem unknown_extension_raises_KeyError
        file_contents file_doc dir_path file_name extension cs co :
  Crawler.LANG_MAPPING !! extension = None ->
  file_contents !! 0%nat = Some file_doc ->
  Crawler.process_file file_contents dir_path file_name extension cs co
  = Raise (KeyError extension).
Proof.
  intros Hext Hdoc.
  assert (~ In extension Spec.parsed_extensions) as Hunparsed.
  { intros Hin. destruct (parsed_in_LANG_MAPPING _ Hin) as [language Hsome].
    congruence. }
  unfold Crawler.process_file, PyList.getitem, PyDict.getitem.
  change (Z.to_nat (if (0 <? 0)%Z then _ else 0%Z)) with 0%nat.
  change ((if (0 <? 0)%Z then _ else 0%Z) <? 0)%Z with false.
  cbv iota. rewrite Hdoc. cbn [bind].
  rewrite summary_for_unparsed by exact Hunparsed. cbn [bind].
  now rewrite Hext.
Qed.

Lemma process_and_split_cases ff cs co :
  (exists e,
      TextLoader_load (Trace.path_of ff) = Raise e
      /\ Crawler.process_and_split ff cs co
         = (None, [Load (Trace.path_of ff);
                   LogError (Trace.error_message (Trace.path_of ff) e)]))
  \/ (exists file_contents e,
         TextLoader_load (Trace.path_of ff) = Ok file_contents
         /\ Crawler.process_file file_contents (Crawler.dir_path ff)
              (Crawler.file_name ff) (Crawler.extension ff) cs co = Raise e
         /\ Crawler.process_and_split ff cs co
            = (None, [Load (Trace.path_of ff); Process (Trace.path_of ff);
                      LogError (Trace.error_message (Trace.path_of ff) e)]))
  \/ (exists file_contents chunks,
         TextLoader_load (Trace.path_of ff) = Ok file_contents
         /\ Crawler.process_file file_contents (Crawler.dir_path ff)
              (Crawler.file_name ff) (Crawler.extension ff) cs co = Ok chunks
         /\ Crawler.process_and_split ff cs co
            = (Some chunks, [Load (Trace.path_of ff); Process (Trace.path_of ff)])).
Proof.
  unfold Crawler.process_and_split, Trace.path_of, Trace.error_message.
  destruct (TextLoader_load _) as [file_contents|e] eqn:Hload.
  - destruct (Crawler.process_file _ _ _ _ _ _) as [chunks|e] eqn:Hrun.
    + right. right. eauto 6.
    + right. left. eauto 6.
  - left. eauto.
Qed.

(** X20. [process_and_split] loads the file once; it hands the file to
    [process_file] exactly when the load succeeded; and it returns [None]
    exactly when it logged an error, which it does at most once. *)
Theorem process_and_split_trace ff cs co :
  Trace.loads (snd (Crawler.process_and_split ff cs co)) = [Trace.path_of ff]
  /\ (fst (Crawler.process_and_split ff cs co) = None
      <-> exists e,
          Trace.errors (snd (Crawler.process_and_split ff cs co))
          = [Trace.error_message (Trace.path_of ff) e])
  /\ (is_Some (fst (Crawler.process_and_split ff cs co))
      <-> Trace.errors (snd (Crawler.process_and_split ff cs co)) = [])
  /\ (Trace.processed (snd (Crawler.process_and_split ff cs co))
      = [Trace.path_of ff]
      <-> exists file_contents,
          TextLoader_load (Trace.path_of ff) = Ok file_contents)
  /\ Trace.infos (snd (Crawler.process_and_split ff cs co)) = [].
Proof.
  destruct (process_and_split_cases ff cs co)
    as [(e & Hload & ->)
       |[(file_contents & e & Hload & Hrun & ->)
        |(file_contents & chunks & Hload & Hrun & ->)]];
    cbn [fst snd Trace.loads Trace.errors Trace.processed Trace.infos flat_map app];
    (split; [reflexivity|]); (split; [|split; [|split; [|reflexivity]]]).
  - split; eauto.
  - split; [intros [? ?]; discriminate | discriminate].
  - split; [discriminate | intros [? ?]; congruence].
  - split; eauto.
  - split; [intros [? ?]; discriminate | discriminate].
  - split; eauto.
  - split; [discriminate | intros [? ?]; discriminate].
  - split; eauto.
  - split; eauto.
Qed.

Lemma loads_app (t1 t2 : list event) :
  Trace.loads (t1 ++ t2) = (Trace.loads t1 ++ Trace.loads t2)%list.
Proof. apply flat_map_app. Qed.

Lemma errors_app (t1 t2 : list event) :
  Trace.errors (t1 ++ t2) = (Trace.errors t1 ++ Trace.errors t2)%list.
Proof. apply flat_map_app. Qed.

Lemma infos_app (t1 t2 : list event) :
  Trace.infos (t1 ++ t2) = (Trace.infos t1 ++ Trace.infos t2)%list.
Proof. apply flat_map_app. Qed.

Lemma trace_of_infos (msgs : list string) :
  Trace.loads (map LogInfo msgs) = []
  /\ Trace.errors (map LogInfo msgs) = []
  /\ Trace.infos (map LogInfo msgs) = msgs.
Proof.
  induction msgs as [|msg msgs (Hl & He & Hi)]; [auto|].
  cbn [map Trace.loads Trace.errors Trace.infos flat_map app].
  fold (Trace.loads (map LogInfo msgs)). fold (Trace.errors (map LogInfo msgs)).
  fold (Trace.infos (map LogInfo msgs)). rewrite Hl, He, Hi. auto.
Qed.

Lemma events_of_files cs co files :
  Trace.loads (flat_map (Spec.events_of cs co) files) = map Trace.path_of files
  /\ Trace.infos (flat_map (Spec.events_of cs co) files) = []
  /\ length (Trace.errors (flat_map (Spec.events_of cs co) files))
     = length (List.filter
                 (fun ff =>
                    match fst (Crawler.process_and_split ff cs co) with
                    | None => true
                    | Some _ => false
                    end) files).
Proof.
  induction files as [|ff rest (Hl & Hi & He)]; [auto|].
  cbn [flat_map map List.filter]. rewrite loads_app, infos_app, errors_app.
  rewrite Hl, Hi, length_app, He. unfold Spec.events_of at 1 2 3.
  destruct (process_and_split_cases ff cs co)
    as [(e & _ & ->)
       |[(file_contents & e & _ & _ & ->)
        |(file_contents & chunks & _ & _ & ->)]];
    cbn [fst snd Trace.loads Trace.errors Trace.infos flat_map app length];
    auto.
Qed.

Lemma crawl_and_split_inv root_dir cs co docs trace :
  Crawler.crawl_and_split root_dir cs co = (Ok docs, trace) ->
  exists files log,
    Crawler.filter_files root_dir = (Ok files, log)
    /\ docs = flat_map (Spec.chunks_of cs co) files
    /\ trace = (log ++ flat_map (Spec.events_of cs co) files)%list.
Proof.
  unfold Crawler.crawl_and_split. intros Hrun.
  destruct (Crawler.filter_files root_dir) as [[files|e] log]; [|discriminate].
  rewrite crawl_loop_spec in Hrun. injection Hrun as <- <-.
  exists files, log. auto.
Qed.

(** X11. In a run that returns, every queued file is loaded exactly once and
    in the order of the queue, the log has one error entry for every file
    for which [process_and_split] returned [None] and none for the others,
    and its entries at level [INFO] are those of the filter. *)
Theorem run_loads_every_queued_file root_dir cs co docs trace :
  Crawler.crawl_and_split root_dir cs co = (Ok docs, trace) ->
  exists files log,
    Crawler.filter_files root_dir = (Ok files, log)
    /\ Trace.loads trace = map Trace.path_of files
    /\ length (Trace.errors trace)
       = length (List.filter
                   (fun ff =>
                      match fst (Crawler.process_and_split ff cs co) with
                      | None => true
                      | Some _ => false
                      end) files)
    /\ Trace.infos trace = Trace.infos log.
Proof.
  intros Hrun.
  destruct (crawl_and_split_inv _ _ _ _ _ Hrun) as (files & log & Hfilter & _ & ->).
  exists files, log. split; [exact Hfilter|].
  destruct (filter_files_full _ _ _ Hfilter) as [_ Hlog].
  assert (log
          = map LogInfo
              (map (fun p => Trace.skip_message (fst p) (snd p))
                   (List.filter (fun p => negb (Spec.eligible (fst p) (snd p)))
                                (Trace.files_of (os_walk root_dir))))) as Hlog'.
  { rewrite map_map. exact Hlog. }
  clear Hlog. rename Hlog' into Hlog.
  destruct (trace_of_infos
              (map (fun p => Trace.skip_message (fst p) (snd p))
                   (List.filter (fun p => negb (Spec.eligible (fst p) (snd p)))
                                (Trace.files_of (os_walk root_dir)))))
    as (Hl & He & Hi).
  rewrite <- Hlog in Hl, He, Hi.
  destruct (events_of_files cs co files) as (Hl2 & Hi2 & He2).
  rewrite loads_app, errors_app, infos_app, Hl, He, Hl2, Hi2, app_nil_r.
  cbn [app]. rewrite He2. auto.
Qed.

Lemma chunks_of_inv cs co ff doc :
  In doc (Spec.chunks_of cs co ff) ->
  exists file_contents chunks,
    TextLoader_load (Trace.path_of ff) = Ok file_contents
    /\ Crawler.process_file file_contents (Crawler.dir_path ff)
         (Crawler.file_name ff) (Crawler.extension ff) cs co = Ok chunks
    /\ In doc chunks.
Proof.
  unfold Spec.chunks_of.
  destruct (process_and_split_cases ff cs co)
    as [(e & Hload & ->)
       |[(file_contents & e & Hload & Hrun & ->)
        |(file_contents & chunks & Hload & Hrun & ->)]];
    cbn [fst]; try (intros []).
  intros Hin. eauto.
Qed.

(** X12. Every chunk that a run returns is an annotated chunk of a queued
    file: its text names the path of that file and the two line numbers that
    its metadata hold, and these satisfy
    [1 <= starting_line <= ending_line]. *)
Theorem run_output_is_annotated root_dir cs co docs trace doc :
  Crawler.crawl_and_split root_dir cs co = (Ok docs, trace) ->
  In doc docs ->
  exists files log ff starting_line ending_line context body,
    Crawler.filter_files root_dir = (Ok files, log)
    /\ In ff files
    /\ metadata doc !! "starting_line" = Some (VInt starting_line)
    /\ metadata doc !! "ending_line" = Some (VInt ending_line)
    /\ (1 <= starting_line <= ending_line)%Z
    /\ page_content doc
       = Spec.annotated_text_with " " (Trace.path_of ff)
           starting_line ending_line context body.
Proof.
  intros Hrun Hin.
  destruct (crawl_and_split_inv _ _ _ _ _ Hrun) as (files & log & Hfilter & -> & _).
  apply in_flat_map in Hin. destruct Hin as (ff & Hff & Hin).
  destruct (chunks_of_inv _ _ _ _ Hin) as (file_contents & chunks & _ & Hproc & Hdoc).
  destruct (process_file_inv _ _ _ _ _ _ _ Hproc)
    as (file_doc & file_summary & language & split_docs & _ & _ & _ & _ & Hloop).
  apply annotate_each_Forall2 in Hloop.
  apply list_elem_of_In, list_elem_of_lookup in Hdoc. destruct Hdoc as [i Hi].
  destruct (Forall2_lookup_r _ _ _ _ _ Hloop Hi) as (chunk & _ & Hann).
  destruct (annotate_inv _ _ _ _ _ _ Hann) as (o & context & _ & _ & ->).
  exists files, log, ff. do 2 eexists. exists context, (page_content chunk).
  split; [exact Hfilter|]. split; [exact Hff|]. cbn [metadata page_content].
  split; [rewrite lookup_insert_ne by discriminate; apply lookup_insert_eq|].
  split; [apply lookup_insert_eq|].
  split; [|apply annotation_shape].
  pose proof (resolve_start_line_range (page_content file_doc) o).
  pose proof (count_nonneg PyStr.newline (page_content chunk)).
  unfold Spec.resolve_end_line. lia.
Qed.

End RunTrace.

(** ** The loop on the objects that it rewrites *)

Lemma metadata_at_set_item h doc key v d :
  InPlace.metadata_at (InPlace.documents (InPlace.set_item h doc key v) d)
  = InPlace.metadata_at (InPlace.documents h d).
Proof. reflexivity. Qed.

Lemma text_set_item h doc key v d :
  InPlace.text (InPlace.documents (InPlace.set_item h doc key v) d)
  = InPlace.text (InPlace.documents h d).
Proof. reflexivity. Qed.

Lemma dicts_set_item h doc key v a :
  InPlace.dicts (InPlace.set_item h doc key v) a
  = if decide (a = InPlace.metadata_at (InPlace.documents h doc))
    then <[key := v]> (InPlace.dicts h (InPlace.metadata_at (InPlace.documents h doc)))
    else InPlace.dicts h a.
Proof. reflexivity. Qed.

Lemma metadata_at_set_page_content h doc s d :
  InPlace.metadata_at (InPlace.documents (InPlace.set_page_content h doc s) d)
  = InPlace.metadata_at (InPlace.documents h d).
Proof.
  unfold InPlace.set_page_content. cbn [InPlace.documents].
  destruct (decide (d = doc)) as [->|]; reflexivity.
Qed.

Lemma text_set_page_content h doc s d :
  InPlace.text (InPlace.documents (InPlace.set_page_content h doc s) d)
  = if decide (d = doc) then s else InPlace.text (InPlace.documents h d).
Proof.
  unfold InPlace.set_page_content. cbn [InPlace.documents].
  destruct (decide (d = doc)); reflexivity.
Qed.

Lemma documents_set_page_content_ne h doc s d :
  d <> doc ->
  InPlace.documents (InPlace.set_page_content h doc s) d = InPlace.documents h d.
Proof.
  intros Hne. unfold InPlace.set_page_content. cbn [InPlace.documents].
  now rewrite decide_False.
Qed.

Lemma value_eq h1 doc1 h2 doc2 :
  InPlace.value h1 doc1 = InPlace.value h2 doc2
  <-> InPlace.text (InPlace.documents h1 doc1) = InPlace.text (InPlace.documents h2 doc2)
      /\ InPlace.dicts h1 (InPlace.metadata_at (InPlace.documents h1 doc1))
         = InPlace.dicts h2 (InPlace.metadata_at (InPlace.documents h2 doc2)).
Proof.
  unfold InPlace.value. split.
  - intros Hv. injection Hv as Ht Hm. auto.
  - intros [-> ->]. reflexivity.
Qed.

Section InPlaceLoop.
Context {R : Type} (resolver : R -> FileSummary -> Z -> Z -> result string * R).

(** The state after the body has run for [doc]: the line numbers are in the
    metadata from the moment the resolver is called, and the text is
    rewritten when the resolver has answered. *)
Lemma annotate_run file_doc dir_path file_name file_summary doc h r :
  (exists e,
      PyDict.getitem (metadata (InPlace.value h doc)) "start_index" = Raise e
      /\ InPlace.annotate resolver file_doc dir_path file_name file_summary doc (h, r)
         = (Raise e, (h, r)))
  \/ (exists s,
         PyDict.getitem (metadata (InPlace.value h doc)) "start_index" = Ok (VStr s)
         /\ InPlace.annotate resolver file_doc dir_path file_name file_summary doc (h, r)
            = (Raise TypeError, (h, r)))
  \/ (exists o h',
         PyDict.getitem (metadata (InPlace.value h doc)) "start_index" = Ok (VInt o)
         /\ snd (InPlace.annotate resolver file_doc dir_path file_name file_summary
                   doc (h, r))
            = (h', snd (resolver r file_summary
                          (Spec.resolve_start_line
                             (InPlace.text (InPlace.documents h file_doc)) o)
                          (Spec.resolve_end_line
                             (Spec.resolve_start_line
                                (InPlace.text (InPlace.documents h file_doc)) o)
                             (page_content (InPlace.value h doc)))))
         /\ fst (InPlace.annotate resolver file_doc dir_path file_name file_summary
                   doc (h, r))
            = (let! _ := fst (resolver r file_summary
                                (Spec.resolve_start_line
                                   (InPlace.text (InPlace.documents h file_doc)) o)
                                (Spec.resolve_end_line
                                   (Spec.resolve_start_line
                                      (InPlace.text (InPlace.documents h file_doc)) o)
                                   (page_content (InPlace.value h doc)))) in
               Ok tt)
         /\ metadata (InPlace.value h' doc)
            = <["ending_line" :=
                  VInt (Spec.resolve_end_line
                          (Spec.resolve_start_line
                             (InPlace.text (InPlace.documents h file_doc)) o)
                          (page_content (InPlace.value h doc)))]>
                (<["starting_line" :=
                     VInt (Spec.resolve_start_line
                             (InPlace.text (InPlace.documents h file_doc)) o)]>
                   (metadata (InPlace.value h doc)))
         /\ page_content (InPlace.value h' doc)
            = match fst (resolver r file_summary
                           (Spec.resolve_start_line
                              (InPlace.text (InPlace.documents h file_doc)) o)
                           (Spec.resolve_end_line
                              (Spec.resolve_start_line
                                 (InPlace.text (InPlace.documents h file_doc)) o)
                              (page_content (InPlace.value h doc)))) with
              | Ok method_class_summary =>
                  Crawler.annotation (OsPath.join dir_path file_name)
                    (Spec.resolve_start_line
                       (InPlace.text (InPlace.documents h file_doc)) o)
                    (Spec.resolve_end_line
                       (Spec.resolve_start_line
                          (InPlace.text (InPlace.documents h file_doc)) o)
                       (page_content (InPlace.value h doc)))
                    method_class_summary (page_content (InPlace.value h doc))
              | Raise _ => page_content (InPlace.value h doc)
              end).
Proof.
  unfold InPlace.annotate, Spec.resolve_start_line, Spec.resolve_end_line.
  cbn [InPlace.value metadata page_content].
  destruct (PyDict.getitem _ "start_index") as [[o|s]|e]; [|eauto|eauto].
  right. right. cbv zeta. exists o. rewrite !slice_from_0.
  destruct (resolver r file_summary _ _) as [[summary|e] r'] eqn:Hres;
    cbn [fst snd bind]; eexists; (split; [reflexivity|]);
    (split; [reflexivity|]); (split; [reflexivity|]).
  - rewrite metadata_at_set_page_content, text_set_page_content, decide_True by reflexivity.
    cbn [InPlace.set_page_content InPlace.dicts].
    rewrite !dicts_set_item, !metadata_at_set_item, !text_set_item.
    rewrite !decide_True by reflexivity. auto.
  - rewrite !dicts_set_item, !metadata_at_set_item, !text_set_item.
    rewrite !decide_True by reflexivity. auto.
Qed.

(** What a run of the body leaves as it was: every document but [doc],
    every dict but the one of [doc], and which dict a document has. *)
Lemma annotate_frame file_doc dir_path file_name file_summary doc h r :
  (forall d,
      d <> doc ->
      InPlace.documents
        (fst (snd (InPlace.annotate resolver file_doc dir_path file_name
                     file_summary doc (h, r)))) d
      = InPlace.documents h d)
  /\ (forall d,
         InPlace.metadata_at
           (InPlace.documents
              (fst (snd (InPlace.annotate resolver file_doc dir_path file_name
                           file_summary doc (h, r)))) d)
         = InPlace.metadata_at (InPlace.documents h d))
  /\ (forall a,
         a <> InPlace.metadata_at (InPlace.documents h doc) ->
         InPlace.dicts
           (fst (snd (InPlace.annotate resolver file_doc dir_path file_name
                        file_summary doc (h, r)))) a
         = InPlace.dicts h a).
Proof.
  unfold InPlace.annotate.
  destruct (PyDict.getitem _ "start_index") as [[o|s]|e]; cbn [fst snd]; auto.
  cbv zeta.
  destruct (resolver r file_summary _ _) as [[summary|e] r']; cbn [fst snd].
  - split; [|split].
    + intros d Hd. now rewrite documents_set_page_content_ne.
    + intros d. now rewrite metadata_at_set_page_content.
    + intros a Ha. cbn [InPlace.set_page_content InPlace.dicts].
      rewrite !dicts_set_item, !metadata_at_set_item.
      now rewrite !decide_False.
  - split; [|split]; auto.
    intros a Ha. rewrite !dicts_set_item, !metadata_at_set_item.
    now rewrite !decide_False.
Qed.

(** C9. The body of the loop rewrites the chunk where it is, and the
    resolver may keep a state of its own. When the answer of the resolver
    does not depend on that state, two runs of the body for chunks with the
    same text and the same metadata, next to file documents with the same
    text, end alike, whatever else the two heaps and the two states of the
    resolver hold: both return or both raise the same exception, and the two
    chunks have the same text and the same metadata afterwards. A run
    changes no document but the chunk and no dict but the one of the
    chunk. *)
Theorem annotation_state_free
        file_doc1 doc1 h1 r1 file_doc2 doc2 h2 r2 dir_path file_name file_summary :
  (forall r r' fs starting_line ending_line,
      fst (resolver r fs starting_line ending_line)
      = fst (resolver r' fs starting_line ending_line)) ->
  InPlace.text (InPlace.documents h1 file_doc1)
  = InPlace.text (InPlace.documents h2 file_doc2) ->
  InPlace.value h1 doc1 = InPlace.value h2 doc2 ->
  fst (InPlace.annotate resolver file_doc1 dir_path file_name file_summary doc1 (h1, r1))
  = fst (InPlace.annotate resolver file_doc2 dir_path file_name file_summary doc2 (h2, r2))
  /\ InPlace.value
       (fst (snd (InPlace.annotate resolver file_doc1 dir_path file_name
                    file_summary doc1 (h1, r1)))) doc1
     = InPlace.value
         (fst (snd (InPlace.annotate resolver file_doc2 dir_path file_name
                      file_summary doc2 (h2, r2)))) doc2
  /\ (forall d,
         d <> doc1 ->
         InPlace.documents
           (fst (snd (InPlace.annotate resolver file_doc1 dir_path file_name
                        file_summary doc1 (h1, r1)))) d
         = InPlace.documents h1 d)
  /\ (forall a,
         a <> InPlace.metadata_at (InPlace.documents h1 doc1) ->
         InPlace.dicts
           (fst (snd (InPlace.annotate resolver file_doc1 dir_path file_name
                        file_summary doc1 (h1, r1)))) a
         = InPlace.dicts h1 a).
Proof.
  intros Hfree Htext Hvalue.
  destruct (annotate_frame file_doc1 dir_path file_name file_summary doc1 h1 r1)
    as (Hdocs & _ & Hdicts).
  split; [|split; [|split; [exact Hdocs | exact Hdicts]]].
  - destruct (annotate_run file_doc1 dir_path file_name file_summary doc1 h1 r1)
      as [(e1 & Hi1 & Hrun1)|[(s1 & Hi1 & Hrun1)|(o1 & k1 & Hi1 & _ & Hrun1 & _)]];
      destruct (annotate_run file_doc2 dir_path file_name file_summary doc2 h2 r2)
        as [(e2 & Hi2 & Hrun2)|[(s2 & Hi2 & Hrun2)|(o2 & k2 & Hi2 & _ & Hrun2 & _)]];
      rewrite Hvalue in Hi1; rewrite Hi1 in Hi2; try discriminate;
      rewrite Hrun1, Hrun2; cbn [fst].
    + congruence.
    + reflexivity.
    + injection Hi2 as <-. rewrite Htext, Hvalue.
      now rewrite (Hfree r1 r2).
  - destruct (annotate_run file_doc1 dir_path file_name file_summary doc1 h1 r1)
      as [(e1 & Hi1 & Hrun1)|[(s1 & Hi1 & Hrun1)
                             |(o1 & k1 & Hi1 & Hst1 & _ & Hm1 & Hp1)]];
      destruct (annotate_run file_doc2 dir_path file_name file_summary doc2 h2 r2)
        as [(e2 & Hi2 & Hrun2)|[(s2 & Hi2 & Hrun2)
                               |(o2 & k2 & Hi2 & Hst2 & _ & Hm2 & Hp2)]];
      rewrite Hvalue in Hi1; rewrite Hi1 in Hi2; try discriminate;
      try (rewrite Hrun1, Hrun2; exact Hvalue).
    injection Hi2 as <-. rewrite Hst1, Hst2. cbn [fst].
    destruct (InPlace.value k1 doc1) as [p1 m1], (InPlace.value k2 doc2) as [p2 m2].
    cbn [page_content metadata] in *. subst p1 m1 p2 m2.
    rewrite Htext, Hvalue. now rewrite (Hfree r1 r2).
Qed.

End InPlaceLoop.

Section InPlaceRefinement.
Context `{World} {R : Type}.
Context (resolver : R -> FileSummary -> Z -> Z -> result string * R).

Lemma annotate_each_same_text file_doc1 file_doc2 dir_path file_name file_summary docs :
  page_content file_doc1 = page_content file_doc2 ->
  Crawler.annotate_each file_doc1 dir_path file_name file_summary docs
  = Crawler.annotate_each file_doc2 dir_path file_name file_summary docs.
Proof.
  intros Htext. induction docs as [|doc rest IH]; [reflexivity|].
  cbn [Crawler.annotate_each].
  now rewrite IH, (annotate_same_text _ _ _ _ _ _ Htext).
Qed.

(** One run of the body, on the objects and on their values. *)
Lemma annotate_refines file_doc dir_path file_name file_summary doc h r :
  (forall r fs starting_line ending_line,
      fst (resolver r fs starting_line ending_line)
      = get_closest_method_class_in_snippet fs starting_line ending_line) ->
  match Crawler.annotate (InPlace.value h file_doc) dir_path file_name file_summary
          (InPlace.value h doc) with
  | Ok doc' =>
      fst (InPlace.annotate resolver file_doc dir_path file_name file_summary doc (h, r))
      = Ok tt
      /\ InPlace.value
           (fst (snd (InPlace.annotate resolver file_doc dir_path file_name
                        file_summary doc (h, r)))) doc
         = doc'
  | Raise e =>
      fst (InPlace.annotate resolver file_doc dir_path file_name file_summary doc (h, r))
      = Raise e
  end.
Proof.
  intros Hres. unfold Crawler.annotate.
  destruct (annotate_run resolver file_doc dir_path file_name file_summary doc h r)
    as [(e & -> & ->)|[(s & -> & ->)|(o & h' & -> & Hst & -> & Hm & Hp)]];
    cbn [bind fst]; [reflexivity|reflexivity|].
  rewrite Hst. cbn [fst]. rewrite Hres in *.
  unfold Spec.resolve_start_line, Spec.resolve_end_line in *.
  rewrite !slice_from_0 in *. cbn [InPlace.value page_content] in *.
  destruct (get_closest_method_class_in_snippet _ _ _) as [summary|e]; cbn [bind];
    [|reflexivity].
  split; [reflexivity|].
  unfold InPlace.value in *. cbn [page_content metadata] in *. now rewrite Hm, Hp.
Qed.

(** What a run of the loop leaves as it was. *)
Lemma annotate_each_frame file_doc dir_path file_name file_summary split_docs :
  forall h r,
    (forall d,
        d ∉ split_docs ->
        InPlace.documents
          (fst (snd (InPlace.annotate_each resolver file_doc dir_path file_name
                       file_summary split_docs (h, r)))) d
        = InPlace.documents h d)
    /\ (forall d,
           InPlace.metadata_at
             (InPlace.documents
                (fst (snd (InPlace.annotate_each resolver file_doc dir_path
                             file_name file_summary split_docs (h, r)))) d)
           = InPlace.metadata_at (InPlace.documents h d))
    /\ (forall a,
           a ∉ map (fun d => InPlace.metadata_at (InPlace.documents h d)) split_docs ->
           InPlace.dicts
             (fst (snd (InPlace.annotate_each resolver file_doc dir_path file_name
                          file_summary split_docs (h, r)))) a
           = InPlace.dicts h a).
Proof.
  induction split_docs as [|doc rest IH]; intros h r; [cbn; auto|].
  cbn [InPlace.annotate_each map].
  destruct (annotate_frame resolver file_doc dir_path file_name file_summary doc h r)
    as (Hdocs & Hmeta & Hdicts).
  destruct (InPlace.annotate resolver file_doc dir_path file_name file_summary doc (h, r))
    as [[[]|e] [h1 r1]]; cbn [fst snd] in *.
  - destruct (IH h1 r1) as (Hdocs' & Hmeta' & Hdicts').
    split; [|split].
    + intros d Hd. apply not_elem_of_cons in Hd. destruct Hd as [Hne Hd].
      now rewrite Hdocs', Hdocs.
    + intros d. now rewrite Hmeta', Hmeta.
    + intros a Ha. apply not_elem_of_cons in Ha. destruct Ha as [Hne Ha].
      rewrite Hdicts', Hdicts; [reflexivity | exact Hne |].
      erewrite map_ext; [exact Ha|]. intros d. cbn beta. now rewrite Hmeta.
  - split; [|split].
    + intros d Hd. apply not_elem_of_cons in Hd. now apply Hdocs.
    + exact Hmeta.
    + intros a Ha. apply not_elem_of_cons in Ha. now apply Hdicts.
Qed.

(** X21. When the chunks are objects apart from one another and from the
    file document, each with a metadata dict of its own, the loop that
    rewrites them computes what the loop over their values computes: it
    raises the same exception, or it returns and leaves at every chunk the
    annotated value. What an earlier turn of the loop wrote does not reach a
    later one. *)
Theorem in_place_loop_is_annotate_each
        file_doc dir_path file_name file_summary split_docs h r :
  (forall r fs starting_line ending_line,
      fst (resolver r fs starting_line ending_line)
      = get_closest_method_class_in_snippet fs starting_line ending_line) ->
  NoDup split_docs ->
  file_doc ∉ split_docs ->
  NoDup (map (fun d => InPlace.metadata_at (InPlace.documents h d)) split_docs) ->
  match Crawler.annotate_each (InPlace.value h file_doc) dir_path file_name
          file_summary (map (InPlace.value h) split_docs) with
  | Ok out =>
      fst (InPlace.annotate_each resolver file_doc dir_path file_name file_summary
             split_docs (h, r)) = Ok tt
      /\ map (InPlace.value
                (fst (snd (InPlace.annotate_each resolver file_doc dir_path
                             file_name file_summary split_docs (h, r)))))
             split_docs
         = out
  | Raise e =>
      fst (InPlace.annotate_each resolver file_doc dir_path file_name file_summary
             split_docs (h, r)) = Raise e
  end.
Proof.
  intros Hres. revert h r.
  induction split_docs as [|doc rest IH]; intros h r Hdocs Hfile Hdicts;
    [cbn; auto|].
  apply NoDup_cons in Hdocs. destruct Hdocs as [Hdoc Hrest].
  apply not_elem_of_cons in Hfile. destruct Hfile as [Hfd Hfile].
  cbn [map] in Hdicts. apply NoDup_cons in Hdicts. destruct Hdicts as [Hdict Hdicts].
  cbn [InPlace.annotate_each map Crawler.annotate_each].
  pose proof (annotate_refines file_doc dir_path file_name file_summary doc h r Hres)
    as Hstep.
  destruct (annotate_frame resolver file_doc dir_path file_name file_summary doc h r)
    as (Fdocs & Fmeta & Fdicts).
  destruct (InPlace.annotate resolver file_doc dir_path file_name file_summary doc (h, r))
    as [res1 [h1 r1]]; cbn [fst snd] in *.
  destruct (Crawler.annotate (InPlace.value h file_doc) dir_path file_name
              file_summary (InPlace.value h doc)) as [doc'|e]; cbn [bind].
  - destruct Hstep as [-> Hdoc'].
    assert (map (InPlace.value h1) rest = map (InPlace.value h) rest) as Hsame.
    { apply map_ext_in. intros d Hd. apply list_elem_of_In in Hd.
      apply value_eq. rewrite Fmeta, Fdocs by (intros ->; contradiction).
      split; [reflexivity|]. apply Fdicts. intros Heq. apply Hdict.
      rewrite <- Heq.
      apply (list_elem_of_fmap_2
               (fun d => InPlace.metadata_at (InPlace.documents h d))), Hd. }
    assert (map (fun d => InPlace.metadata_at (InPlace.documents h1 d)) rest
            = map (fun d => InPlace.metadata_at (InPlace.documents h d)) rest)
      as Hmetas.
    { apply map_ext. intros d. apply Fmeta. }
    specialize (IH h1 r1 Hrest Hfile). rewrite Hmetas in IH. specialize (IH Hdicts).
    rewrite Hsame in IH.
    rewrite (annotate_each_same_text (InPlace.value h1 file_doc)
               (InPlace.value h file_doc)) in IH
      by (cbn [InPlace.value page_content]; now rewrite Fdocs).
    destruct (annotate_each_frame file_doc dir_path file_name file_summary rest h1 r1)
      as (Gdocs & Gmeta & Gdicts).
    destruct (Crawler.annotate_each (InPlace.value h file_doc) dir_path file_name
                file_summary (map (InPlace.value h) rest)) as [out|e];
      cbn [bind]; [|exact IH].
    destruct IH as [Hok Hout]. split; [exact Hok|]. f_equal; [|exact Hout].
    rewrite <- Hdoc'. apply value_eq. rewrite Gmeta, Gdocs by exact Hdoc.
    split; [reflexivity|]. apply Gdicts. now rewrite Hmetas, Fmeta.
  - now rewrite Hstep.
Qed.

End InPlaceRefinement.

(** ** The sample repository *)

#[local] Existing Instance Sample.world.
#[local] Existing Instance Sample.tree_sitter.

(** The two chunks of [mod.py], cut after 42 characters. *)
Lemma line_resolver_correct_witness :
  exists out,
    Crawler.process_file [Sample.doc0] "/repo/pkg/sub" "mod.py" ".py" 42 0 = Ok out
    /\ exists file_doc language split_docs,
        [Sample.doc0] !! 0%nat = Some file_doc
        /\ Crawler.LANG_MAPPING !! ".py" = Some language
        /\ split_documents language 42 0 [Sample.doc0] = Ok split_docs
        /\ length out = length split_docs
        /\ forall i doc,
            split_docs !! i = Some doc ->
            exists o doc',
              metadata doc !! "start_index" = Some (VInt o)
              /\ out !! i = Some doc'
              /\ metadata doc' !! "starting_line"
                 = Some (VInt (Spec.resolve_start_line (page_content file_doc) o))
              /\ metadata doc' !! "ending_line"
                 = Some (VInt (Spec.resolve_end_line
                                 (Spec.resolve_start_line (page_content file_doc) o)
                                 (page_content doc)))
              /\ (Spec.resolve_start_line (page_content file_doc) o
                  <= Spec.resolve_end_line
                       (Spec.resolve_start_line (page_content file_doc) o)
                       (page_content doc))%Z
              /\ (o = 0%Z -> Spec.resolve_start_line (page_content file_doc) o = 1%Z)
              /\ ((0 <= o)%Z ->
                  Spec.resolve_start_line (page_content file_doc) o
                  = (PyStr.count PyStr.newline
                       (PyStr.take (Z.to_nat o) (page_content file_doc)) + 1)%Z).
Proof.
  eexists. split; [vm_compute; reflexivity|].
  apply (line_resolver_correct [Sample.doc0] "/repo/pkg/sub" "mod.py" ".py" 42 0).
  vm_compute. reflexivity.
Defined.

(** The second chunk of [mod.py] starts on line 2 and ends on line 6. *)
Example second_chunk_lines :
  exists out doc',
    Crawler.process_file [Sample.doc0] "/repo/pkg/sub" "mod.py" ".py" 42 0 = Ok out
    /\ out !! 1%nat = Some doc'
    /\ metadata doc' !! "start_index" = Some (VInt 42)
    /\ metadata doc' !! "starting_line" = Some (VInt 2)
    /\ metadata doc' !! "ending_line" = Some (VInt 6).
Proof.
  do 2 eexists. split; [vm_compute; reflexivity|].
  split; [reflexivity|]. repeat split; vm_compute; reflexivity.
Qed.

(** The text of a chunk has a space in front of its opening fence, which
    the specification's text has not. *)
Lemma annotation_differs_from_spec_text :
  exists doc',
    Crawler.annotate Sample.doc0 "/repo/pkg/sub" "mod.py" FileSummary_new
      (Sample.chunk Sample.doc0 0 (Some 42%Z)) = Ok doc'
    /\ get_closest_method_class_in_snippet FileSummary_new 1 2 = Ok ""
    /\ page_content doc'
       <> Spec.annotated_text "/repo/pkg/sub/mod.py" 1 2 ""
            (page_content (Sample.chunk Sample.doc0 0 (Some 42%Z))).
Proof.
  eexists. split; [vm_compute; reflexivity|].
  split; [reflexivity|]. vm_compute. discriminate.
Defined.

Lemma annotator_text_witness :
  exists out,
    Crawler.process_file [Sample.doc0] "/repo" "README.md" ".md" 42 0 = Ok out
    /\ exists file_doc file_summary language split_docs,
        [Sample.doc0] !! 0%nat = Some file_doc
        /\ Crawler.summary_for (page_content file_doc) "README.md" ".md"
           = Ok file_summary
        /\ Crawler.LANG_MAPPING !! ".md" = Some language
        /\ split_documents language 42 0 [Sample.doc0] = Ok split_docs
        /\ forall i doc,
            split_docs !! i = Some doc ->
            exists o context doc',
              metadata doc !! "start_index" = Some (VInt o)
              /\ get_closest_method_class_in_snippet file_summary
                   (Spec.resolve_start_line (page_content file_doc) o)
                   (Spec.resolve_end_line
                      (Spec.resolve_start_line (page_content file_doc) o)
                      (page_content doc)) = Ok context
              /\ out !! i = Some doc'
              /\ page_content doc'
                 = Spec.annotated_text_with " " (OsPath.join "/repo" "README.md")
                     (Spec.resolve_start_line (page_content file_doc) o)
                     (Spec.resolve_end_line
                        (Spec.resolve_start_line (page_content file_doc) o)
                        (page_content doc))
                     context (page_content doc)
              /\ (context = "" ->
                  page_content doc'
                  = Spec.annotated_text_no_context " " (OsPath.join "/repo" "README.md")
                      (Spec.resolve_start_line (page_content file_doc) o)
                      (Spec.resolve_end_line
                         (Spec.resolve_start_line (page_content file_doc) o)
                         (page_content doc))
                      (page_content doc)).
Proof.
  eexists. split; [vm_compute; reflexivity|].
  apply (annotator_text [Sample.doc0] "/repo" "README.md" ".md" 42 0).
  vm_compute. reflexivity.
Defined.

Lemma annotation_frame_witness :
  exists out,
    Crawler.process_file [Sample.doc0] "/repo/pkg/sub" "mod.py" ".py" 42 0 = Ok out
    /\ exists file_doc language split_docs,
        [Sample.doc0] !! 0%nat = Some file_doc
        /\ Crawler.LANG_MAPPING !! ".py" = Some language
        /\ split_documents language 42 0 [Sample.doc0] = Ok split_docs
        /\ forall i doc,
            split_docs !! i = Some doc ->
            exists o doc',
              metadata doc !! "start_index" = Some (VInt o)
              /\ out !! i = Some doc'
              /\ metadata doc'
                 = <["ending_line" :=
                       VInt (Spec.resolve_end_line
                               (Spec.resolve_start_line (page_content file_doc) o)
                               (page_content doc))]>
                     (<["starting_line" :=
                          VInt (Spec.resolve_start_line (page_content file_doc) o)]>
                        (metadata doc))
              /\ (forall key,
                     key <> "starting_line" -> key <> "ending_line" ->
                     metadata doc' !! key = metadata doc !! key)
              /\ metadata doc' !! "source" = metadata doc !! "source"
              /\ metadata doc' !! "start_index" = Some (VInt o)
              /\ dom (metadata doc')
                 = dom (metadata doc) ∪ {["starting_line"; "ending_line"]}.
Proof.
  eexists. split; [vm_compute; reflexivity|].
  apply (annotation_frame [Sample.doc0] "/repo/pkg/sub" "mod.py" ".py" 42 0).
  vm_compute. reflexivity.
Defined.

(** A tree whose functions come in descending order of rows is summarized
    in ascending order. *)
Lemma outline_sorted_witness :
  exists fs st',
    TreeSitterParser.get_file_summary TreeSitterParser.initial
      "abc defghijklmnopq" "x.py" = (Ok fs, st')
    /\ Spec.ascending (methods fs) /\ Spec.ascending (classes fs)
    /\ ((fs = FileSummary_new)
        \/ exists language root_node raw,
            parse language "abc defghijklmnopq" = Ok root_node
            /\ TreeSitterParser.traverse recursion_limit "abc defghijklmnopq"
                 root_node 0 FileSummary_new = Ok raw
            /\ Permutation (methods fs) (methods raw)
            /\ Permutation (classes fs) (classes raw)).
Proof.
  do 2 eexists. split; [vm_compute; reflexivity|].
  eapply (outline_sorted TreeSitterParser.initial "abc defghijklmnopq" "x.py").
  vm_compute. reflexivity.
Defined.

Example outline_of_sample_tree :
  exists fs st',
    TreeSitterParser.get_file_summary TreeSitterParser.initial
      "abc defghijklmnopq" "x.py" = (Ok fs, st')
    /\ TreeSitterParser.traverse recursion_limit "abc defghijklmnopq" Sample.tree 0
         FileSummary_new
       = Ok {| methods := [mkSummaryPosition "abc" 4 4;
                           mkSummaryPosition "defghijklmn" 0 1];
               classes := [] |}
    /\ methods fs = [mkSummaryPosition "defghijklmn" 0 1; mkSummaryPosition "abc" 4 4]
    /\ classes fs = [].
Proof.
  do 2 eexists. split; [vm_compute; reflexivity|].
  repeat split; vm_compute; reflexivity.
Qed.

(** A [.cfg] file has no parser; [process_file] raises [KeyError] for it
    instead of splitting it, and a run over the repository that holds it
    neither loads nor processes it. *)
Lemma cfg_file_not_chunked :
  ~ In ".cfg" Spec.parsed_extensions
  /\ Crawler.summary_for Sample.hello_py "setup.cfg" ".cfg" = Ok FileSummary_new
  /\ TextLoader_load "/repo/setup.cfg"
     = Ok [Sample.loaded_doc "/repo/setup.cfg" Sample.hello_py]
  /\ Crawler.process_file [Sample.loaded_doc "/repo/setup.cfg" Sample.hello_py]
       "/repo" "setup.cfg" ".cfg" 3000 0 = Raise (KeyError ".cfg")
  /\ Spec.walked "/repo" "/repo" "setup.cfg"
  /\ exists docs trace,
      Crawler.crawl_and_split "/repo" 3000 0 = (Ok docs, trace)
      /\ ~ In (Load "/repo/setup.cfg") trace
      /\ ~ In (Process "/repo/setup.cfg") trace.
Proof.
  split.
  { unfold Spec.parsed_extensions. cbn [In]. intuition discriminate. }
  split; [vm_compute; reflexivity|].
  split; [vm_compute; reflexivity|].
  split; [vm_compute; reflexivity|].
  split.
  { exists ["pkg"; ".git"], ["README.md"; "setup.cfg"]. vm_compute. tauto. }
  do 2 eexists. split; [vm_compute; reflexivity|].
  split; cbn [In]; intuition discriminate.
Defined.

Lemma unparsed_extension_chunked_witness :
  ~ In ".md" Spec.parsed_extensions
  /\ Crawler.LANG_MAPPING !! ".md" = Some MARKDOWN
  /\ (forall code file_name,
         Crawler.summary_for code file_name ".md" = Ok FileSummary_new)
  /\ (forall file_contents file_doc dir_path file_name cs co,
         file_contents !! 0%nat = Some file_doc ->
         Crawler.process_file file_contents dir_path file_name ".md" cs co
         = (let! split_docs := split_documents MARKDOWN cs co file_contents in
            Crawler.annotate_each file_doc dir_path file_name
              FileSummary_new split_docs))
  /\ (forall st code file_name,
         TreeSitterParser.extension_to_language
           !! snd (OsPath.splitext file_name) = None ->
         TreeSitterParser.summarize st code file_name = Ok FileSummary_new
         /\ (TreeSitterParser.loaded st = true ->
             TreeSitterParser.get_file_summary st code file_name
             = (Ok FileSummary_new, st))
         /\ (forall st1,
                TreeSitterParser.loaded st = false ->
                TreeSitterParser.initialize_treesitter st = (Ok tt, st1) ->
                TreeSitterParser.get_file_summary st code file_name
                = (Ok FileSummary_new, st1))).
Proof.
  assert (~ In ".md" Spec.parsed_extensions) as Hmd.
  { unfold Spec.parsed_extensions. cbn [In]. intuition discriminate. }
  split; [exact Hmd|]. split; [reflexivity|].
  apply (unparsed_extension_chunked ".md" MARKDOWN Hmd). reflexivity.
Defined.

(** The chunks of [README.md]: two of them, both with an empty context. *)
Example readme_chunked :
  exists out,
    Crawler.process_file [Sample.loaded_doc "/repo/README.md" Sample.hello_py]
      "/repo" "README.md" ".md" 42 0 = Ok out
    /\ length out = 2%nat.
Proof. eexists. split; [vm_compute; reflexivity | reflexivity]. Qed.

(** Ten queued files of which the fifth cannot be decoded. *)
Lemma failure_isolation_witness :
  fst (Crawler.process_and_split Sample.bad_py 3000 0) = None
  /\ length ([Sample.readme; Sample.mod_py; Sample.readme; Sample.mod_py]
             ++ Sample.bad_py
             :: [Sample.mod_py; Sample.readme; Sample.mod_py; Sample.readme;
                 Sample.mod_py]) = 10%nat
  /\ fst (fold_left (Crawler.crawl_file 3000 0)
            ([Sample.readme; Sample.mod_py; Sample.readme; Sample.mod_py]
             ++ Sample.bad_py
             :: [Sample.mod_py; Sample.readme; Sample.mod_py; Sample.readme;
                 Sample.mod_py]) ([], []))
     = (flat_map (Spec.chunks_of 3000 0)
          [Sample.readme; Sample.mod_py; Sample.readme; Sample.mod_py]
        ++ flat_map (Spec.chunks_of 3000 0)
             [Sample.mod_py; Sample.readme; Sample.mod_py; Sample.readme;
              Sample.mod_py])%list.
Proof.
  split; [reflexivity|]. split; [reflexivity|].
  apply (proj1 (proj2 (proj2 (proj2 (failure_isolation 3000 0))))).
  reflexivity.
Defined.

Example run_of_sample_repository :
  exists docs trace,
    Crawler.crawl_and_split "/repo" 3000 0 = (Ok docs, trace)
    /\ length docs = 4%nat
    /\ In (LogError "Error processing file /repo/pkg/sub/bad.py. Skipping file. invalid start byte")
          trace.
Proof.
  do 2 eexists. split; [vm_compute; reflexivity|].
  split; [reflexivity|]. cbn [In]. intuition.
Qed.

Lemma not_git_fails_fast_witness :
  Crawler.is_git_dir "/tmp/plain" = false
  /\ Crawler.filter_files "/tmp/plain"
     = (Raise (ValueError ("/tmp/plain" +:+ " is not a valid git root directory")), [])
  /\ Crawler.crawl_and_split "/tmp/plain" 3000 0
     = (Raise (ValueError ("/tmp/plain" +:+ " is not a valid git root directory")), []).
Proof.
  split; [reflexivity|].
  apply (not_git_fails_fast "/tmp/plain" 3000 0). reflexivity.
Defined.

Lemma filter_queues_iff_witness :
  exists files log,
    Crawler.filter_files "/repo" = (Ok files, log)
    /\ (forall d f e,
           In (Crawler.mkFileProperties d f e) files
           <-> Spec.walked "/repo" d f
               /\ e = snd (OsPath.splitext f)
               /\ is_Some (Crawler.LANG_MAPPING !! e)
               /\ forall directory,
                   In directory (PyStr.split PyStr.sep d) -> ~ Spec.hidden directory)
    /\ (forall d f e,
           In ".git" (PyStr.split PyStr.sep d) ->
           ~ In (Crawler.mkFileProperties d f e) files)
    /\ (forall d f e,
           snd (OsPath.splitext f) = ".cfg" ->
           ~ In (Crawler.mkFileProperties d f e) files)
    /\ (forall d f,
           Spec.walked "/repo" d f ->
           snd (OsPath.splitext f) = ".py" ->
           (forall directory,
               In directory (PyStr.split PyStr.sep d) -> ~ Spec.hidden directory) ->
           In (Crawler.mkFileProperties d f ".py") files).
Proof.
  do 2 eexists. split; [vm_compute; reflexivity|].
  eapply (filter_queues_iff "/repo"). vm_compute. reflexivity.
Defined.

(** The three files of the filtering scenario. *)
Example filtering_scenario :
  exists files log,
    Crawler.filter_files "/repo" = (Ok files, log)
    /\ In ".git" (PyStr.split PyStr.sep "/repo/.git/objects")
    /\ Spec.walked "/repo" "/repo/.git/objects" "pack.py"
    /\ ~ In (Crawler.mkFileProperties "/repo/.git/objects" "pack.py" ".py") files
    /\ snd (OsPath.splitext "setup.cfg") = ".cfg"
    /\ Spec.walked "/repo" "/repo" "setup.cfg"
    /\ ~ In (Crawler.mkFileProperties "/repo" "setup.cfg" ".cfg") files
    /\ snd (OsPath.splitext "mod.py") = ".py"
    /\ Spec.walked "/repo" "/repo/pkg/sub" "mod.py"
    /\ In (Crawler.mkFileProperties "/repo/pkg/sub" "mod.py" ".py") files.
Proof.
  do 2 eexists. split; [vm_compute; reflexivity|].
  split; [vm_compute; tauto|].
  split; [exists [], ["pack.py"]; vm_compute; tauto|].
  split; [cbn [In]; intuition discriminate|].
  split; [reflexivity|].
  split; [exists ["pkg"; ".git"], ["README.md"; "setup.cfg"]; vm_compute; tauto|].
  split; [cbn [In]; intuition discriminate|].
  split; [reflexivity|].
  split; [exists [], ["mod.py"; "bad.py"]; vm_compute; tauto|].
  cbn [In]. tauto.
Qed.

Lemma queued_extension_known_witness :
  exists files log,
    Crawler.filter_files "/repo" = (Ok files, log)
    /\ In Sample.mod_py files
    /\ exists language,
        PyDict.getitem Crawler.LANG_MAPPING (Crawler.extension Sample.mod_py)
        = Ok language
        /\ forall file_contents cs co,
            Crawler.process_file file_contents (Crawler.dir_path Sample.mod_py)
              (Crawler.file_name Sample.mod_py) (Crawler.extension Sample.mod_py) cs co
            = (let! file_doc := PyList.getitem file_contents 0 in
               let! file_summary :=
                 Crawler.summary_for (page_content file_doc)
                   (Crawler.file_name Sample.mod_py)
                   (Crawler.extension Sample.mod_py) in
               let! split_docs := split_documents language cs co file_contents in
               Crawler.annotate_each file_doc (Crawler.dir_path Sample.mod_py)
                 (Crawler.file_name Sample.mod_py) file_summary split_docs).
Proof.
  do 2 eexists. split; [vm_compute; reflexivity|].
  split; [cbn [In]; tauto|].
  eapply (queued_extension_known "/repo").
  - vm_compute. reflexivity.
  - cbn [In]. tauto.
Defined.

(** A root given as [.] makes every directory path start with a component
    that starts with a dot. *)
Example relative_root_is_hidden :
  PyStr.split PyStr.sep "./pkg/sub" = ["."; "pkg"; "sub"]
  /\ Crawler.contains_hidden_dir "./pkg/sub" = true
  /\ Crawler.contains_hidden_dir "/repo/pkg/sub" = false.
Proof. repeat split; reflexivity. Qed.

(** ** More of the sample repository *)

Lemma filter_accounts_for_every_file_witness :
  exists files log,
    Crawler.filter_files "/repo" = (Ok files, log)
    /\ map (fun ff => (Crawler.dir_path ff, Crawler.file_name ff)) files
       = List.filter (fun p => Spec.eligible (fst p) (snd p))
                     (Trace.files_of (os_walk "/repo"))
    /\ log = map (fun p => LogInfo (Trace.skip_message (fst p) (snd p)))
               (List.filter (fun p => negb (Spec.eligible (fst p) (snd p)))
                            (Trace.files_of (os_walk "/repo")))
    /\ (length files + length log
        = length (Trace.files_of (os_walk "/repo")))%nat.
Proof.
  do 2 eexists. split; [vm_compute; reflexivity|].
  apply (filter_accounts_for_every_file "/repo"). vm_compute. reflexivity.
Defined.

Lemma filter_queues_no_file_twice_witness :
  exists files log,
    Crawler.filter_files "/repo" = (Ok files, log)
    /\ List.NoDup (Trace.files_of (os_walk "/repo"))
    /\ List.NoDup files
    /\ List.NoDup (map (fun ff => (Crawler.dir_path ff, Crawler.file_name ff)) files).
Proof.
  assert (List.NoDup (Trace.files_of (os_walk "/repo"))) as Hwalk.
  { apply NoDup_ListNoDup. apply (bool_decide_unpack _). vm_compute. reflexivity. }
  do 2 eexists. split; [vm_compute; reflexivity|]. split; [exact Hwalk|].
  eapply (filter_queues_no_file_twice "/repo"); [vm_compute; reflexivity|].
  exact Hwalk.
Defined.

(** The checkout that is crawled from inside: six files are walked, none is
    queued. *)
Lemma relative_root_queues_nothing_witness :
  exists files log,
    @Crawler.filter_files SampleHere.world "." = (Ok files, log)
    /\ (forall dir_path dir_names filenames,
           In (dir_path, dir_names, filenames) (@os_walk SampleHere.world ".") ->
           PyStr.startswith dir_path PyStr.extsep = true)
    /\ files = []
    /\ length log = length (Trace.files_of (@os_walk SampleHere.world "."))
    /\ forall cs co,
        @Crawler.crawl_and_split SampleHere.world "." cs co = (Ok [], log).
Proof.
  assert (forall dir_path dir_names filenames,
             In (dir_path, dir_names, filenames) (@os_walk SampleHere.world ".") ->
             PyStr.startswith dir_path PyStr.extsep = true) as Hdots.
  { intros dir_path dir_names filenames Hin. vm_compute in Hin.
    destruct Hin as [Hin|[Hin|[Hin|[]]]]; injection Hin as <- _ _; reflexivity. }
  do 2 eexists. split; [vm_compute; reflexivity|]. split; [exact Hdots|].
  eapply (@relative_root_queues_nothing SampleHere.world ".");
    [vm_compute; reflexivity | exact Hdots].
Defined.

Lemma queued_name_ends_with_extension_witness :
  exists files log,
    Crawler.filter_files "/repo" = (Ok files, log)
    /\ In Sample.mod_py files
    /\ Crawler.file_name Sample.mod_py
       = fst (OsPath.splitext (Crawler.file_name Sample.mod_py))
         +:+ Crawler.extension Sample.mod_py
    /\ PyStr.startswith (Crawler.extension Sample.mod_py) PyStr.extsep = true.
Proof.
  do 2 eexists. split; [vm_compute; reflexivity|].
  split; [cbn [In]; tauto|].
  eapply (queued_name_ends_with_extension "/repo").
  - vm_compute. reflexivity.
  - cbn [In]. tauto.
Defined.

Lemma unknown_extension_raises_KeyError_witness :
  Crawler.LANG_MAPPING !! ".cfg" = None
  /\ [Sample.loaded_doc "/repo/setup.cfg" Sample.hello_py] !! 0%nat
     = Some (Sample.loaded_doc "/repo/setup.cfg" Sample.hello_py)
  /\ Crawler.process_file [Sample.loaded_doc "/repo/setup.cfg" Sample.hello_py]
       "/repo" "setup.cfg" ".cfg" 3000 0 = Raise (KeyError ".cfg").
Proof.
  split; [reflexivity|]. split; [reflexivity|].
  apply (unknown_extension_raises_KeyError _
           (Sample.loaded_doc "/repo/setup.cfg" Sample.hello_py));
    reflexivity.
Defined.

(** A file with one definition node that has lost its name is skipped as a
    whole, with the [IndexError] of [traverse] in the log. *)
Example traverse_of_broken_tree :
  TreeSitterParser.traverse recursion_limit "def f(): pass" SampleHere.broken_tree 0
    FileSummary_new
  = Raise IndexError
  /\ ~ Tree.named (Tree.preorder SampleHere.broken_tree).
Proof.
  assert (TreeSitterParser.traverse recursion_limit "def f(): pass"
            SampleHere.broken_tree 0 FileSummary_new = Raise IndexError)
    as Hrun by (vm_compute; reflexivity).
  split; [exact Hrun|].
  pose proof (traverse_outcome recursion_limit "def f(): pass"
                SampleHere.broken_tree 0 FileSummary_new) as Hout.
  rewrite Hrun in Hout. destruct Hout as [[_ Hn]|[He _]]; [exact Hn | discriminate].
Qed.

(** A chain of blocks that is as tall as the calls that are left is
    traversed, and a chain that is one block taller is not; a definition at
    the bottom of the first chain would not be recorded either, for want
    of a call for [SummaryPosition]. *)
Example traverse_of_deep_chain :
  Tree.height (Tree.chain 989) = recursion_limit
  /\ TreeSitterParser.traverse recursion_limit "" (Tree.chain 989) 0 FileSummary_new
     = Ok FileSummary_new
  /\ TreeSitterParser.traverse recursion_limit "" (Tree.chain 990) 0 FileSummary_new
     = Raise RecursionError
  /\ TreeSitterParser.traverse 3 ""
       (mkNode "block" [mkNode "block" [Sample.function_node 0 1 4 7]
                          (0%Z, 0%Z) (0%Z, 0%Z) 0 0]
          (0%Z, 0%Z) (0%Z, 0%Z) 0 0) 0 FileSummary_new
     = Raise RecursionError.
Proof. repeat split; vm_compute; reflexivity. Qed.

Lemma starting_line_within_file_witness :
  exists doc',
    Crawler.annotate Sample.doc0 "/repo/pkg/sub" "mod.py" FileSummary_new
      (Sample.chunk Sample.doc0 42 None) = Ok doc'
    /\ exists starting_line,
        metadata doc' !! "starting_line" = Some (VInt starting_line)
        /\ (1 <= starting_line
            <= PyStr.count PyStr.newline (page_content Sample.doc0) + 1)%Z.
Proof.
  eexists. split; [vm_compute; reflexivity|].
  apply (starting_line_within_file Sample.doc0 "/repo/pkg/sub" "mod.py"
           FileSummary_new (Sample.chunk Sample.doc0 42 None)).
  vm_compute. reflexivity.
Defined.

(** A [start_index] of [-1], which stands for "not found", gives the last
    line of the file but one character, and no error. *)
Example negative_start_index :
  exists doc',
    Crawler.annotate Sample.doc0 "/repo/pkg/sub" "mod.py" FileSummary_new
      {| page_content := "hello_world()";
         metadata := {[ "start_index" := VInt (-1) ]} |} = Ok doc'
    /\ metadata doc' !! "starting_line" = Some (VInt 5)
    /\ PyStr.count PyStr.newline (page_content Sample.doc0) = 5%Z.
Proof.
  eexists. split; [vm_compute; reflexivity|]. split; vm_compute; reflexivity.
Qed.

Lemma starting_line_monotone_witness :
  exists doc1' doc2',
    Crawler.annotate Sample.doc0 "/repo/pkg/sub" "mod.py" FileSummary_new
      (Sample.chunk Sample.doc0 0 (Some 42%Z)) = Ok doc1'
    /\ Crawler.annotate Sample.doc0 "/repo/pkg/sub" "mod.py" FileSummary_new
         (Sample.chunk Sample.doc0 42 None) = Ok doc2'
    /\ metadata (Sample.chunk Sample.doc0 0 (Some 42%Z)) !! "start_index"
       = Some (VInt 0)
    /\ metadata (Sample.chunk Sample.doc0 42 None) !! "start_index"
       = Some (VInt 42)
    /\ (0 <= 0 <= 42)%Z
    /\ exists line1 line2,
        metadata doc1' !! "starting_line" = Some (VInt line1)
        /\ metadata doc2' !! "starting_line" = Some (VInt line2)
        /\ (line1 <= line2)%Z.
Proof.
  do 2 eexists.
  split; [vm_compute; reflexivity|]. split; [vm_compute; reflexivity|].
  split; [reflexivity|]. split; [reflexivity|]. split; [lia|].
  apply (starting_line_monotone Sample.doc0 "/repo/pkg/sub" "mod.py"
           FileSummary_new
           (Sample.chunk Sample.doc0 0 (Some 42%Z)) _
           (Sample.chunk Sample.doc0 42 None) _ 0 42);
    try (vm_compute; reflexivity). lia.
Defined.

Lemma ending_line_of_slice_witness :
  exists doc',
    Crawler.annotate Sample.doc0 "/repo/pkg/sub" "mod.py" FileSummary_new
      (Sample.chunk Sample.doc0 0 (Some 42%Z)) = Ok doc'
    /\ metadata (Sample.chunk Sample.doc0 0 (Some 42%Z)) !! "start_index"
       = Some (VInt 0)
    /\ (0 <= 0)%Z /\ (0 <= 42)%Z
    /\ page_content (Sample.chunk Sample.doc0 0 (Some 42%Z))
       = PyStr.slice (page_content Sample.doc0) (Some 0%Z) (Some (0 + 42)%Z)
    /\ metadata doc' !! "ending_line"
       = Some (VInt (PyStr.count PyStr.newline
                       (PyStr.slice (page_content Sample.doc0) (Some 0%Z)
                                    (Some (0 + 42)%Z))
                     + 1)).
Proof.
  eexists.
  split; [vm_compute; reflexivity|]. split; [reflexivity|].
  split; [lia|]. split; [lia|]. split; [reflexivity|].
  apply (ending_line_of_slice Sample.doc0 "/repo/pkg/sub" "mod.py"
           FileSummary_new (Sample.chunk Sample.doc0 0 (Some 42%Z)) _ 0 42);
    try (vm_compute; reflexivity); lia.
Defined.

Lemma run_loads_every_queued_file_witness :
  exists docs trace,
    Crawler.crawl_and_split "/repo" 42 0 = (Ok docs, trace)
    /\ exists files log,
        Crawler.filter_files "/repo" = (Ok files, log)
        /\ Trace.loads trace = map Trace.path_of files
        /\ length (Trace.errors trace)
           = length (List.filter
                       (fun ff =>
                          match fst (Crawler.process_and_split ff 42 0) with
                          | None => true
                          | Some _ => false
                          end) files)
        /\ Trace.infos trace = Trace.infos log.
Proof.
  do 2 eexists. split; [vm_compute; reflexivity|].
  eapply (run_loads_every_queued_file "/repo" 42 0). vm_compute. reflexivity.
Defined.

Example loads_of_sample_run :
  exists docs trace,
    Crawler.crawl_and_split "/repo" 42 0 = (Ok docs, trace)
    /\ Trace.loads trace
       = ["/repo/README.md"; "/repo/pkg/sub/mod.py"; "/repo/pkg/sub/bad.py"]
    /\ Trace.processed trace = ["/repo/README.md"; "/repo/pkg/sub/mod.py"]
    /\ length (Trace.errors trace) = 1%nat
    /\ length (Trace.infos trace) = 3%nat.
Proof.
  do 2 eexists. split; [vm_compute; reflexivity|]. repeat split; reflexivity.
Qed.

Lemma run_output_is_annotated_witness :
  exists docs trace doc,
    Crawler.crawl_and_split "/repo" 42 0 = (Ok docs, trace)
    /\ In doc docs
    /\ exists files log ff starting_line ending_line context body,
        Crawler.filter_files "/repo" = (Ok files, log)
        /\ In ff files
        /\ metadata doc !! "starting_line" = Some (VInt starting_line)
        /\ metadata doc !! "ending_line" = Some (VInt ending_line)
        /\ (1 <= starting_line <= ending_line)%Z
        /\ page_content doc
           = Spec.annotated_text_with " " (Trace.path_of ff)
               starting_line ending_line context body.
Proof.
  do 3 eexists. split; [vm_compute; reflexivity|].
  split; [left; reflexivity|].
  eapply (run_output_is_annotated "/repo" 42 0).
  - vm_compute. reflexivity.
  - left. reflexivity.
Defined.

(** A class with a method and a function with a nested function: two
    classes' and three functions' worth of nodes, one class and three
    functions found, the outer ones before the inner ones. *)
Lemma traverse_collects_preorder_witness :
  exists fs',
    TreeSitterParser.traverse recursion_limit "class C f g h i"
      SampleHere.nested_tree 0 FileSummary_new = Ok fs'
    /\ methods fs'
       = (methods FileSummary_new
          ++ Tree.spans "class C f g h i" "function_definition"
               (Tree.preorder SampleHere.nested_tree))%list
    /\ classes fs'
       = (classes FileSummary_new
          ++ Tree.spans "class C f g h i" "class_specifier"
               (Tree.preorder SampleHere.nested_tree))%list
    /\ length (methods fs')
       = (length (methods FileSummary_new)
          + length (List.filter (Tree.is_type "function_definition")
                      (Tree.preorder SampleHere.nested_tree)))%nat
    /\ length (classes fs')
       = (length (classes FileSummary_new)
          + length (List.filter (Tree.is_type "class_specifier")
                      (Tree.preorder SampleHere.nested_tree)))%nat.
Proof.
  eexists. split; [vm_compute; reflexivity|].
  apply (traverse_collects_preorder recursion_limit "class C f g h i"
           SampleHere.nested_tree 0 FileSummary_new).
  vm_compute. reflexivity.
Defined.

Example traverse_of_nested_tree :
  TreeSitterParser.traverse recursion_limit "class C f g h i" SampleHere.nested_tree 0
    FileSummary_new
  = Ok {| methods := [mkSummaryPosition "f" 1 2; mkSummaryPosition "g" 5 8;
                      mkSummaryPosition "h" 6 7];
          classes := [mkSummaryPosition "C" 0 3] |}.
Proof. vm_compute. reflexivity. Qed.

Lemma summary_is_sorted_spans_witness :
  exists fs st',
    TreeSitterParser.extension_to_language !! snd (OsPath.splitext "x.py")
    = Some "python"
    /\ TreeSitterParser.get_file_summary TreeSitterParser.initial
         "abc defghijklmnopq" "x.py" = (Ok fs, st')
    /\ exists language root_node,
        TreeSitterParser.languages st' !! "python" = Some language
        /\ parse language "abc defghijklmnopq" = Ok root_node
        /\ methods fs
           = PyList.sorted
               (Tree.spans "abc defghijklmnopq" "function_definition"
                  (Tree.preorder root_node))
               start_line
        /\ classes fs
           = PyList.sorted
               (Tree.spans "abc defghijklmnopq" "class_specifier"
                  (Tree.preorder root_node))
               start_line.
Proof.
  do 2 eexists. split; [reflexivity|]. split; [vm_compute; reflexivity|].
  eapply (summary_is_sorted_spans TreeSitterParser.initial
            "abc defghijklmnopq" "x.py"); [reflexivity|].
  vm_compute. reflexivity.
Defined.

Lemma summary_ties_keep_order_witness :
  exists fs st',
    TreeSitterParser.extension_to_language !! snd (OsPath.splitext "x.py")
    = Some "python"
    /\ TreeSitterParser.get_file_summary TreeSitterParser.initial
         "abc defghijklmnopq" "x.py" = (Ok fs, st')
    /\ exists language root_node,
        parse language "abc defghijklmnopq" = Ok root_node
        /\ List.filter (fun span => (start_line span =? 4)%Z) (methods fs)
           = List.filter (fun span => (start_line span =? 4)%Z)
               (Tree.spans "abc defghijklmnopq" "function_definition"
                  (Tree.preorder root_node))
        /\ List.filter (fun span => (start_line span =? 4)%Z) (classes fs)
           = List.filter (fun span => (start_line span =? 4)%Z)
               (Tree.spans "abc defghijklmnopq" "class_specifier"
                  (Tree.preorder root_node)).
Proof.
  do 2 eexists. split; [reflexivity|]. split; [vm_compute; reflexivity|].
  eapply (summary_ties_keep_order TreeSitterParser.initial
            "abc defghijklmnopq" "x.py" _ _ "python" 4); [reflexivity|].
  vm_compute. reflexivity.
Defined.

(** Two functions that start on the same line, and one before them: the
    sort moves the early one to the front and leaves the two as they came. *)
Example sorted_is_stable :
  PyList.sorted
    [mkSummaryPosition "outer" 3 9; mkSummaryPosition "inner" 3 4;
     mkSummaryPosition "first" 1 2] start_line
  = [mkSummaryPosition "first" 1 2; mkSummaryPosition "outer" 3 9;
     mkSummaryPosition "inner" 3 4].
Proof. reflexivity. Qed.

Lemma registry_loaded_once_witness :
  exists fs st',
    TreeSitterParser.get_file_summary TreeSitterParser.initial
      "abc defghijklmnopq" "x.py" = (Ok fs, st')
    /\ TreeSitterParser.loaded st' = true
    /\ (TreeSitterParser.loaded TreeSitterParser.initial = true ->
        st' = TreeSitterParser.initial)
    /\ forall code2 file_name2,
        TreeSitterParser.get_file_summary st' code2 file_name2
        = (TreeSitterParser.summarize st' code2 file_name2, st').
Proof.
  do 2 eexists. split; [vm_compute; reflexivity|].
  eapply (registry_loaded_once TreeSitterParser.initial "abc defghijklmnopq" "x.py").
  vm_compute. reflexivity.
Defined.

Lemma failed_build_raises_witness :
  TreeSitterParser.loaded TreeSitterParser.initial = false
  /\ TreeSitterParser.LANGUAGE_NAMES
     = (["python"; "java"; "cpp"; "go"] ++ "rust" :: ["ruby"; "php"])%list
  /\ Forall (fun name =>
               exists u,
                 @build_library SampleHere.broken_tree_sitter
                   ("cache/build/" +:+ name +:+ ".so")
                   ["cache/tree-sitter-" +:+ name] = Ok u)
            ["python"; "java"; "cpp"; "go"]
  /\ @build_library SampleHere.broken_tree_sitter
       ("cache/build/" +:+ "rust" +:+ ".so") ["cache/tree-sitter-" +:+ "rust"]
     = Raise (OtherError "CompileError" "command 'cc' failed")
  /\ forall code file_name,
      @TreeSitterParser.get_file_summary SampleHere.broken_tree_sitter
        TreeSitterParser.initial code file_name
      = (Raise (OtherError "CompileError" "command 'cc' failed"),
         TreeSitterParser.initial).
Proof.
  assert (Forall (fun name =>
                    exists u,
                      @build_library SampleHere.broken_tree_sitter
                        ("cache/build/" +:+ name +:+ ".so")
                        ["cache/tree-sitter-" +:+ name] = Ok u)
                 ["python"; "java"; "cpp"; "go"]) as Hbefore.
  { repeat constructor; exists tt; reflexivity. }
  split; [reflexivity|]. split; [reflexivity|]. split; [exact Hbefore|].
  split; [reflexivity|].
  apply (@failed_build_raises SampleHere.broken_tree_sitter
           TreeSitterParser.initial ["python"; "java"; "cpp"; "go"] "rust"
           ["ruby"; "php"]); [reflexivity | reflexivity | exact Hbefore | reflexivity].
Defined.

Lemma grammars_cover_table_witness :
  exists st1,
    TreeSitterParser.initialize_treesitter TreeSitterParser.initial = (Ok tt, st1)
    /\ TreeSitterParser.loaded st1 = true
    /\ forall extension language_name,
        TreeSitterParser.extension_to_language !! extension = Some language_name ->
        exists grammar,
          PyDict.getitem (TreeSitterParser.languages st1) language_name = Ok grammar
          /\ Language_new ("/tmp/" +:+ language_name +:+ ".so") language_name
             = Ok grammar.
Proof.
  eexists. split; [vm_compute; reflexivity|].
  apply (grammars_cover_table TreeSitterParser.initial). vm_compute. reflexivity.
Defined.

(** Two heaps that hold the second chunk of the sample file at different
    addresses and among different objects, and a resolver that has not
    been called yet in one run and has been called seven times in the other. *)
Lemma annotation_state_free_witness :
  (forall r r' fs starting_line ending_line,
      fst (SampleHeap.counting_resolver r fs starting_line ending_line)
      = fst (SampleHeap.counting_resolver r' fs starting_line ending_line))
  /\ InPlace.text (InPlace.documents SampleHeap.heap 0)
     = InPlace.text (InPlace.documents SampleHeap.other_heap 5)
  /\ InPlace.value SampleHeap.heap 2 = InPlace.value SampleHeap.other_heap 6
  /\ fst (InPlace.annotate SampleHeap.counting_resolver 0 "/repo/pkg/sub" "mod.py"
            FileSummary_new 2 (SampleHeap.heap, 0%nat))
     = fst (InPlace.annotate SampleHeap.counting_resolver 5 "/repo/pkg/sub" "mod.py"
              FileSummary_new 6 (SampleHeap.other_heap, 7%nat))
  /\ InPlace.value
       (fst (snd (InPlace.annotate SampleHeap.counting_resolver 0 "/repo/pkg/sub"
                    "mod.py" FileSummary_new 2 (SampleHeap.heap, 0%nat)))) 2
     = InPlace.value
         (fst (snd (InPlace.annotate SampleHeap.counting_resolver 5 "/repo/pkg/sub"
                      "mod.py" FileSummary_new 6 (SampleHeap.other_heap, 7%nat)))) 6
  /\ (forall d,
         d <> 2%nat ->
         InPlace.documents
           (fst (snd (InPlace.annotate SampleHeap.counting_resolver 0 "/repo/pkg/sub"
                        "mod.py" FileSummary_new 2 (SampleHeap.heap, 0%nat)))) d
         = InPlace.documents SampleHeap.heap d)
  /\ (forall a,
         a <> InPlace.metadata_at (InPlace.documents SampleHeap.heap 2) ->
         InPlace.dicts
           (fst (snd (InPlace.annotate SampleHeap.counting_resolver 0 "/repo/pkg/sub"
                        "mod.py" FileSummary_new 2 (SampleHeap.heap, 0%nat)))) a
         = InPlace.dicts SampleHeap.heap a).
Proof.
  assert (forall r r' fs starting_line ending_line,
             fst (SampleHeap.counting_resolver r fs starting_line ending_line)
             = fst (SampleHeap.counting_resolver r' fs starting_line ending_line))
    as Hfree by reflexivity.
  split; [exact Hfree|]. split; [reflexivity|]. split; [reflexivity|].
  apply (annotation_state_free SampleHeap.counting_resolver
           0%nat 2%nat SampleHeap.heap 0%nat 5%nat 6%nat SampleHeap.other_heap 7%nat
           "/repo/pkg/sub" "mod.py" FileSummary_new Hfree);
    reflexivity.
Defined.

(** The chunk is state: the body run a second time for the same object
    finds the text and the line numbers that the first run wrote, wraps the
    text once more and counts the three line breaks of the frame. *)
Example second_run_on_the_same_object :
  let once :=
    InPlace.annotate_each SampleHeap.counting_resolver 0 "/repo/pkg/sub" "mod.py"
      FileSummary_new [2%nat] (SampleHeap.heap, 0%nat) in
  let twice :=
    InPlace.annotate_each SampleHeap.counting_resolver 0 "/repo/pkg/sub" "mod.py"
      FileSummary_new [2%nat; 2%nat] (SampleHeap.heap, 0%nat) in
  fst once = Ok tt /\ fst twice = Ok tt
  /\ metadata (InPlace.value (fst (snd once)) 2) !! "ending_line" = Some (VInt 6)
  /\ metadata (InPlace.value (fst (snd twice)) 2) !! "ending_line" = Some (VInt 9)
  /\ String.length (page_content (InPlace.value (fst (snd once)) 2)) = 227%nat
  /\ String.length (page_content (InPlace.value (fst (snd twice)) 2)) = 415%nat.
Proof. repeat split; vm_compute; reflexivity. Qed.

(** A resolver whose answer depends on its state: the two runs of the
    witness above no longer end alike. *)
Example stateful_resolver_shows :
  (exists r r' fs starting_line ending_line,
      fst (SampleHeap.numbering_resolver r fs starting_line ending_line)
      <> fst (SampleHeap.numbering_resolver r' fs starting_line ending_line))
  /\ InPlace.value SampleHeap.heap 2 = InPlace.value SampleHeap.other_heap 6
  /\ InPlace.value
       (fst (snd (InPlace.annotate SampleHeap.numbering_resolver 0 "/repo/pkg/sub"
                    "mod.py" FileSummary_new 2 (SampleHeap.heap, 0%nat)))) 2
     <> InPlace.value
          (fst (snd (InPlace.annotate SampleHeap.numbering_resolver 5 "/repo/pkg/sub"
                       "mod.py" FileSummary_new 6 (SampleHeap.other_heap, 7%nat)))) 6.
Proof.
  split; [|split; [reflexivity|]].
  - exists 0%nat, 7%nat, FileSummary_new, 1%Z, 1%Z. vm_compute. discriminate.
  - intros Heq. apply (f_equal page_content) in Heq. vm_compute in Heq.
    discriminate.
Qed.

(** The two chunks of the sample file, annotated where they are. *)
Lemma in_place_loop_is_annotate_each_witness :
  (forall r fs starting_line ending_line,
      fst (SampleHeap.counting_resolver r fs starting_line ending_line)
      = get_closest_method_class_in_snippet fs starting_line ending_line)
  /\ NoDup [1%nat; 2%nat]
  /\ (0%nat ∉ [1%nat; 2%nat])
  /\ NoDup (map (fun d => InPlace.metadata_at (InPlace.documents SampleHeap.heap d))
              [1%nat; 2%nat])
  /\ match Crawler.annotate_each (InPlace.value SampleHeap.heap 0) "/repo/pkg/sub"
             "mod.py" FileSummary_new (map (InPlace.value SampleHeap.heap) [1%nat; 2%nat])
     with
     | Ok out =>
         fst (InPlace.annotate_each SampleHeap.counting_resolver 0 "/repo/pkg/sub"
                "mod.py" FileSummary_new [1%nat; 2%nat] (SampleHeap.heap, 0%nat))
         = Ok tt
         /\ map (InPlace.value
                   (fst (snd (InPlace.annotate_each SampleHeap.counting_resolver 0
                                "/repo/pkg/sub" "mod.py" FileSummary_new
                                [1%nat; 2%nat] (SampleHeap.heap, 0%nat)))))
                [1%nat; 2%nat]
            = out
     | Raise e =>
         fst (InPlace.annotate_each SampleHeap.counting_resolver 0 "/repo/pkg/sub"
                "mod.py" FileSummary_new [1%nat; 2%nat] (SampleHeap.heap, 0%nat))
         = Raise e
     end.
Proof.
  assert (forall r fs starting_line ending_line,
             fst (SampleHeap.counting_resolver r fs starting_line ending_line)
             = get_closest_method_class_in_snippet fs starting_line ending_line)
    as Hres by reflexivity.
  assert (NoDup [1%nat; 2%nat]) as Hdocs by (apply (bool_decide_unpack _); reflexivity).
  assert (0%nat ∉ [1%nat; 2%nat]) as Hfile by (apply (bool_decide_unpack _); reflexivity).
  assert (NoDup (map (fun d => InPlace.metadata_at (InPlace.documents SampleHeap.heap d))
                   [1%nat; 2%nat])) as Hdicts
      by (apply (bool_decide_unpack _); reflexivity).
  split; [exact Hres|]. split; [exact Hdocs|]. split; [exact Hfile|].
  split; [exact Hdicts|].
  apply (in_place_loop_is_annotate_each SampleHeap.counting_resolver 0%nat
           "/repo/pkg/sub" "mod.py" FileSummary_new [1%nat; 2%nat] SampleHeap.heap 0%nat
           Hres Hdocs Hfile Hdicts).
Defined.

(** The same chunk object twice in the list: the loop on the objects and the
    loop on the values part. *)
Example aliased_chunks_differ :
  ~ NoDup [2%nat; 2%nat]
  /\ exists out,
      Crawler.annotate_each (InPlace.value SampleHeap.heap 0) "/repo/pkg/sub" "mod.py"
        FileSummary_new (map (InPlace.value SampleHeap.heap) [2%nat; 2%nat]) = Ok out
      /\ map (InPlace.value
                (fst (snd (InPlace.annotate_each SampleHeap.counting_resolver 0
                             "/repo/pkg/sub" "mod.py" FileSummary_new
                             [2%nat; 2%nat] (SampleHeap.heap, 0%nat)))))
             [2%nat; 2%nat]
         <> out.
Proof.
  split.
  - intros Hnd. apply NoDup_cons in Hnd. destruct Hnd as [Hin _].
    apply Hin. left.
  - eexists. split; [vm_compute; reflexivity|].
    intros Heq.
    apply (f_equal (fun l => String.length
                               (page_content (default Sample.doc0 (l !! 0%nat)))))
      in Heq.
    vm_compute in Heq. discriminate.
Qed.
